(** * sports-store: a verification model of [app.py]

    The Flask application is embedded shallowly.  Text is [string], the
    UTF-8 bytes of a Python [str]: [strip] removes every character Python
    counts as whitespace, one to three bytes long; case folding moves the
    ASCII letters only (none of the accepted image extensions, and no LIKE
    comparison of SQLite, folds a character outside them).  The session is
    a record of the keys the application uses, the two SQLite tables are
    lists of rows in rowid order, and every route is a function in a small
    state-and-exception monad over the session, the database and a log of
    the statements executed, so that "no database access" is a statement
    about the log.  A [price] cell holds what SQLite keeps there: a number,
    or the bound text itself when the text does not read as a number. *)

From Stdlib Require Import List String Ascii ZArith Bool Lia Arith Sorted Permutation.
Import ListNotations.
Open Scope string_scope.
Open Scope Z_scope.

(** ** Python text primitives *)

Module PyStr.

(** [str.isspace] on the ASCII range: TAB..CR, FS..US and the blank. *)
Definition is_space (c : ascii) : bool :=
  let n := nat_of_ascii c in
  ((9 <=? n)%nat && (n <=? 13)%nat)
  || ((28 <=? n)%nat && (n <=? 31)%nat)
  || (n =? 32)%nat.

(** The whitespace characters two bytes long: U+0085 and U+00A0. *)
Definition is_space2 (a b : ascii) : bool :=
  (nat_of_ascii a =? 194)%nat
  && ((nat_of_ascii b =? 133)%nat || (nat_of_ascii b =? 160)%nat).

(** The whitespace characters three bytes long: U+1680, U+2000..U+200A,
    U+2028, U+2029, U+202F, U+205F and U+3000. *)
Definition is_space3 (a b c : ascii) : bool :=
  let x := nat_of_ascii a in
  let y := nat_of_ascii b in
  let z := nat_of_ascii c in
  ((x =? 225) && (y =? 154) && (z =? 128))%nat
  || ((x =? 226) && (y =? 128)
      && (((128 <=? z) && (z <=? 138)) || (z =? 168) || (z =? 169) || (z =? 175)))%nat
  || ((x =? 226) && (y =? 129) && (z =? 159))%nat
  || ((x =? 227) && (y =? 128) && (z =? 128))%nat.

(** The text after one leading whitespace character, if there is one. *)
Definition after_space (s : string) : option string :=
  match s with
  | EmptyString => None
  | String a s1 =>
      if is_space a then Some s1
      else
        match s1 with
        | EmptyString => None
        | String b s2 =>
            if is_space2 a b then Some s2
            else
              match s2 with
              | EmptyString => None
              | String c s3 => if is_space3 a b c then Some s3 else None
              end
        end
  end.

(** [s.lstrip()] *)
Fixpoint lstrip (s : string) : string :=
  match s with
  | EmptyString => s
  | String a s1 =>
      if is_space a then lstrip s1
      else
        match s1 with
        | EmptyString => s
        | String b s2 =>
            if is_space2 a b then lstrip s2
            else
              match s2 with
              | EmptyString => s
              | String c s3 => if is_space3 a b c then lstrip s3 else s
              end
        end
  end.

(** The text is nothing but whitespace. *)
Definition blank (s : string) : bool :=
  match lstrip s with EmptyString => true | String _ _ => false end.

(** [s.rstrip()]: the text up to the point from which on all is
    whitespace. *)
Fixpoint rstrip (s : string) : string :=
  match s with
  | EmptyString => EmptyString
  | String c s' => if blank s then EmptyString else String c (rstrip s')
  end.

(** [s.strip()] *)
Definition strip (s : string) : string := rstrip (lstrip s).

(** [c.lower()] for one byte: only A..Z move. *)
Definition lower_ascii (c : ascii) : ascii :=
  let n := nat_of_ascii c in
  if ((65 <=? n)%nat && (n <=? 90)%nat)%bool then ascii_of_nat (n + 32) else c.

(** [s.lower()] *)
Fixpoint lower (s : string) : string :=
  match s with
  | EmptyString => EmptyString
  | String c s' => String (lower_ascii c) (lower s')
  end.

(** [s.startswith(p)] *)
Fixpoint startswith (s p : string) : bool :=
  match p, s with
  | EmptyString, _ => true
  | String _ _, EmptyString => false
  | String a p', String b s' => Ascii.eqb a b && startswith s' p'
  end.

(** [s.endswith(suffix)] *)
Fixpoint endswith (s suffix : string) : bool :=
  (s =? suffix)%string
  || match s with
     | EmptyString => false
     | String _ s' => endswith s' suffix
     end.

(** [s.endswith((t1, t2, ...))] with a tuple of suffixes *)
Definition endswith_any (s : string) (suffixes : list string) : bool :=
  existsb (endswith s) suffixes.

(** [sub in s] *)
Fixpoint contains (s sub : string) : bool :=
  startswith s sub
  || match s with
     | EmptyString => false
     | String _ s' => contains s' sub
     end.

(** Truthiness of a string: [bool(s)]. *)
Definition truthy (s : string) : bool :=
  match s with EmptyString => false | String _ _ => true end.

End PyStr.

(** ** Python dictionaries with string keys

    A [dict] keeps its keys in insertion order; assigning to an existing
    key keeps the key's position.  The cart's line items are produced in
    that order, so the dictionary is an association list. *)

Module PyDict.

Definition dict (V : Type) := list (string * V).

Section Ops.
Context {V : Type}.

(** [d.get(k)] *)
Fixpoint get (k : string) (d : dict V) : option V :=
  match d with
  | [] => None
  | (k', v) :: d' => if (k' =? k)%string then Some v else get k d'
  end.

(** [d.get(k, default)] *)
Definition get_default (k : string) (default : V) (d : dict V) : V :=
  match get k d with Some v => v | None => default end.

(** [d[k] = v] *)
Fixpoint set (k : string) (v : V) (d : dict V) : dict V :=
  match d with
  | [] => [(k, v)]
  | (k', v') :: d' =>
      if (k' =? k)%string then (k', v) :: d' else (k', v') :: set k v d'
  end.

(** [k in d] *)
Definition mem (k : string) (d : dict V) : bool :=
  match get k d with Some _ => true | None => false end.

(** [del d[k]] for a key that is present *)
Fixpoint del (k : string) (d : dict V) : dict V :=
  match d with
  | [] => []
  | (k', v') :: d' => if (k' =? k)%string then d' else (k', v') :: del k d'
  end.

Definition keys (d : dict V) : list string := map fst d.

(** One step of a stable sort by key. *)
Fixpoint insert_by_key (entry : string * V) (d : dict V) : dict V :=
  match d with
  | [] => [entry]
  | other :: d' =>
      if String.leb (fst entry) (fst other) then entry :: other :: d'
      else other :: insert_by_key entry d'
  end.

(** The dictionary as [json.dumps(..., sort_keys=True)] writes it and
    [json.loads] reads it back: the keys in code-point order. *)
Definition sort_keys (d : dict V) : dict V := fold_right insert_by_key [] d.

(** The order of the keys of two entries. *)
Definition key_le (a b : string * V) : Prop := String.leb (fst a) (fst b) = true.

(** The keys are in code-point order. *)
Definition sorted (d : dict V) : Prop := StronglySorted key_le d.

End Ops.

End PyDict.

(** ** SQLite's LIKE

    [%] matches any run of characters, [_] exactly one (here: one byte),
    every other pattern character matches itself up to ASCII case; there
    is no escape character unless the statement names one, and [app.py]
    names none.  Pattern and text end at their first NUL character. *)

Module Sqlite.

Definition percent : ascii := "%"%char.
Definition underscore : ascii := "_"%char.



(** [patternCompare] of SQLite's [func.c], on the characters of pattern
    and text. *)
Fixpoint pattern_compare (p s : string) {struct p} : bool :=
  match p with
  | EmptyString => match s with EmptyString => true | String _ _ => false end
  | String c p' =>
      if Ascii.eqb c percent then
        (fix rest (s : string) : bool :=
           pattern_compare p' s
           || match s with
              | EmptyString => false
              | String _ s' => rest s'
              end) s
      else if Ascii.eqb c underscore then
        match s with
        | EmptyString => false
        | String _ s' => pattern_compare p' s'
        end
      else
        match s with
        | EmptyString => false
        | String d s' =>
            Ascii.eqb (PyStr.lower_ascii c) (PyStr.lower_ascii d) && pattern_compare p' s'
        end
  end.

(** The text up to its first NUL character: what a C string holds. *)
Fixpoint c_string (s : string) : string :=
  match s with
  | EmptyString => EmptyString
  | String c s' => if Ascii.eqb c Ascii.zero then EmptyString else String c (c_string s')
  end.


(** [s LIKE p]: SQLite hands pattern and text to [patternCompare] as C
    strings. *)
Definition like (p s : string) : bool := pattern_compare (c_string p) (c_string s).

End Sqlite.

(** ** Outcomes of a request

    A route either returns or lets a Python exception escape:
    [TypeError]; the [OverflowError] of an integer that SQLite, a float or
    an index cannot hold; [MemoryError]; or [sqlite3.IntegrityError].  It
    reads and writes a state on the way. *)

Inductive exn : Type := TypeError | OverflowError | MemoryError | IntegrityError.

Inductive outcome (A : Type) : Type :=
| Returned (a : A)
| Raised (e : exn).
Arguments Returned {A} a.
Arguments Raised {A} e.

Definition state_exn (W A : Type) : Type := W -> outcome A * W.

Definition ret {W A} (a : A) : state_exn W A := fun w => (Returned a, w).

Definition bind {W A B} (m : state_exn W A) (k : A -> state_exn W B) : state_exn W B :=
  fun w =>
    match m w with
    | (Returned a, w') => k a w'
    | (Raised e, w') => (Raised e, w')
    end.

Definition raise {W A} (e : exn) : state_exn W A := fun w => (Raised e, w).

Declare Scope request_scope.
Delimit Scope request_scope with request.
Notation "x <- m ;; k" := (bind m (fun x => k))
  (at level 100, m at next level, right associativity) : request_scope.
Notation "m ;; k" := (bind m (fun _ => k))
  (at level 100, right associativity) : request_scope.

(** ** Numbers

    [float(...)], the comparison with zero, the arithmetic of the cart
    total and the conversion SQLite applies to a text bound into the
    [price] column (declared REAL by [app.py], INTEGER by [database.py];
    either way a text that does not read as a number stays text) belong to
    Python and SQLite, not to the application; the model takes them as an
    interface.  The numbers are what a price or a total can be: Python's
    floats and, for [total = 0] and the INTEGER column, its integers. *)

Class PyNumber (num : Type) : Type := {
  (** [float(s)]; [None] stands for [ValueError] *)
  float : string -> option num;
  (** [x <= 0] *)
  le_zero : num -> bool;
  (** the literal [0] of [total = 0] *)
  zero : num;
  (** [total + subtotal]; [None] stands for the [OverflowError] of an
      integer too large to add to a float *)
  add : num -> num -> option num;
  (** [qty * price]; [None] stands for the [OverflowError] of a quantity
      too large to multiply a float *)
  mul_int : Z -> num -> option num;
  (** the number the [price] column keeps for a bound text, when SQLite
      reads the text as a number; otherwise the text is kept as it is *)
  real_affinity : string -> option num;
  (** the exception of [total += qty * text], for a price kept as text:
      [TypeError] from the addition, unless repeating the text fails
      before it ([OverflowError], [MemoryError]) *)
  text_price_error : Z -> string -> exn
}.

(** What a [price] cell holds, and Python reads back: a number or text. *)
Inductive cell (num : Type) : Type :=
| Number (x : num)
| Text (s : string).
Arguments Number {num} x.
Arguments Text {num} s.

(** ** Tables, session, request *)

Section Model.
Context {num : Type} `{PyNumber num}.

(** A row of [products]. *)
Record product : Type := Product {
  p_id : Z;
  p_name : string;
  p_price : cell num;
  p_category : string;
  p_image : string
}.

(** A row of [users]. *)
Record user : Type := User {
  u_id : Z;
  u_username : string;
  u_password_hash : string
}.

(** [product_seq] is the AUTOINCREMENT counter kept in [sqlite_sequence].
    [names_unique] tells which script created [products]: [init_db] of
    [app.py] puts no constraint on [name], [init_db] of [database.py]
    declares it UNIQUE, and each leaves an existing table alone. *)
Record database : Type := Database {
  products : list product;
  users : list user;
  product_seq : Z;
  names_unique : bool
}.

(** The statements the routes execute, for the log. *)
Inductive sql : Type :=
| SelectProducts
| SelectProductsWhere (name_like category_eq : option string)
| InsertProduct (name price category image : string)
| DeleteProduct (product_id : Z)
| SelectImage (product_id : Z)
| UpdateProduct (name price category image : string) (product_id : Z)
| SelectPasswordHash (username : string).

(** What [session["cart"]] can hold: the legacy list of names or the
    name-to-quantity dictionary. *)
Inductive cart_value : Type :=
| CartList (names : list string)
| CartDict (quantities : PyDict.dict Z).

(** The keys the application keeps in the Flask session; [None] is an
    absent key, and [admin_logged_in] is only ever set to [True]. *)
Record session : Type := Session {
  admin_logged_in : bool;
  csrf_token : option string;
  session_cart : option cart_value;
  flashes : list (string * string)
}.

Inductive http_method : Type := GET | POST.

Record request : Type := Request {
  method : http_method;
  args : list (string * string);
  form : list (string * string)
}.

(** [request.form.get(key)] and [request.args.get(key)]: the first value. *)
Fixpoint field (key : string) (fields : list (string * string)) : option string :=
  match fields with
  | [] => None
  | (k, v) :: rest => if (k =? key)%string then Some v else field key rest
  end.

(** [fields.get(key, "")] *)
Definition field_or_empty (key : string) (fields : list (string * string)) : string :=
  match field key fields with Some v => v | None => "" end.

(** A line of the cart page: [dict(product)] with [qty] and [subtotal]. *)
Record line_item : Type := LineItem {
  li_product : product;
  li_qty : Z;
  li_subtotal : num
}.

Inductive endpoint : Type :=
| home_ep | product_page_ep | cart_ep | admin_ep | admin_login_ep.

Inductive response : Type :=
| redirect (target : endpoint)
| render_products (rows : list product) (query category : string)
| render_cart (cart_products : list line_item) (total : num)
| render_admin (rows : list product)
| render_admin_login.

(** ** The state of a request: session, database, statement log *)

Record world : Type := World {
  w_session : session;
  w_db : database;
  w_log : list sql
}.

Definition M (A : Type) : Type := state_exn world A.

Definition get_session : M session := fun w => (Returned (w_session w), w).

Definition put_session (s : session) : M unit :=
  fun w => (Returned tt, World s (w_db w) (w_log w)).

Definition get_database : M database := fun w => (Returned (w_db w), w).

Definition put_database (d : database) : M unit :=
  fun w => (Returned tt, World (w_session w) d (w_log w)).

(** [cursor.execute(stmt, ...)] as far as the log goes. *)
Definition execute (stmt : sql) : M unit :=
  fun w => (Returned tt, World (w_session w) (w_db w) (w_log w ++ [stmt])%list).

(** ** The routes of [app.py] *)

Local Open Scope request_scope.

(** [werkzeug.security.check_password_hash(pwhash, password)] *)
Variable check_password_hash : string -> string -> bool.

(** A loop whose body runs in the monad. *)
Fixpoint for_each {A S : Type} (l : list A) (body : A -> S -> M S) (s : S) : M S :=
  match l with
  | [] => ret s
  | a :: l' => s' <- body a s ;; for_each l' body s'
  end.

(** [flash(message, category)] appends to the session's message queue. *)
Definition flash (message category : string) : M unit :=
  s <- get_session ;;
  put_session (Session (admin_logged_in s) (csrf_token s) (session_cart s)
                 (flashes s ++ [(category, message)])%list).

Definition set_session_cart (c : cart_value) : M unit :=
  s <- get_session ;;
  put_session (Session (admin_logged_in s) (csrf_token s) (Some c) (flashes s)).

Definition get_products : M (list product) :=
  execute SelectProducts ;;
  d <- get_database ;;
  ret (products d).

Definition verify_csrf (r : request) : M bool :=
  s <- get_session ;;
  ret match csrf_token s, field "csrf_token" (form r) with
      | Some session_token, Some form_token =>
          PyStr.truthy session_token && PyStr.truthy form_token
          && (session_token =? form_token)%string
      | _, _ => false
      end.

Definition verify_password (password password_hash : string) : bool :=
  check_password_hash password_hash password.

Definition admin_required (f : M response) : M response :=
  s <- get_session ;;
  if negb (admin_logged_in s) then ret (redirect admin_login_ep) else f.

Definition image_extensions : list string := [".png"; ".jpg"; ".jpeg"; ".webp"].

Definition validate_product_form (name price category image : string) : option string :=
  if negb (PyStr.truthy name) || negb (PyStr.truthy price)
     || negb (PyStr.truthy category) || negb (PyStr.truthy image)
  then Some "All fields are required."
  else
    match float price with
    | None => Some "Price must be a number."
    | Some x =>
        if le_zero x then Some "Price must be greater than zero."
        else if negb (PyStr.endswith_any (PyStr.lower image) image_extensions)
        then Some "Invalid image format."
        else None
    end.

(** *** Public routes *)

(** [name LIKE ?] and [category = ?], each present only for a non-empty
    parameter. *)
Definition where_clause (query category : string) (p : product) : bool :=
  (if PyStr.truthy query
   then Sqlite.like (String Sqlite.percent (query ++ String Sqlite.percent "")) (p_name p)
   else true)
  && (if PyStr.truthy category then (p_category p =? category)%string else true).

Definition product_page (r : request) : M response :=
  let query := PyStr.strip (field_or_empty "q" (args r)) in
  let category := PyStr.strip (field_or_empty "category" (args r)) in
  execute (SelectProductsWhere
             (if PyStr.truthy query
              then Some (String Sqlite.percent (query ++ String Sqlite.percent ""))
              else None)
             (if PyStr.truthy category then Some category else None)) ;;
  d <- get_database ;;
  ret (render_products (filter (where_clause query category) (products d))
         query category).

(** *** Cart routes *)

(** The migration loop: [new_cart[item] = new_cart.get(item, 0) + 1]. *)
Definition migrate_legacy_cart (names : list string) : PyDict.dict Z :=
  fold_left
    (fun new_cart item =>
       PyDict.set item (PyDict.get_default item 0 new_cart + 1) new_cart)
    names [].

Definition add_to_cart (product_name : string) : M response :=
  s <- get_session ;;
  let cart :=
    match session_cart s with
    | Some (CartList names) => migrate_legacy_cart names
    | Some (CartDict quantities) => quantities
    | None => []
    end in
  let cart := PyDict.set product_name (PyDict.get_default product_name 0 cart + 1) cart in
  set_session_cart (CartDict cart) ;;
  ret (redirect product_page_ep).

(** On a list, [product_name in cart] is membership and [del cart[product_name]]
    is an index deletion with a string index. *)
Definition remove_from_cart (product_name : string) : M response :=
  s <- get_session ;;
  cart <- match session_cart s with
          | None => ret (CartDict [])
          | Some (CartDict quantities) =>
              if PyDict.mem product_name quantities
              then ret (CartDict (PyDict.del product_name quantities))
              else ret (CartDict quantities)
          | Some (CartList names) =>
              if existsb (String.eqb product_name) names
              then raise TypeError
              else ret (CartList names)
          end ;;
  set_session_cart cart ;;
  ret (redirect cart_ep).

(** [qty * product["price"]].  With a price kept as text the product is
    the text repeated, which [total += ...] cannot add to a number. *)
Definition times_price (qty : Z) (price : cell num) : M num :=
  match price with
  | Number x =>
      match mul_int qty x with
      | Some subtotal => ret subtotal
      | None => raise OverflowError
      end
  | Text s => raise (text_price_error qty s)
  end.

(** [total += subtotal] *)
Definition add_to_total (total subtotal : num) : M num :=
  match add total subtotal with
  | Some total' => ret total'
  | None => raise OverflowError
  end.

(** The body of the inner loop of [cart], for one row. *)
Definition cart_row (name : string) (qty : Z)
    (row : product) (acc : list line_item * num) : M (list line_item * num) :=
  if (p_name row =? name)%string then
    subtotal <- times_price qty (p_price row) ;;
    total <- add_to_total (snd acc) subtotal ;;
    ret ((fst acc ++ [LineItem row qty subtotal])%list, total)
  else ret acc.

(** The two loops of [cart]: for every entry of the cart, every row of
    [get_products()]. *)
Definition cart_loops (items : PyDict.dict Z) (acc : list line_item * num)
  : M (list line_item * num) :=
  for_each items
    (fun entry acc =>
       rows <- get_products ;;
       for_each rows (cart_row (fst entry) (snd entry)) acc)
    acc.

Definition cart : M response :=
  s <- get_session ;;
  items <- match session_cart s with
           | None => ret []
           | Some (CartDict quantities) => ret quantities
           | Some (CartList names) =>
               let new_cart := migrate_legacy_cart names in
               set_session_cart (CartDict new_cart) ;;
               ret new_cart
           end ;;
  acc <- cart_loops items ([], zero) ;;
  ret (render_cart (fst acc) (snd acc)).

(** *** Admin routes *)

Definition admin : M response :=
  admin_required (
    rows <- get_products ;;
    ret (render_admin rows)).

(** AUTOINCREMENT: one more than the largest rowid the table ever had. *)
Definition next_rowid (d : database) : Z :=
  Z.max (product_seq d) (fold_right Z.max 0 (map p_id (products d))) + 1.

(** The cell a text bound into [price] becomes. *)
Definition price_cell (price : string) : cell num :=
  match real_affinity price with
  | Some x => Number x
  | None => Text price
  end.

(** The integers SQLite holds: 64 bits, signed. *)
Definition sqlite_integer (n : Z) : bool :=
  (- 2 ^ 63 <=? n) && (n <? 2 ^ 63).

(** Binding a Python [int] as a statement parameter: outside 64 bits
    [sqlite3] raises [OverflowError] before the statement runs. *)
Definition bind_integer (n : Z) : M unit :=
  if sqlite_integer n then ret tt else raise OverflowError.

(** Some row carries the name. *)
Definition name_taken (name : string) (rows : list product) : bool :=
  existsb (fun p => (p_name p =? name)%string) rows.

(** [INSERT INTO products]: on a table with UNIQUE names a second row of
    the same name is an [IntegrityError], and nothing is written. *)
Definition insert_product (name price category image : string) : M unit :=
  execute (InsertProduct name price category image) ;;
  d <- get_database ;;
  if names_unique d && name_taken name (products d) then raise IntegrityError
  else
    let rowid := next_rowid d in
    put_database
      (Database
         (products d ++ [Product rowid name (price_cell price) category image])%list
         (users d) rowid (names_unique d)).

Definition delete_product (product_id : Z) : M unit :=
  bind_integer product_id ;;
  execute (DeleteProduct product_id) ;;
  d <- get_database ;;
  put_database
    (Database (filter (fun p => negb (p_id p =? product_id)) (products d))
       (users d) (product_seq d) (names_unique d)).

(** [SELECT image FROM products WHERE id = ?] then [fetchone()]. *)
Definition select_image (product_id : Z) : M (option string) :=
  bind_integer product_id ;;
  execute (SelectImage product_id) ;;
  d <- get_database ;;
  ret (option_map p_image (find (fun p => p_id p =? product_id) (products d))).

(** The UPDATE would give the name of another row to the row with the id,
    on a table with UNIQUE names ([id] is the primary key). *)
Definition rename_clashes (name : string) (product_id : Z) (d : database) : bool :=
  names_unique d
  && existsb (fun p => p_id p =? product_id) (products d)
  && name_taken name (filter (fun p => negb (p_id p =? product_id)) (products d)).

Definition update_product (name price category image : string) (product_id : Z) : M unit :=
  bind_integer product_id ;;
  execute (UpdateProduct name price category image product_id) ;;
  d <- get_database ;;
  if rename_clashes name product_id d then raise IntegrityError
  else
    put_database
      (Database
         (map (fun p =>
                 if p_id p =? product_id
                 then Product (p_id p) name (price_cell price) category image
                 else p)
            (products d))
         (users d) (product_seq d) (names_unique d)).

Definition admin_add (r : request) : M response :=
  admin_required (
    ok <- verify_csrf r ;;
    if negb ok then
      flash "Invalid CSRF token" "danger" ;;
      ret (redirect admin_ep)
    else
      let name := PyStr.strip (field_or_empty "name" (form r)) in
      let price := PyStr.strip (field_or_empty "price" (form r)) in
      let category := PyStr.strip (field_or_empty "category" (form r)) in
      let image := PyStr.strip (field_or_empty "image" (form r)) in
      match validate_product_form name price category image with
      | Some error =>
          flash error "error" ;;
          ret (redirect admin_ep)
      | None =>
          insert_product name price category image ;;
          flash "Product added successfully!" "success" ;;
          ret (redirect admin_ep)
      end).

Definition admin_delete (product_id : Z) : M response :=
  admin_required (
    delete_product product_id ;;
    flash "Product deleted" "warning" ;;
    ret (redirect admin_ep)).

(** The route carries no [@admin_required]. *)
Definition admin_update (product_id : Z) (r : request) : M response :=
  ok <- verify_csrf r ;;
  if negb ok then
    flash "Invalid CSRF token" "danger" ;;
    ret (redirect admin_ep)
  else
    let name := PyStr.strip (field_or_empty "name" (form r)) in
    let price := PyStr.strip (field_or_empty "price" (form r)) in
    let category := PyStr.strip (field_or_empty "category" (form r)) in
    let image := PyStr.strip (field_or_empty "image" (form r)) in
    match (if PyStr.truthy image
           then validate_product_form name price category image
           else None) with
    | Some error =>
        flash error "error" ;;
        ret (redirect admin_ep)
    | None =>
        image <- (if negb (PyStr.truthy image) then
                    row <- select_image product_id ;;
                    match row with
                    | Some stored => ret stored
                    | None => raise TypeError
                    end
                  else ret image) ;;
        update_product name price category image product_id ;;
        flash "Product updated successfully!" "info" ;;
        ret (redirect admin_ep)
    end.

(** *** Auth routes *)

Definition select_password_hash (username : string) : M (option string) :=
  execute (SelectPasswordHash username) ;;
  d <- get_database ;;
  ret (option_map u_password_hash
         (find (fun u => (u_username u =? username)%string) (users d))).

Definition admin_login (r : request) : M response :=
  match method r with
  | POST =>
      let username := PyStr.strip (field_or_empty "username" (form r)) in
      let password := PyStr.strip (field_or_empty "password" (form r)) in
      if negb (PyStr.truthy username) || negb (PyStr.truthy password) then
        flash "Username and password are required" "danger" ;;
        ret (redirect admin_login_ep)
      else
        user <- select_password_hash username ;;
        match user with
        | Some password_hash =>
            if negb (verify_password password password_hash) then
              flash "Invalid username or password" "danger" ;;
              ret (redirect admin_login_ep)
            else
              s <- get_session ;;
              put_session (Session true (csrf_token s) (session_cart s) (flashes s)) ;;
              ret (redirect admin_ep)
        | None =>
            flash "Invalid username or password" "danger" ;;
            ret (redirect admin_login_ep)
        end
  | GET => ret render_admin_login
  end.

(** [session.clear()] *)
Definition admin_logout : M response :=
  put_session (Session false None None []) ;;
  ret (redirect home_ep).

End Model.

(** The row, table and page types name their number type. *)
Arguments product num : clear implicits.
Arguments database num : clear implicits.
Arguments line_item num : clear implicits.
Arguments response num : clear implicits.
Arguments world num : clear implicits.
Arguments M num A : clear implicits.

(** ** A store with whole-number prices

    The rows of [seed_products.py] carry integer prices; over them the
    interface is read in [Z], with [float] and the conversion of the
    [price] column both reading plain decimal integers (an optional sign,
    then digits) and nothing else. *)

Definition digit_value (c : ascii) : option Z :=
  let n := nat_of_ascii c in
  if ((48 <=? n)%nat && (n <=? 57)%nat)%bool then Some (Z.of_nat (n - 48)) else None.

Fixpoint digits_value (s : string) (acc : Z) : option Z :=
  match s with
  | EmptyString => Some acc
  | String c s' =>
      match digit_value c with
      | Some d => digits_value s' (10 * acc + d)
      | None => None
      end
  end.

Definition whole_number (s : string) : option Z :=
  match s with
  | EmptyString => None
  | String c s' =>
      if Ascii.eqb c "-"%char then
        if PyStr.truthy s' then option_map Z.opp (digits_value s' 0) else None
      else if Ascii.eqb c "+"%char then
        if PyStr.truthy s' then digits_value s' 0 else None
      else digits_value s 0
  end.

(** Whole numbers never overflow.  A text is repeated when the quantity
    and the length of the result are index-sized and the result takes less
    than 2 GiB. *)
#[export] Instance whole_prices : PyNumber Z := {
  float := whole_number;
  le_zero := fun x => x <=? 0;
  zero := 0;
  add := fun x y => Some (x + y);
  mul_int := fun qty x => Some (qty * x);
  real_affinity := whole_number;
  text_price_error := fun qty s =>
    if (- 2 ^ 63 <=? qty) && (qty <? 2 ^ 63)
       && (Z.max qty 0 * Z.of_nat (String.length s) <? 2 ^ 31)
    then TypeError
    else if (- 2 ^ 63 <=? qty) && (qty <? 2 ^ 63)
            && (Z.max qty 0 * Z.of_nat (String.length s) <? 2 ^ 63)
    then MemoryError
    else OverflowError
}.

(** A whole-number price written as a number is the cell holding it. *)
Definition whole_price (x : Z) : cell Z := Number x.
Coercion whole_price : Z >-> cell.

(** The five rows of [seed_products.py], in insertion order. *)
Definition seeded_products : list (product Z) :=
  [ Product 1 "Football" 499 "Outdoor" "football.jpeg";
    Product 2 "Cricket Bat" 1299 "Outdoor" "cricket_bat.jpeg";
    Product 3 "Tennis Racket" 999 "Indoor" "tennis_racket.jpeg";
    Product 4 "Dumbbells" 999 "Fitness" "dumbbells.jpeg";
    Product 5 "Yoga Mat" 699 "Fitness" "yoga_mat.jpeg" ].

(** One registered account; the stored hash is opaque to the model. *)
Definition seeded_db : database Z :=
  Database seeded_products [User 1 "realuser" "hash-of-secret"] 5 false.

(** The same rows in the table as [database.py] creates it, with names
    UNIQUE. *)
Definition seeded_unique_db : database Z :=
  Database seeded_products [User 1 "realuser" "hash-of-secret"] 5 true.

(** A password check that accepts exactly the password "secret" for the
    hash above. *)
Definition sample_check (password_hash password : string) : bool :=
  (password_hash =? "hash-of-secret")%string && (password =? "secret")%string.

Definition anonymous : session := Session false None None [].

Definition admin_session : session := Session true (Some "t0k3n") None [].

(** A visitor's session that holds a token but not the admin flag. *)
Definition visitor_with_token : session := Session false (Some "t0k3n") None [].

Definition post (fields : list (string * string)) : request := Request POST [] fields.

Definition query (fields : list (string * string)) : request := Request GET fields [].

(** ** What the specification says, in its own words *)

(** The number of times a name occurs in a legacy cart. *)
Definition occurrences (name : string) (names : list string) : Z :=
  Z.of_nat (count_occ string_dec names name).

(** The mapping a legacy cart stands for: each name that occurs, with its
    number of occurrences. *)
Definition counts_occurrences (names : list string) (d : PyDict.dict Z) : Prop :=
  forall name,
    PyDict.get name d =
      if occurrences name names =? 0 then None else Some (occurrences name names).

Section Contract.
Context {num : Type} `{PyNumber num}.

(** [subtotal = qty * current price], where the row holds a number as
    its price and Python computes the product. *)
Definition subtotal (qty : Z) (row : product num) : option num :=
  match p_price row with
  | Number price => mul_int qty price
  | Text _ => None
  end.

(** The current products with a given name. *)
Definition matching (name : string) (rows : list (product num)) : list (product num) :=
  filter (fun row => (p_name row =? name)%string) rows.

(** What a cart shows: for each (name, qty) entry, one pair per current
    product of that name, in cart order and then in row order; an entry
    without a product contributes nothing. *)
Definition cart_matches (quantities : PyDict.dict Z) (rows : list (product num))
  : list (product num * Z) :=
  flat_map (fun entry => map (fun row => (row, snd entry)) (matching (fst entry) rows))
    quantities.

(** The line items of the pairs, each with its subtotal, where every
    subtotal exists. *)
Fixpoint lines_of (pairs : list (product num * Z)) : option (list (line_item num)) :=
  match pairs with
  | [] => Some []
  | (row, qty) :: pairs' =>
      match subtotal qty row, lines_of pairs' with
      | Some amount, Some lines => Some (LineItem row qty amount :: lines)
      | _, _ => None
      end
  end.

(** The line items of a cart over a catalog. *)
Definition cart_lines (quantities : PyDict.dict Z) (rows : list (product num))
  : option (list (line_item num)) :=
  lines_of (cart_matches quantities rows).

(** The amounts added to a running total one after the other, where Python
    computes every addition. *)
Fixpoint sum_from (total : num) (xs : list num) : option num :=
  match xs with
  | [] => Some total
  | x :: xs' =>
      match add total x with
      | Some total' => sum_from total' xs'
      | None => None
      end
  end.

(** [sum(xs)], added left to right from [0]. *)
Definition sum (xs : list num) : option num := sum_from zero xs.



(** The session with one more status message queued. *)
Definition with_flash (s : session) (category message : string) : session :=
  Session (admin_logged_in s) (csrf_token s) (session_cart s)
    (flashes s ++ [(category, message)])%list.

(** The submitted token is missing or is not the session's token. *)
Definition token_missing_or_mismatched (s : session) (r : request) : Prop :=
  field "csrf_token" (form r) = None
  \/ field "csrf_token" (form r) <> csrf_token s.

(** The submitted token is the (non-empty) token issued to the session. *)
Definition token_valid (s : session) (r : request) : Prop :=
  exists token,
    token <> "" /\ csrf_token s = Some token
    /\ field "csrf_token" (form r) = Some token.

(** What a rejected admin submission leaves behind: a redirect to the admin
    listing and one message; tables and statement log as before. *)
Definition rejected (w : world num) (category message : string)
  : outcome (response num) * world num :=
  (Returned (redirect admin_ep),
   World (with_flash (w_session w) category message) (w_db w) (w_log w)).

(** The image ends, up to ASCII case, in one of the accepted extensions. *)
Definition accepted_image (image : string) : Prop :=
  exists extension stem,
    In extension image_extensions /\ PyStr.lower image = stem ++ extension.

End Contract.

(** ** The remaining routes of [app.py]

    [generate_csrf_token], [register] and [admin_edit], over the same
    session and tables.  The statement log has entries for the statements
    on [products] and for the login query only; the statements of
    [register] and the lookup of [admin_edit] act on the tables without an
    entry. *)

Section MoreRoutes.
Context {num : Type} `{PyNumber num}.
Local Open Scope request_scope.

(** [werkzeug.security.generate_password_hash(password)], with the salt it
    draws as its first argument. *)
Variable generate_password_hash : string -> string -> string.

(** What [register] and [admin_edit] answer beyond a [response];
    [integrity_error] is [sqlite3.IntegrityError] leaving the route. *)
Inductive reply : Type :=
| answered (r : response num)
| redirect_register
| render_register
| render_admin_edit (row : option (product num))
| integrity_error.

(** [token_hex] is the value [secrets.token_hex(16)] returns when asked. *)
Definition generate_csrf_token (token_hex : string) : M num string :=
  s <- get_session ;;
  match csrf_token s with
  | Some token => ret token
  | None =>
      put_session (Session (admin_logged_in s) (Some token_hex) (session_cart s) (flashes s)) ;;
      ret token_hex
  end.

Definition hash_password (salt password : string) : string :=
  generate_password_hash salt password.

(** [INSERT INTO users (username, password_hash)]: [username] is UNIQUE, so
    [None] is the IntegrityError of a second row with the name.  Rows of
    [users] are never deleted, so the next AUTOINCREMENT rowid is one more
    than the largest present. *)
Definition insert_user (username password_hash : string) (d : database num)
  : option (database num) :=
  if existsb (fun u => (u_username u =? username)%string) (users d) then None
  else
    Some (Database (products d)
            (users d ++ [User (fold_right Z.max 0 (map u_id (users d)) + 1)
                           username password_hash])%list
            (product_seq d) (names_unique d)).

Definition register (salt : string) (r : request) : M num reply :=
  match method r with
  | POST =>
      let username := PyStr.strip (field_or_empty "username" (form r)) in
      let password := PyStr.strip (field_or_empty "password" (form r)) in
      if negb (PyStr.truthy username) || negb (PyStr.truthy password) then
        flash "Username and password are required." "danger" ;;
        ret redirect_register
      else
        d <- get_database ;;
        match find (fun u => (u_username u =? username)%string) (users d) with
        | Some _ =>
            flash "Username already exists." "danger" ;;
            ret redirect_register
        | None =>
            let password_hash := hash_password salt password in
            match insert_user username password_hash d with
            | None => ret integrity_error
            | Some d' =>
                put_database d' ;;
                flash "Account created successfully. Please log in." "success" ;;
                ret (answered (redirect admin_login_ep))
            end
        end
  | GET => ret render_register
  end.

(** The decorator around a route that answers with a [reply]. *)
Definition admin_required_reply (f : M num reply) : M num reply :=
  s <- get_session ;;
  if negb (admin_logged_in s) then ret (answered (redirect admin_login_ep)) else f.

(** The body calls [admin_required()] without the function it decorates:
    Python raises [TypeError] at the call. *)
Definition admin_edit (product_id : Z) : M num reply :=
  admin_required_reply (
    guard <- (raise TypeError : M num bool) ;;
    if negb guard then ret (answered (redirect admin_login_ep))
    else
      d <- get_database ;;
      ret (render_admin_edit (find (fun p => p_id p =? product_id) (products d)))).

End MoreRoutes.

Arguments reply num : clear implicits.

(** ** The database file and the two scripts

    [init_db] of [app.py], [init_db] of [database.py] and the seeding loop
    of [seed_products.py] act on the file before the application serves a
    request: a table may not exist yet, and [products] has the schema of
    whichever [CREATE TABLE IF NOT EXISTS] found it missing.  Prices are
    the integers of the seed list. *)

Inductive price_type : Type := REAL | INTEGER.

Record products_table : Type := ProductsTable {
  unique_name : bool;
  price_column : price_type;
  table_rows : list (product Z);
  table_seq : Z
}.

Record db_file : Type := DbFile {
  file_products : option products_table;
  file_users : option (list user)
}.

(** [init_db] of [app.py]. *)
Definition init_db (f : db_file) : db_file :=
  DbFile
    (match file_products f with
     | Some t => Some t
     | None => Some (ProductsTable false REAL [] 0)
     end)
    (match file_users f with
     | Some rows => Some rows
     | None => Some []
     end).

Module database_py.

(** [init_db] of [database.py]: [name TEXT UNIQUE NOT NULL],
    [price INTEGER NOT NULL], and no [users]. *)
Definition init_db (f : db_file) : db_file :=
  DbFile
    (match file_products f with
     | Some t => Some t
     | None => Some (ProductsTable true INTEGER [] 0)
     end)
    (file_users f).

End database_py.

Module seed_products_py.

Definition products : list (string * Z * string * string) :=
  [ ("Football", 499, "Outdoor", "football.jpeg");
    ("Cricket Bat", 1299, "Outdoor", "cricket_bat.jpeg");
    ("Tennis Racket", 999, "Indoor", "tennis_racket.jpeg");
    ("Dumbbells", 999, "Fitness", "dumbbells.jpeg");
    ("Yoga Mat", 699, "Fitness", "yoga_mat.jpeg") ].

(** One [INSERT INTO products]; [None] is [sqlite3.IntegrityError], which
    leaves table and sequence as they were. *)
Definition insert (t : products_table) (row : string * Z * string * string)
  : option products_table :=
  let '(name, price, category, image) := row in
  if unique_name t && existsb (fun p => (p_name p =? name)%string) (table_rows t)
  then None
  else
    let rowid :=
      Z.max (table_seq t) (fold_right Z.max 0 (map p_id (table_rows t))) + 1 in
    Some (ProductsTable (unique_name t) (price_column t)
            (table_rows t ++ [Product rowid name price category image])%list
            rowid).

(** The name of a seed tuple. *)
Definition name_of (row : string * Z * string * string) : string :=
  fst (fst (fst row)).

(** One turn of the loop: [try: INSERT ... except sqlite3.IntegrityError: pass]. *)
Definition try_insert (t : products_table) (row : string * Z * string * string)
  : products_table :=
  match insert t row with
  | Some t' => t'
  | None => t
  end.

(** The loop over the seed list. *)
Definition seed_table (t : products_table) : products_table :=
  fold_left try_insert products t.

(** The script; [None] is the [sqlite3.OperationalError] of a missing
    [products] table, which nothing catches. *)
Definition seed (f : db_file) : option db_file :=
  match file_products f with
  | Some t => Some (DbFile (Some (seed_table t)) (file_users f))
  | None => None
  end.

End seed_products_py.

(** The database the routes see once both tables exist. *)
Definition serve (f : db_file) : option (database Z) :=
  match file_products f, file_users f with
  | Some t, Some rows =>
      Some (Database (table_rows t) rows (table_seq t) (unique_name t))
  | _, _ => None
  end.

(** ** Vocabulary of the further properties *)

Section Vocabulary.
Context {num : Type} `{PyNumber num}.

(** The state a route leaves behind. *)
Definition after {A : Type} (route : M num A) (w : world num) : world num :=
  snd (route w).

(** The session as the next request finds it.  Flask writes the session
    into the cookie as JSON with sorted keys and reads it back from there:
    a dictionary cart returns with its names in code-point order, a list
    as it was. *)
Definition reload_session (s : session) : session :=
  Session (admin_logged_in s) (csrf_token s)
    (match session_cart s with
     | Some (CartDict quantities) => Some (CartDict (PyDict.sort_keys quantities))
     | other => other
     end)
    (flashes s).

(** The state the next request starts from. *)
Definition reload (w : world num) : world num :=
  World (reload_session (w_session w)) (w_db w) (w_log w).

(** The same route requested [k] times in a row, each request on the
    session the one before left in the cookie. *)
Fixpoint requested (k : nat) (route : M num (response num)) (w : world num) : world num :=
  match k with
  | O => w
  | S k' => requested k' route (reload (after route w))
  end.

(** The quantity the session's cart holds for a name; a legacy list holds
    its occurrences. *)
Definition quantity_of (name : string) (s : session) : Z :=
  match session_cart s with
  | None => 0
  | Some (CartDict quantities) => PyDict.get_default name 0 quantities
  | Some (CartList names) => occurrences name names
  end.

(** The dictionary the cart routes work on: the stored one, the migrated
    legacy list, or the empty one. *)
Definition cart_dict (s : session) : PyDict.dict Z :=
  match session_cart s with
  | None => []
  | Some (CartDict quantities) => quantities
  | Some (CartList names) => migrate_legacy_cart names
  end.

(** The names of the cart are in code-point order, as they are in every
    dictionary read back from the cookie. *)
Definition cart_in_key_order (s : session) : Prop := PyDict.sorted (cart_dict s).

(** The sum of the quantities of a cart. *)
Definition total_quantity (quantities : PyDict.dict Z) : Z :=
  fold_right Z.add 0 (map snd quantities).

(** A dictionary as Python holds it: no key twice. *)
Definition cart_keys_distinct (s : session) : Prop :=
  match session_cart s with
  | Some (CartDict quantities) => NoDup (PyDict.keys quantities)
  | _ => True
  end.

(** Rowids are distinct and none exceeds the AUTOINCREMENT counter. *)
Definition well_keyed (d : database num) : Prop :=
  NoDup (map p_id (products d))
  /\ Forall (fun p => p_id p <= product_seq d) (products d).

(** No username twice, as [UNIQUE] demands. *)
Definition usernames_distinct (d : database num) : Prop :=
  NoDup (map u_username (users d)).

End Vocabulary.

(** The names of a list in order of first occurrence. *)
Fixpoint first_occurrences (names : list string) : list string :=
  match names with
  | [] => []
  | name :: rest =>
      name :: filter (fun other => negb (other =? name)%string) (first_occurrences rest)
  end.

(** A toy password scheme: the hash is the salt, a dollar sign and the
    password; the check reads the password back. *)
Definition toy_hash (salt password : string) : string :=
  salt ++ String "$"%char password.

Definition toy_check (password_hash password : string) : bool :=
  PyStr.endswith password_hash (String "$"%char password).

(** * Facts about the primitives *)

Module PyStrFacts.
Import PyStr.

Lemma truthy_false s : truthy s = false <-> s = "".
Proof. destruct s; simpl; split; congruence. Qed.

Lemma truthy_true s : truthy s = true <-> s <> "".
Proof. destruct s; simpl; split; congruence. Qed.

Lemma endswith_iff s suffix :
  endswith s suffix = true <-> exists pre, s = pre ++ suffix.
Proof.
  induction s as [|c s IH]; cbn -[String.eqb].
  - rewrite orb_false_r, String.eqb_eq. split.
    + intros <-. now exists "".
    + intros [pre E]. destruct pre; simpl in E; [auto | discriminate].
  - rewrite orb_true_iff, String.eqb_eq, IH. split.
    + intros [<- | [pre ->]]; [now exists "" | now exists (String c pre)].
    + intros [[|c' pre] E]; simpl in E.
      * now left.
      * injection E as -> ->. right. now exists pre.
Qed.

Lemma endswith_any_iff s suffixes :
  endswith_any s suffixes = true <->
  exists suffix pre, In suffix suffixes /\ s = pre ++ suffix.
Proof.
  unfold endswith_any. rewrite existsb_exists. split.
  - intros [suffix [Hin Hend]]. apply endswith_iff in Hend as [pre ->].
    now exists suffix, pre.
  - intros [suffix [pre [Hin ->]]]. exists suffix. split; auto.
    apply endswith_iff. now exists pre.
Qed.

End PyStrFacts.

Module PyDictFacts.
Import PyDict.

Section Facts.
Context {V : Type}.
Implicit Types (d : dict V) (k : string) (v : V).

Lemma get_set_same k v d : get k (set k v d) = Some v.
Proof.
  induction d as [|[k' v'] d IH]; simpl.
  - now rewrite String.eqb_refl.
  - destruct (k' =? k)%string eqn:E; simpl; rewrite E; auto.
Qed.

Lemma get_set_other k k' v d : k <> k' -> get k' (set k v d) = get k' d.
Proof.
  intros Hne. induction d as [|[k0 v0] d IH]; simpl.
  - apply String.eqb_neq in Hne. now rewrite Hne.
  - destruct (k0 =? k)%string eqn:E; simpl.
    + apply String.eqb_eq in E. subst k0.
      apply String.eqb_neq in Hne. now rewrite Hne.
    + now rewrite IH.
Qed.

Lemma keys_set k v d :
  keys (set k v d) = if mem k d then keys d else (keys d ++ [k])%list.
Proof.
  unfold mem. induction d as [|[k0 v0] d IH]; simpl; auto.
  destruct (k0 =? k)%string eqn:E; simpl; auto.
  rewrite IH. now destruct (get k d).
Qed.

Lemma get_none_keys k d : get k d = None <-> ~ In k (keys d).
Proof.
  induction d as [|[k0 v0] d IH]; simpl.
  - tauto.
  - destruct (k0 =? k)%string eqn:E.
    + apply String.eqb_eq in E. split; [discriminate | tauto].
    + apply String.eqb_neq in E. rewrite IH. tauto.
Qed.

Lemma NoDup_keys_set k v d : NoDup (keys d) -> NoDup (keys (set k v d)).
Proof.
  intros Hnd. rewrite keys_set. unfold mem.
  destruct (get k d) eqn:E; auto.
  apply get_none_keys in E.
  apply NoDup_rev in Hnd. rewrite <- (rev_involutive (keys d ++ [k])%list).
  apply NoDup_rev. rewrite rev_app_distr. simpl.
  constructor; auto. now rewrite <- in_rev.
Qed.

Lemma get_del_same k d : NoDup (keys d) -> get k (del k d) = None.
Proof.
  induction d as [|[k0 v0] d IH]; simpl; auto.
  intros Hnd. inversion Hnd as [|? ? Hnotin Hnd']; subst.
  destruct (k0 =? k)%string eqn:E; simpl.
  - apply String.eqb_eq in E. subst. now apply get_none_keys.
  - rewrite E. auto.
Qed.

Lemma get_del_other k k' d : k <> k' -> get k' (del k d) = get k' d.
Proof.
  intros Hne. induction d as [|[k0 v0] d IH]; simpl; auto.
  destruct (k0 =? k)%string eqn:E; simpl.
  - apply String.eqb_eq in E. subst k0.
    apply String.eqb_neq in Hne. now rewrite Hne.
  - now rewrite IH.
Qed.

(** *** The order of the keys *)

Lemma ascii_compare_lt_trans (a b c : ascii) :
  Ascii.compare a b = Lt -> Ascii.compare b c = Lt -> Ascii.compare a c = Lt.
Proof.
  unfold Ascii.compare. rewrite !N.compare_lt_iff. apply N.lt_trans.
Qed.

Lemma compare_lt_trans : forall a b c : string,
  String.compare a b = Lt -> String.compare b c = Lt -> String.compare a c = Lt.
Proof.
  induction a as [|x a IH]; intros [|y b] [|z c]; cbn [String.compare];
    try discriminate; try reflexivity.
  destruct (Ascii.compare x y) eqn:XY; try discriminate;
    destruct (Ascii.compare y z) eqn:YZ; try discriminate; intros Hab Hbc.
  - apply Ascii.compare_eq_iff in XY, YZ. subst y z.
    assert (E : Ascii.compare x x = Eq).
    { unfold Ascii.compare. apply N.compare_refl. }
    rewrite E. now apply (IH b c).
  - apply Ascii.compare_eq_iff in XY. subst y. now rewrite YZ.
  - apply Ascii.compare_eq_iff in YZ. subst z. now rewrite XY.
  - now rewrite (ascii_compare_lt_trans x y z XY YZ).
Qed.

Lemma leb_refl (a : string) : String.leb a a = true.
Proof. now destruct (String.leb_total a a). Qed.

Lemma leb_trans (a b c : string) :
  String.leb a b = true -> String.leb b c = true -> String.leb a c = true.
Proof.
  unfold String.leb.
  destruct (String.compare a b) eqn:AB; try discriminate;
    destruct (String.compare b c) eqn:BC; try discriminate; intros _ _.
  - apply String.compare_eq_iff in AB. subst. now rewrite BC.
  - apply String.compare_eq_iff in AB. subst. now rewrite BC.
  - apply String.compare_eq_iff in BC. subst. now rewrite AB.
  - now rewrite (compare_lt_trans a b c AB BC).
Qed.

Lemma leb_false_neq (a b : string) : String.leb a b = false -> a <> b.
Proof. intros Hle ->. now rewrite leb_refl in Hle. Qed.

(** *** Sorting by key *)

(** The sort is stable, so a lookup finds what it found before. *)
Lemma get_insert_by_key k (entry : string * V) d :
  get k (insert_by_key entry d) =
  if (fst entry =? k)%string then Some (snd entry) else get k d.
Proof.
  destruct entry as [k' v']. cbn [fst snd].
  induction d as [|[k0 v0] d IH]; cbn [insert_by_key get fst]; [reflexivity|].
  destruct (String.leb k' k0) eqn:L; cbn [get]; [reflexivity|].
  rewrite IH. apply leb_false_neq in L.
  destruct (String.eqb_spec k0 k) as [->|]; [|reflexivity].
  apply String.eqb_neq in L. now rewrite L.
Qed.

Lemma get_sort_keys k d : get k (sort_keys d) = get k d.
Proof.
  induction d as [|[k0 v0] d IH]; cbn [sort_keys fold_right]; [reflexivity|].
  fold (sort_keys d). rewrite get_insert_by_key. cbn [fst snd get]. now rewrite IH.
Qed.

Lemma insert_by_key_perm (entry : string * V) d :
  Permutation (insert_by_key entry d) (entry :: d).
Proof.
  induction d as [|other d IH]; cbn [insert_by_key]; [reflexivity|].
  destruct (String.leb (fst entry) (fst other)); [reflexivity|].
  rewrite IH. apply perm_swap.
Qed.

Lemma sort_keys_perm d : Permutation (sort_keys d) d.
Proof.
  induction d as [|entry d IH]; cbn [sort_keys fold_right]; [reflexivity|].
  fold (sort_keys d). rewrite insert_by_key_perm. now constructor.
Qed.

Lemma NoDup_keys_sort d : NoDup (keys d) -> NoDup (keys (sort_keys d)).
Proof.
  unfold keys. apply Permutation_NoDup. apply Permutation_map.
  symmetry. apply sort_keys_perm.
Qed.

Lemma length_sort_keys d : List.length (sort_keys d) = List.length d.
Proof. apply Permutation_length, sort_keys_perm. Qed.

Lemma insert_by_key_sorted (entry : string * V) d :
  sorted d -> sorted (insert_by_key entry d).
Proof.
  unfold sorted. induction d as [|other d IH]; intros Hd; cbn [insert_by_key].
  - constructor; constructor.
  - inversion Hd as [|? ? Hd' Hall]; subst.
    destruct (String.leb (fst entry) (fst other)) eqn:L.
    + constructor; [exact Hd|]. constructor; [exact L|].
      eapply Forall_impl; [|exact Hall]. intros later Hlater.
      unfold key_le in *. now apply (leb_trans _ (fst other)).
    + constructor; [now apply IH|].
      apply (Permutation_Forall (Permutation_sym (insert_by_key_perm entry d))).
      constructor; [|exact Hall]. unfold key_le.
      destruct (String.leb_total (fst entry) (fst other)); congruence.
Qed.

Lemma sort_keys_sorted d : sorted (sort_keys d).
Proof.
  induction d as [|entry d IH]; cbn [sort_keys fold_right].
  - constructor.
  - now apply insert_by_key_sorted.
Qed.

Lemma insert_by_key_first (entry : string * V) d :
  Forall (key_le entry) d -> insert_by_key entry d = entry :: d.
Proof.
  intros Hall. destruct d as [|other d]; cbn [insert_by_key]; [reflexivity|].
  inversion Hall as [|? ? Hle _]; subst. unfold key_le in Hle. now rewrite Hle.
Qed.

(** A dictionary in key order is written and read back as it is. *)
Lemma sort_keys_of_sorted d : sorted d -> sort_keys d = d.
Proof.
  unfold sorted. induction d as [|entry d IH]; intros Hd; [reflexivity|].
  inversion Hd as [|? ? Hd' Hall]; subst.
  cbn [sort_keys fold_right]. fold (sort_keys d). rewrite (IH Hd').
  now apply insert_by_key_first.
Qed.


Lemma filter_sorted (keep : string * V -> bool) d : sorted d -> sorted (filter keep d).
Proof.
  unfold sorted. induction d as [|entry d IH]; intros Hd; cbn [filter]; [constructor|].
  inversion Hd as [|? ? Hd' Hall]; subst.
  destruct (keep entry); [|now apply IH].
  constructor; [now apply IH|].
  apply Forall_forall. intros later Hin. apply filter_In in Hin as [Hin _].
  revert later Hin. now apply Forall_forall.
Qed.

Lemma filter_insert_by_key (keep : string * V -> bool) (entry : string * V) d :
  sorted d ->
  filter keep (insert_by_key entry d) =
  if keep entry then insert_by_key entry (filter keep d) else filter keep d.
Proof.
  unfold sorted. induction d as [|other d IH]; intros Hd; cbn [insert_by_key filter].
  - now destruct (keep entry).
  - inversion Hd as [|? ? Hd' Hall]; subst.
    destruct (String.leb (fst entry) (fst other)) eqn:L; cbn [filter].
    + destruct (keep entry); [|reflexivity].
      symmetry. apply insert_by_key_first.
      assert (Hbelow : Forall (key_le entry) (other :: d)).
      { constructor; [exact L|]. eapply Forall_impl; [|exact Hall].
        intros later Hlater. unfold key_le in *. now apply (leb_trans _ (fst other)). }
      apply Forall_forall. intros later Hin.
      change (In later (filter keep (other :: d))) in Hin.
      apply filter_In in Hin as [Hin _]. revert later Hin. now apply Forall_forall.
    + rewrite (IH Hd'). destruct (keep other), (keep entry); cbn [insert_by_key];
        rewrite ?L; reflexivity.
Qed.

(** Leaving entries out and sorting commute. *)
Lemma filter_sort_keys (keep : string * V -> bool) d :
  filter keep (sort_keys d) = sort_keys (filter keep d).
Proof.
  induction d as [|entry d IH]; cbn [sort_keys fold_right filter]; [reflexivity|].
  fold (sort_keys d). rewrite filter_insert_by_key by apply sort_keys_sorted.
  rewrite IH. now destruct (keep entry).
Qed.

(** Setting a key changes nothing among the other keys. *)
Lemma filter_set_other k v d :
  filter (fun entry => negb (fst entry =? k)%string) (set k v d) =
  filter (fun entry => negb (fst entry =? k)%string) d.
Proof.
  induction d as [|[k0 v0] d IH]; cbn [set filter fst].
  - now rewrite String.eqb_refl.
  - destruct (k0 =? k)%string eqn:E; cbn [filter fst]; rewrite E; cbn [negb];
      [reflexivity | now rewrite IH].
Qed.

End Facts.

End PyDictFacts.

Module SqliteFacts.
Import PyStr Sqlite.

Lemma startswith_iff s p :
  startswith s p = true <-> exists post, s = p ++ post.
Proof.
  revert s. induction p as [|a p IH]; intros s.
  - destruct s; simpl; split; eauto.
  - destruct s as [|b s]; simpl.
    + split; [discriminate | intros [post E]; discriminate].
    + rewrite andb_true_iff, Ascii.eqb_eq, IH. split.
      * intros [-> [post ->]]. now exists post.
      * intros [post E]. injection E as -> ->. eauto.
Qed.

Lemma contains_iff s sub :
  contains s sub = true <-> exists pre post, s = pre ++ sub ++ post.
Proof.
  induction s as [|c s IH]; cbn [contains].
  - rewrite orb_false_r, startswith_iff. split.
    + intros [post E]. now exists "", post.
    + intros [[|c pre] [post E]]; simpl in E; [eauto | discriminate].
  - rewrite orb_true_iff, IH, startswith_iff. split.
    + intros [[post E] | [pre [post ->]]].
      * now exists "", post.
      * now exists (String c pre), post.
    + intros [[|c' pre] [post E]]; simpl in E.
      * left. eauto.
      * injection E as -> ->. right. eauto.
Qed.










End SqliteFacts.

(** * The cart *)

Section CartFacts.
Context {num : Type} `{PyNumber num}.
Local Open Scope request_scope.

(** One more pass of the migration loop adds the occurrences of the rest
    of the list to what the dictionary already holds. *)
Lemma migration_loop names : forall (d : PyDict.dict Z) name,
  PyDict.get name
    (fold_left
       (fun new_cart item =>
          PyDict.set item (PyDict.get_default item 0 new_cart + 1) new_cart)
       names d) =
  match PyDict.get name d with
  | Some v => Some (v + occurrences name names)
  | None =>
      if occurrences name names =? 0 then None else Some (occurrences name names)
  end.
Proof.
  unfold occurrences.
  induction names as [|item names IH]; intros d name; simpl fold_left.
  - simpl. destruct (PyDict.get name d); [f_equal; lia | reflexivity].
  - rewrite IH. destruct (string_dec item name) as [->|Hne].
    + rewrite PyDictFacts.get_set_same, count_occ_cons_eq by reflexivity.
      unfold PyDict.get_default.
      destruct (PyDict.get name d) as [v|].
      * f_equal. lia.
      * destruct (Z.eqb_spec (Z.of_nat (S (count_occ string_dec names name))) 0);
          [lia | f_equal; lia].
    + rewrite (PyDictFacts.get_set_other _ _ _ _ Hne),
        count_occ_cons_neq by assumption.
      reflexivity.
Qed.

Lemma migrate_counts names : counts_occurrences names (migrate_legacy_cart names).
Proof. intros name. unfold migrate_legacy_cart. now rewrite migration_loop. Qed.

Lemma migrate_NoDup names : NoDup (PyDict.keys (migrate_legacy_cart names)).
Proof.
  unfold migrate_legacy_cart.
  assert (G : forall d : PyDict.dict Z, NoDup (PyDict.keys d) ->
            NoDup (PyDict.keys
              (fold_left
                 (fun new_cart item =>
                    PyDict.set item (PyDict.get_default item 0 new_cart + 1) new_cart)
                 names d))).
  { induction names as [|item names IH]; intros d Hd; simpl; auto.
    apply IH. now apply PyDictFacts.NoDup_keys_set. }
  apply G. constructor.
Qed.

Lemma migrate_get_default name names :
  PyDict.get_default name 0 (migrate_legacy_cart names) = occurrences name names.
Proof.
  unfold PyDict.get_default. rewrite migrate_counts.
  destruct (Z.eqb_spec (occurrences name names) 0); congruence.
Qed.

Lemma lines_of_app (a b : list (product num * Z)) :
  lines_of (a ++ b) =
  match lines_of a, lines_of b with
  | Some shown, Some rest => Some (shown ++ rest)%list
  | _, _ => None
  end.
Proof.
  induction a as [|[row qty] a IH]; cbn [app lines_of].
  - now destruct (lines_of b).
  - rewrite IH. destruct (subtotal qty row); [|reflexivity].
    destruct (lines_of a); [|reflexivity]. now destruct (lines_of b).
Qed.

Lemma sum_from_app xs : forall (total : num) ys,
  sum_from total (xs ++ ys) =
  match sum_from total xs with
  | Some total' => sum_from total' ys
  | None => None
  end.
Proof.
  induction xs as [|x xs IH]; intros total ys; cbn [app sum_from]; [reflexivity|].
  destruct (add total x); [apply IH | reflexivity].
Qed.

(** The lines of a list of pairs: the pairs in order, each with its
    subtotal. *)
Lemma lines_of_fields (pairs : list (product num * Z)) : forall lines,
  lines_of pairs = Some lines ->
  map li_product lines = map fst pairs /\ map li_qty lines = map snd pairs.
Proof.
  induction pairs as [|[row qty] pairs IH]; intros lines Hl; cbn [lines_of] in Hl.
  - injection Hl as <-. now split.
  - destruct (subtotal qty row) as [amount|]; [|discriminate].
    destruct (lines_of pairs) as [rest|]; [|discriminate].
    injection Hl as <-. destruct (IH rest eq_refl) as [P Q].
    cbn [map li_product li_qty fst snd]. now rewrite P, Q.
Qed.

Lemma lines_of_In (pairs : list (product num * Z)) : forall lines,
  lines_of pairs = Some lines ->
  forall item,
    In item lines <->
    exists row qty amount,
      In (row, qty) pairs /\ subtotal qty row = Some amount
      /\ item = LineItem row qty amount.
Proof.
  induction pairs as [|[row qty] pairs IH]; intros lines Hl item; cbn [lines_of] in Hl.
  - injection Hl as <-. split; [intros [] | intros [? [? [? [[] _]]]]].
  - destruct (subtotal qty row) as [amount|] eqn:S; [|discriminate].
    destruct (lines_of pairs) as [rest|]; [|discriminate].
    injection Hl as <-. specialize (IH rest eq_refl item). split.
    + intros [<-|Hin].
      * exists row, qty, amount. split; [now left|]. now split.
      * apply IH in Hin as [row' [qty' [amount' [Hin [Hs ->]]]]].
        exists row', qty', amount'. split; [now right|]. now split.
    + intros [row' [qty' [amount' [[E|Hin] [Hs ->]]]]].
      * injection E as <- <-. left. congruence.
      * right. apply IH. now exists row', qty', amount'.
Qed.

(** The pairs a cart shows are the (row, quantity) with an entry of the
    row's name. *)
Lemma cart_matches_In quantities (rows : list (product num)) row qty :
  In (row, qty) (cart_matches quantities rows) <->
  exists name, In (name, qty) quantities /\ In row rows /\ p_name row = name.
Proof.
  unfold cart_matches. rewrite in_flat_map. split.
  - intros [[name qty'] [Hentry Hpair]]. cbn [fst snd] in Hpair.
    apply in_map_iff in Hpair as [row' [E Hrow]]. injection E as -> ->.
    unfold matching in Hrow. apply filter_In in Hrow as [Hrow Hname].
    apply String.eqb_eq in Hname. now exists name.
  - intros [name [Hentry [Hrow Hname]]]. exists (name, qty). split; [exact Hentry|].
    cbn [fst snd]. apply in_map_iff. exists row. split; [reflexivity|].
    unfold matching. apply filter_In. split; [exact Hrow|]. now apply String.eqb_eq.
Qed.

Lemma length_matching name (rows : list (product num)) :
  List.length (matching name rows) = count_occ string_dec (map p_name rows) name.
Proof.
  unfold matching. induction rows as [|row rows IH]; simpl; auto.
  destruct (string_dec (p_name row) name) as [E|E].
  - apply String.eqb_eq in E. rewrite E. simpl. now rewrite IH.
  - apply String.eqb_neq in E. now rewrite E.
Qed.

Lemma get_products_run s (db : database num) log :
  get_products (World s db log)
  = (Returned (products db), World s db (log ++ [SelectProducts])%list).
Proof. reflexivity. Qed.

(** The inner loop of [cart] appends the lines of the matching rows and
    adds their subtotals, in row order, and touches nothing else. *)
Lemma cart_inner_loop name qty (rows : list (product num)) :
  forall acc lines total (w : world num),
    lines_of (map (fun row => (row, qty)) (matching name rows)) = Some lines ->
    sum_from (snd acc) (map li_subtotal lines) = Some total ->
    for_each rows (cart_row name qty) acc w
    = (Returned ((fst acc ++ lines)%list, total), w).
Proof.
  induction rows as [|row rows IH]; intros [shown running] lines total w Hl Hs;
    cbn [for_each]; unfold matching in Hl; cbn [filter] in Hl;
    try fold (matching name rows) in Hl.
  - cbn in Hl, Hs. injection Hl as <-. cbn in Hs. injection Hs as <-.
    cbn [fst]. now rewrite app_nil_r.
  - unfold bind at 1. unfold cart_row at 1.
    destruct (p_name row =? name)%string.
    + cbn [map lines_of] in Hl. unfold subtotal in Hl.
      destruct (p_price row) as [price|text]; [|discriminate].
      destruct (mul_int qty price) as [amount|] eqn:Mu; [|discriminate].
      destruct (lines_of (map (fun row => (row, qty)) (matching name rows)))
        as [rest|] eqn:R; [|discriminate].
      injection Hl as <-. cbn [map li_subtotal sum_from snd] in Hs.
      destruct (add running amount) as [running'|] eqn:A; [|discriminate].
      unfold bind, times_price, add_to_total. rewrite Mu. unfold ret at 1.
      cbn [snd]. rewrite A. unfold ret at 1 2. cbn [fst].
      rewrite (IH ((shown ++ [LineItem row qty amount])%list, running') rest total w eq_refl Hs).
      cbn [fst]. now rewrite <- app_assoc.
    + unfold ret at 1. now apply IH.
Qed.

(** Where the inner loop returns, every subtotal and every addition was
    computed. *)
Lemma cart_inner_loop_returned name qty (rows : list (product num)) :
  forall acc r (w w' : world num),
    for_each rows (cart_row name qty) acc w = (Returned r, w') ->
    exists lines,
      lines_of (map (fun row => (row, qty)) (matching name rows)) = Some lines
      /\ sum_from (snd acc) (map li_subtotal lines) = Some (snd r)
      /\ fst r = (fst acc ++ lines)%list.
Proof.
  induction rows as [|row rows IH]; intros [shown running] r w w' Hrun;
    cbn [for_each] in Hrun; unfold matching; cbn [filter];
    try fold (matching name rows).
  - unfold ret in Hrun. injection Hrun as <- _. exists []. cbn.
    now rewrite app_nil_r.
  - unfold bind at 1 in Hrun. unfold cart_row at 1 in Hrun.
    destruct (p_name row =? name)%string.
    + cbn [map lines_of]. unfold subtotal.
      unfold bind, times_price, add_to_total in Hrun.
      destruct (p_price row) as [price|text]; [|discriminate].
      destruct (mul_int qty price) as [amount|] eqn:Mu; [|discriminate].
      unfold ret at 1 in Hrun. cbn [snd] in Hrun.
      destruct (add running amount) as [running'|] eqn:A; [|discriminate].
      unfold ret at 1 2 in Hrun. cbn [fst] in Hrun.
      apply IH in Hrun as [rest [R [S E]]]. cbn [fst snd] in S, E.
      exists (LineItem row qty amount :: rest). rewrite R. split; [reflexivity|].
      cbn [map li_subtotal sum_from snd fst]. rewrite A. split; [exact S|].
      rewrite E. now rewrite <- app_assoc.
    + unfold ret at 1 in Hrun. now apply IH in Hrun.
Qed.

(** The inner loop leaves the state alone, also where it raises. *)
Lemma cart_inner_loop_frame name qty (rows : list (product num)) :
  forall acc (w : world num), snd (for_each rows (cart_row name qty) acc w) = w.
Proof.
  induction rows as [|row rows IH]; intros acc w; cbn [for_each]; [reflexivity|].
  unfold bind at 1. unfold cart_row at 1.
  destruct (p_name row =? name)%string.
  - unfold bind, times_price, add_to_total.
    destruct (p_price row) as [price|text]; [|reflexivity].
    destruct (mul_int qty price) as [amount|]; [|reflexivity].
    unfold ret at 1. destruct (add (snd acc) amount); [|reflexivity].
    unfold ret at 1 2. apply IH.
  - unfold ret at 1. apply IH.
Qed.

(** The loop of [cart] reads the table once per entry. *)
Lemma cart_outer_loop quantities :
  forall acc lines total s (db : database num) log,
    cart_lines quantities (products db) = Some lines ->
    sum_from (snd acc) (map li_subtotal lines) = Some total ->
    for_each quantities
      (fun entry acc =>
         rows <- get_products ;;
         for_each rows (cart_row (fst entry) (snd entry)) acc)
      acc (World s db log)
    = (Returned ((fst acc ++ lines)%list, total),
       World s db (log ++ repeat SelectProducts (List.length quantities))%list).
Proof.
  unfold cart_lines, cart_matches.
  induction quantities as [|[name qty] quantities IH];
    intros acc lines total s db log Hl Hs; cbn [for_each flat_map] in *.
  - cbn in Hl. injection Hl as <-. cbn in Hs. injection Hs as <-.
    unfold ret. cbn [List.length repeat]. rewrite !app_nil_r. now destruct acc.
  - cbn [fst snd] in Hl. rewrite lines_of_app in Hl.
    destruct (lines_of (map (fun row => (row, qty)) (matching name (products db))))
      as [shown|] eqn:R1; [|discriminate].
    match type of Hl with
    | match ?x with _ => _ end = _ => destruct x as [rest|] eqn:R2; [|discriminate]
    end.
    injection Hl as <-. rewrite map_app, sum_from_app in Hs.
    destruct (sum_from (snd acc) (map li_subtotal shown)) as [running|] eqn:S1;
      [|discriminate].
    unfold bind at 1. unfold bind at 1. rewrite get_products_run.
    rewrite (cart_inner_loop name qty (products db) acc shown running _ R1 S1).
    rewrite (IH ((fst acc ++ shown)%list, running) rest total s db _ R2 Hs).
    cbn [fst List.length repeat]. now rewrite <- !app_assoc.
Qed.

(** Where the loop of [cart] returns, the lines and the total were
    computed. *)
Lemma cart_outer_loop_returned quantities :
  forall acc r s (db : database num) log w',
    for_each quantities
      (fun entry acc =>
         rows <- get_products ;;
         for_each rows (cart_row (fst entry) (snd entry)) acc)
      acc (World s db log)
    = (Returned r, w') ->
    exists lines,
      cart_lines quantities (products db) = Some lines
      /\ sum_from (snd acc) (map li_subtotal lines) = Some (snd r)
      /\ fst r = (fst acc ++ lines)%list.
Proof.
  unfold cart_lines, cart_matches.
  induction quantities as [|[name qty] quantities IH];
    intros acc r s db log w' Hrun; cbn [for_each flat_map] in *.
  - unfold ret in Hrun. injection Hrun as <- _. exists []. cbn.
    now rewrite app_nil_r.
  - cbn [fst snd]. unfold bind at 1 in Hrun. unfold bind at 1 in Hrun.
    rewrite get_products_run in Hrun. cbn [fst snd] in Hrun.
    pose proof (cart_inner_loop_frame name qty (products db) acc
                  (World s db (log ++ [SelectProducts])%list)) as F.
    destruct (for_each (products db) (cart_row name qty) acc
                (World s db (log ++ [SelectProducts])%list)) as [[acc'|e] w1] eqn:Inner;
      [|discriminate].
    cbn [snd] in F. subst w1.
    apply cart_inner_loop_returned in Inner as [shown [R1 [S1 E1]]].
    apply IH in Hrun as [rest [R2 [S2 E2]]].
    exists (shown ++ rest)%list. rewrite lines_of_app, R1, R2.
    split; [reflexivity|]. rewrite map_app, sum_from_app, S1.
    split; [exact S2|]. rewrite E2, E1. now rewrite app_assoc.
Qed.


End CartFacts.

Section CartRoutes.
Context {num : Type} `{PyNumber num}.
Local Open Scope request_scope.

Lemma cart_view_dict quantities flag token msgs (db : database num) log lines total :
  cart_lines quantities (products db) = Some lines ->
  sum (map li_subtotal lines) = Some total ->
  cart (World (Session flag token (Some (CartDict quantities)) msgs) db log) =
  (Returned (render_cart lines total),
   World (Session flag token (Some (CartDict quantities)) msgs) db
     (log ++ repeat SelectProducts (List.length quantities))%list).
Proof.
  intros Hl Hs. unfold cart. unfold bind at 1. unfold get_session.
  cbn [w_session session_cart]. unfold bind at 1. unfold ret at 1.
  unfold bind at 1, cart_loops.
  rewrite (cart_outer_loop quantities ([], zero) lines total _ db log Hl Hs).
  reflexivity.
Qed.

Lemma cart_view_list names flag token msgs (db : database num) log lines total :
  cart_lines (migrate_legacy_cart names) (products db) = Some lines ->
  sum (map li_subtotal lines) = Some total ->
  cart (World (Session flag token (Some (CartList names)) msgs) db log) =
  (Returned (render_cart lines total),
   World (Session flag token (Some (CartDict (migrate_legacy_cart names))) msgs) db
     (log ++ repeat SelectProducts (List.length (migrate_legacy_cart names)))%list).
Proof.
  intros Hl Hs. unfold cart. unfold bind at 1. unfold get_session.
  cbn [w_session session_cart]. unfold bind at 1.
  match goal with
  | |- context [(set_session_cart ?c ;; ret ?d) ?w] =>
      replace ((set_session_cart c ;; ret d) w)
        with (@Returned (PyDict.dict Z) d,
              World (Session flag token (Some c) msgs) db log)
        by reflexivity
  end.
  unfold bind at 1, cart_loops.
  rewrite (cart_outer_loop _ ([], zero) lines total _ db log Hl Hs).
  reflexivity.
Qed.

Lemma cart_view_absent flag token msgs (db : database num) log :
  cart (World (Session flag token None msgs) db log) =
  (Returned (render_cart [] zero), World (Session flag token None msgs) db log).
Proof. reflexivity. Qed.

(** The page of [cart], from the dictionary it works on. *)
Lemma cart_page (w : world num) lines total :
  cart_lines (cart_dict (w_session w)) (products (w_db w)) = Some lines ->
  sum (map li_subtotal lines) = Some total ->
  fst (cart w) = Returned (render_cart lines total).
Proof.
  destruct w as [[flag token [[names|quantities]|] msgs] db log];
    unfold cart_dict; cbn [w_session w_db session_cart]; intros Hl Hs.
  - now rewrite (cart_view_list _ _ _ _ _ _ _ _ Hl Hs).
  - now rewrite (cart_view_dict _ _ _ _ _ _ _ _ Hl Hs).
  - cbn in Hl. injection Hl as <-. cbn in Hs. injection Hs as <-.
    now rewrite cart_view_absent.
Qed.

(** Where [cart] returns a page, the page shows the computed lines and
    their total. *)
Lemma cart_returned (w w' : world num) page :
  cart w = (Returned page, w') ->
  exists lines total,
    cart_lines (cart_dict (w_session w)) (products (w_db w)) = Some lines
    /\ sum (map li_subtotal lines) = Some total
    /\ page = render_cart lines total.
Proof.
  destruct w as [[flag token c msgs] db log]. unfold cart.
  unfold bind at 1. unfold get_session. cbn [w_session session_cart w_db].
  unfold bind at 1. intros Hrun.
  assert (G : forall s log0,
            (acc <- cart_loops (cart_dict (Session flag token c msgs)) ([], zero) ;;
             ret (render_cart (fst acc) (snd acc))) (World s db log0)
            = (Returned page, w') ->
            exists lines total,
              cart_lines (cart_dict (Session flag token c msgs)) (products db)
              = Some lines
              /\ sum (map li_subtotal lines) = Some total
              /\ page = render_cart lines total).
  { intros s log0 Hloop. unfold bind at 1, cart_loops in Hloop.
    match type of Hloop with
    | match ?run with _ => _ end = _ => destruct run as [[acc|e] w1] eqn:Loop
    end; [|discriminate].
    apply cart_outer_loop_returned in Loop as [lines [Hl [Hs E]]].
    unfold ret in Hloop. injection Hloop as <- _.
    exists lines, (snd acc). cbn [fst snd app] in *. now rewrite E. }
  destruct c as [[names|quantities]|]; unfold cart_dict in G;
    cbn [session_cart] in G.
  - match type of Hrun with
    | context [(set_session_cart ?c ;; ret ?d) ?w] =>
        replace ((set_session_cart c ;; ret d) w)
          with (@Returned (PyDict.dict Z) d,
                World (Session flag token (Some c) msgs) db log)
          in Hrun by reflexivity
    end.
    now apply G in Hrun.
  - unfold ret at 1 in Hrun. now apply G in Hrun.
  - unfold ret at 1 in Hrun. now apply G in Hrun.
Qed.

Lemma add_to_cart_run product_name flag token c msgs (db : database num) log :
  add_to_cart product_name (World (Session flag token c msgs) db log) =
  let cart :=
    match c with
    | Some (CartList names) => migrate_legacy_cart names
    | Some (CartDict quantities) => quantities
    | None => []
    end in
  (Returned (redirect product_page_ep),
   World
     (Session flag token
        (Some (CartDict
                 (PyDict.set product_name
                    (PyDict.get_default product_name 0 cart + 1) cart)))
        msgs)
     db log).
Proof. reflexivity. Qed.

End CartRoutes.

Section CartOutcomes.
Context {num : Type} `{PyNumber num}.

(** [add_to_cart] returns in every cart state. *)
Lemma add_to_cart_returns product_name (w : world num) :
  fst (add_to_cart product_name w) = Returned (redirect product_page_ep).
Proof. destruct w as [[flag token c msgs] db log]. now rewrite add_to_cart_run. Qed.

(** [remove_from_cart] returns when the cart is absent or a dictionary,
    and leaves no entry for the name. *)
Lemma remove_from_cart_dict product_name flag token quantities msgs (db : database num) log :
  NoDup (PyDict.keys quantities) ->
  exists quantities',
    remove_from_cart product_name
      (World (Session flag token (Some (CartDict quantities)) msgs) db log) =
    (Returned (redirect cart_ep),
     World (Session flag token (Some (CartDict quantities')) msgs) db log)
    /\ PyDict.get product_name quantities' = None
    /\ forall other, other <> product_name ->
         PyDict.get other quantities' = PyDict.get other quantities.
Proof.
  intros Hnd. unfold remove_from_cart, bind, get_session. cbn [w_session session_cart].
  unfold PyDict.mem. destruct (PyDict.get product_name quantities) eqn:E.
  - exists (PyDict.del product_name quantities). split; [reflexivity|]. split.
    + now apply PyDictFacts.get_del_same.
    + intros other Hne. apply PyDictFacts.get_del_other. congruence.
  - exists quantities. split; [reflexivity|]. split; auto.
Qed.

Lemma remove_from_cart_absent product_name flag token msgs (db : database num) log :
  remove_from_cart product_name (World (Session flag token None msgs) db log) =
  (Returned (redirect cart_ep),
   World (Session flag token (Some (CartDict [])) msgs) db log).
Proof. reflexivity. Qed.

(** On a legacy list without the name, [remove_from_cart] stores the list
    back as it found it. *)
Lemma remove_from_cart_keeps_list product_name flag token names msgs
    (db : database num) log :
  ~ In product_name names ->
  remove_from_cart product_name
    (World (Session flag token (Some (CartList names)) msgs) db log) =
  (Returned (redirect cart_ep),
   World (Session flag token (Some (CartList names)) msgs) db log).
Proof.
  intros Hout. unfold remove_from_cart, bind, get_session.
  cbn [w_session session_cart].
  assert (E : existsb (String.eqb product_name) names = false).
  { apply not_true_is_false. intros Hex. apply existsb_exists in Hex as [x [Hin Hx]].
    apply String.eqb_eq in Hx. now subst x. }
  now rewrite E.
Qed.

End CartOutcomes.

(** C5, at the input where it fails.  [remove_from_cart] reads a cart
    stored as a plain list of names and stores the list back: asked to
    remove a name the list does not hold, it completes and the session
    still holds the list; asked to remove a name the list holds, it raises
    (C6).  The two routes with the migration block upgrade the same list
    to the dictionary that gives each name its number of occurrences and
    holds no other key: [cart] stores it before it computes the page,
    [add_to_cart] stores it with the added name counted once more;
    ["Football","Football","Yoga Mat"] becomes {Football: 2, "Yoga Mat": 1}. *)
Theorem remove_from_cart_keeps_legacy_list :
  forall (num : Type) (N : PyNumber num) (names : list string)
         (flag : bool) (token : option string) (msgs : list (string * string))
         (db : database num) (log : list sql),
    let legacy := Session flag token (Some (CartList names)) msgs in
    let upgraded := migrate_legacy_cart names in
    (forall product_name,
       ~ In product_name names ->
       remove_from_cart product_name (World legacy db log)
       = (Returned (redirect cart_ep), World legacy db log))
    /\ remove_from_cart "Football"
         (World (Session false None (Some (CartList ["Yoga Mat"])) []) seeded_db [])
       = (Returned (redirect cart_ep),
          World (Session false None (Some (CartList ["Yoga Mat"])) []) seeded_db [])
    /\ counts_occurrences names upgraded
    /\ NoDup (PyDict.keys upgraded)
    /\ (forall lines total,
          cart_lines upgraded (products db) = Some lines ->
          sum (map li_subtotal lines) = Some total ->
          cart (World legacy db log)
          = (Returned (render_cart lines total),
             World (Session flag token (Some (CartDict upgraded)) msgs) db
               (log ++ repeat SelectProducts (List.length upgraded))%list))
    /\ (forall product_name,
          add_to_cart product_name (World legacy db log) =
          (Returned (redirect product_page_ep),
           World
             (Session flag token
                (Some (CartDict
                         (PyDict.set product_name
                            (occurrences product_name names + 1) upgraded)))
                msgs)
             db log))
    /\ migrate_legacy_cart ["Football"; "Football"; "Yoga Mat"]
       = [("Football", 2); ("Yoga Mat", 1)].
Proof.
  intros num N names flag token msgs db log legacy upgraded.
  split; [intros product_name Hout; now apply remove_from_cart_keeps_list|].
  split; [reflexivity|].
  split; [apply migrate_counts|].
  split; [apply migrate_NoDup|].
  split; [intros lines total Hl Hs; now apply cart_view_list|].
  split; [|reflexivity].
  intros product_name. subst legacy upgraded.
  rewrite add_to_cart_run. cbv zeta. now rewrite migrate_get_default.
Qed.

(** C6, at the input where it fails.  When the session still holds the
    legacy list and the list contains the name, [remove_from_cart] does not
    complete: [del cart[product_name]] indexes a list with a string and
    raises [TypeError]; the session and the tables stay as they were. *)
Theorem remove_from_cart_legacy_list_raises :
  forall (num : Type) (before after : list string) (product_name : string)
         (flag : bool) (token : option string) (msgs : list (string * string))
         (db : database num) (log : list sql),
    let legacy :=
      Session flag token (Some (CartList (before ++ product_name :: after)%list)) msgs in
    remove_from_cart product_name (World legacy db log)
    = (Raised TypeError, World legacy db log).
Proof.
  intros num before after product_name flag token msgs db log legacy.
  subst legacy. unfold remove_from_cart, bind, get_session.
  cbn [w_session session_cart].
  assert (E : existsb (String.eqb product_name) (before ++ product_name :: after)%list = true).
  { apply existsb_exists. exists product_name. split.
    - apply in_or_app. right. now left.
    - apply String.eqb_refl. }
  now rewrite E.
Qed.

(** C7, as stated, fails: SQLite keeps in [price] a text it cannot read
    as a number, and [admin_update] with an empty image validates nothing.
    Once row 1 is updated with the price "abc", the view of the cart
    {Football: 2} raises [TypeError] at [total += ...]: there is no line
    item and no total. *)
Lemma cart_view_raises_on_text_price :
  products
    (w_db (snd (admin_update 1
                  (post [("csrf_token", "t0k3n"); ("name", "Football");
                         ("price", "abc"); ("category", "Outdoor"); ("image", "")])
                  (World admin_session seeded_db []))))
  = Product 1 "Football" (Text "abc") "Outdoor" "football.jpeg" :: tl seeded_products
  /\ fst (cart
            (World (Session true (Some "t0k3n") (Some (CartDict [("Football", 2)])) [])
               (w_db (snd (admin_update 1
                             (post [("csrf_token", "t0k3n"); ("name", "Football");
                                    ("price", "abc"); ("category", "Outdoor");
                                    ("image", "")])
                             (World admin_session seeded_db []))))
               []))
     = Raised TypeError.
Proof. split; reflexivity. Qed.

(** C7, amended.  For every cart dictionary and catalog in which each
    product an entry names holds a number as its price and Python computes
    every product and the running total ([cart_lines] and [sum] have a
    value), [cart] renders exactly the line items of the entries whose name
    matches a current product, each with [subtotal = qty * current price];
    an entry that matches no product contributes nothing; the total is the
    sum of the subtotals shown.  For {Football: 2} with Football at 499 the
    subtotal and the total are 998, and once Football is deleted the cart
    shows no line and total 0. *)
Theorem cart_view_subtotals_and_total :
  forall (num : Type) (N : PyNumber num) (quantities : PyDict.dict Z)
         (flag : bool) (token : option string) (msgs : list (string * string))
         (db : database num) (log : list sql)
         (lines : list (line_item num)) (total : num),
    let s := Session flag token (Some (CartDict quantities)) msgs in
    cart_lines quantities (products db) = Some lines ->
    sum (map li_subtotal lines) = Some total ->
    cart (World s db log)
    = (Returned (render_cart lines total),
       World s db (log ++ repeat SelectProducts (List.length quantities))%list)
    /\ (forall item,
          In item lines <->
          exists name qty row price amount,
            In (name, qty) quantities /\ In row (products db)
            /\ p_name row = name /\ p_price row = Number price
            /\ mul_int qty price = Some amount
            /\ item = LineItem row qty amount)
    /\ (let football := Product 1 "Football" 499 "Outdoor" "football.jpeg" in
        let holding := Session true (Some "t0k3n") (Some (CartDict [("Football", 2)])) [] in
        fst (cart (World holding seeded_db []))
        = Returned (render_cart [LineItem football 2 998] 998)
        /\ fst (cart (snd (admin_delete 1 (World holding seeded_db []))))
           = Returned (render_cart [] 0)).
Proof.
  intros num N quantities flag token msgs db log lines total s Hl Hs.
  split; [now apply cart_view_dict|]. split; [|split; reflexivity].
  intros item. unfold cart_lines in Hl. rewrite (lines_of_In _ _ Hl). split.
  - intros [row [qty [amount [Hin [Hsub ->]]]]].
    apply cart_matches_In in Hin as [name [Hentry [Hrow Hname]]].
    unfold subtotal in Hsub. destruct (p_price row) as [price|text] eqn:P; [|discriminate].
    now exists name, qty, row, price, amount.
  - intros [name [qty [row [price [amount [Hentry [Hrow [Hname [P [Hmul ->]]]]]]]]]].
    exists row, qty, amount. split.
    + apply cart_matches_In. now exists name.
    + unfold subtotal. now rewrite P.
Qed.

Lemma cart_view_subtotals_and_total_witness :
  cart (World (Session true (Some "t0k3n")
                 (Some (CartDict [("Football", 2); ("Surfboard", 1)])) [])
          seeded_db [])
  = (Returned
       (render_cart
          [LineItem (Product 1 "Football" 499 "Outdoor" "football.jpeg") 2 998] 998),
     World (Session true (Some "t0k3n")
              (Some (CartDict [("Football", 2); ("Surfboard", 1)])) [])
       seeded_db [SelectProducts; SelectProducts]).
Proof.
  exact (proj1 (cart_view_subtotals_and_total Z whole_prices
                  [("Football", 2); ("Surfboard", 1)] true (Some "t0k3n") []
                  seeded_db []
                  [LineItem (Product 1 "Football" 499 "Outdoor" "football.jpeg") 2 998]
                  998 eq_refl eq_refl)).
Defined.

(** C10, as stated, fails where one of the rows of the name holds a text
    as its price.  On the table of [app.py] a second Football is added at
    520 and then updated, with an empty image, to the price "abc"; the
    view of the cart {Football: 2} raises [TypeError] and shows no line
    for either row. *)
Lemma cart_view_duplicate_with_text_price_raises :
  products
    (w_db (snd (admin_update 6
                  (post [("csrf_token", "t0k3n"); ("name", "Football");
                         ("price", "abc"); ("category", "Indoor"); ("image", "")])
                  (snd (admin_add
                          (post [("csrf_token", "t0k3n"); ("name", "Football");
                                 ("price", "520"); ("category", "Indoor");
                                 ("image", "football2.png")])
                          (World admin_session seeded_db []))))))
  = (seeded_products
       ++ [Product 6 "Football" (Text "abc") "Indoor" "football2.png"])%list
  /\ fst (cart
            (World (Session true (Some "t0k3n") (Some (CartDict [("Football", 2)])) [])
               (w_db (snd (admin_update 6
                             (post [("csrf_token", "t0k3n"); ("name", "Football");
                                    ("price", "abc"); ("category", "Indoor");
                                    ("image", "")])
                             (snd (admin_add
                                     (post [("csrf_token", "t0k3n"); ("name", "Football");
                                            ("price", "520"); ("category", "Indoor");
                                            ("image", "football2.png")])
                                     (World admin_session seeded_db []))))))
               []))
     = Raised TypeError.
Proof. split; reflexivity. Qed.

(** C10, amended.  With a single cart entry (name, qty) and every catalog
    row of that name holding a number as its price (and Python computing
    the products and the running total), [cart] renders one line per
    catalog row of that name, in row order, as many lines as there are such
    rows, each with the quantity and [qty * price] of its row, and the
    total adds every one of them; with two rows named Football, at 499 and
    520, the cart {Football: 2} shows two lines and the total 2038. *)
Theorem cart_view_duplicate_names :
  forall (num : Type) (N : PyNumber num) (name : string) (qty : Z)
         (flag : bool) (token : option string) (msgs : list (string * string))
         (db : database num) (log : list sql)
         (lines : list (line_item num)) (total : num),
    let s := Session flag token (Some (CartDict [(name, qty)])) msgs in
    let same_name := matching name (products db) in
    lines_of (map (fun row => (row, qty)) same_name) = Some lines ->
    sum (map li_subtotal lines) = Some total ->
    fst (cart (World s db log)) = Returned (render_cart lines total)
    /\ map li_product lines = same_name
    /\ (forall item,
          In item lines ->
          li_qty item = qty
          /\ subtotal qty (li_product item) = Some (li_subtotal item))
    /\ List.length lines = count_occ string_dec (map p_name (products db)) name
    /\ (let first := Product 1 "Football" 499 "Outdoor" "football.jpeg" in
        let second := Product 2 "Football" 520 "Indoor" "football2.png" in
        fst (cart (World (Session false None (Some (CartDict [("Football", 2)])) [])
                     (Database [first; second] [] 2 false) []))
        = Returned
            (render_cart [LineItem first 2 998; LineItem second 2 1040] 2038)).
Proof.
  intros num N name qty flag token msgs db log lines total s same_name Hl Hs.
  assert (Hfields := lines_of_fields _ _ Hl). destruct Hfields as [P Q].
  rewrite map_map in P. cbn [fst] in P. rewrite map_id in P.
  split; [|split; [exact P|split; [|split; [|reflexivity]]]].
  - subst s. erewrite cart_view_dict; [reflexivity| |exact Hs].
    unfold cart_lines, cart_matches. cbn [flat_map fst snd]. now rewrite app_nil_r.
  - intros item Hin. apply (lines_of_In _ _ Hl) in Hin
      as [row [qty' [amount [Hpair [Hsub ->]]]]].
    apply in_map_iff in Hpair as [row' [E _]]. injection E as -> ->.
    cbn [li_qty li_product li_subtotal]. now split.
  - rewrite <- (length_map li_product), P. apply length_matching.
Qed.

Lemma cart_view_duplicate_names_witness :
  fst (cart (World (Session false None (Some (CartDict [("Football", 2)])) [])
               (Database
                  [Product 1 "Football" 499 "Outdoor" "football.jpeg";
                   Product 2 "Football" 520 "Indoor" "football2.png"] [] 2 false) []))
  = Returned
      (render_cart
         [LineItem (Product 1 "Football" 499 "Outdoor" "football.jpeg") 2 998;
          LineItem (Product 2 "Football" 520 "Indoor" "football2.png") 2 1040]
         2038).
Proof.
  exact (proj1 (cart_view_duplicate_names Z whole_prices "Football" 2 false None []
                  (Database
                     [Product 1 "Football" 499 "Outdoor" "football.jpeg";
                      Product 2 "Football" 520 "Indoor" "football2.png"] [] 2 false)
                  []
                  [LineItem (Product 1 "Football" 499 "Outdoor" "football.jpeg") 2 998;
                   LineItem (Product 2 "Football" 520 "Indoor" "football2.png") 2 1040]
                  2038 eq_refl eq_refl)).
Defined.

(** * The admin routes *)

Section AdminFacts.
Context {num : Type} `{PyNumber num}.
Local Open Scope request_scope.

Lemma flash_run message category (w : world num) :
  flash message category w =
  (Returned tt, World (with_flash (w_session w) category message) (w_db w) (w_log w)).
Proof. reflexivity. Qed.

Lemma verify_csrf_rejects r (w : world num) :
  token_missing_or_mismatched (w_session w) r ->
  verify_csrf r w = (Returned false, w).
Proof.
  unfold token_missing_or_mismatched, verify_csrf, bind, get_session, ret.
  intros Hbad. destruct (csrf_token (w_session w)) as [session_token|]; [|reflexivity].
  destruct (field "csrf_token" (form r)) as [form_token|]; [|reflexivity].
  destruct Hbad as [Hbad|Hbad]; [discriminate|].
  assert (Hne : (session_token =? form_token)%string = false).
  { apply String.eqb_neq. congruence. }
  rewrite Hne. now rewrite andb_false_r.
Qed.

Lemma verify_csrf_accepts r (w : world num) :
  token_valid (w_session w) r ->
  verify_csrf r w = (Returned true, w).
Proof.
  unfold token_valid, verify_csrf, bind, get_session, ret.
  intros [token [Hne [-> ->]]].
  apply PyStrFacts.truthy_true in Hne. now rewrite Hne, String.eqb_refl.
Qed.

(** The access guard: without the flag the wrapped route does not run. *)
Lemma admin_required_redirects f (w : world num) :
  admin_logged_in (w_session w) = false ->
  admin_required f w = (Returned (redirect admin_login_ep), w).
Proof. unfold admin_required, bind, get_session. now intros ->. Qed.

Lemma admin_required_passes f (w : world num) :
  admin_logged_in (w_session w) = true ->
  admin_required f w = f w.
Proof. unfold admin_required, bind, get_session. now intros ->. Qed.

Lemma admin_add_requires_admin r (w : world num) :
  admin_logged_in (w_session w) = false ->
  admin_add r w = (Returned (redirect admin_login_ep), w).
Proof. apply admin_required_redirects. Qed.

Lemma admin_delete_requires_admin product_id (w : world num) :
  admin_logged_in (w_session w) = false ->
  admin_delete product_id w = (Returned (redirect admin_login_ep), w).
Proof. apply admin_required_redirects. Qed.

Lemma admin_add_bad_token r (w : world num) :
  admin_logged_in (w_session w) = true ->
  token_missing_or_mismatched (w_session w) r ->
  admin_add r w = rejected w "danger" "Invalid CSRF token".
Proof.
  intros Hadmin Hbad. unfold admin_add. rewrite admin_required_passes by assumption.
  unfold bind at 1. now rewrite verify_csrf_rejects.
Qed.

Lemma admin_update_bad_token product_id r (w : world num) :
  token_missing_or_mismatched (w_session w) r ->
  admin_update product_id r w = rejected w "danger" "Invalid CSRF token".
Proof.
  intros Hbad. unfold admin_update.
  unfold bind at 1. now rewrite verify_csrf_rejects.
Qed.

(** The statements on [products], run by themselves. *)
Lemma insert_product_run name price category image (w : world num) :
  insert_product name price category image w =
  if names_unique (w_db w) && name_taken name (products (w_db w))
  then (Raised IntegrityError,
        World (w_session w) (w_db w)
          (w_log w ++ [InsertProduct name price category image])%list)
  else (Returned tt,
        World (w_session w)
          (Database
             (products (w_db w)
              ++ [Product (next_rowid (w_db w)) name (price_cell price) category image])%list
             (users (w_db w)) (next_rowid (w_db w)) (names_unique (w_db w)))
          (w_log w ++ [InsertProduct name price category image])%list).
Proof.
  unfold insert_product, bind, execute, get_database. cbn [w_session w_db w_log].
  now destruct (names_unique (w_db w) && name_taken name (products (w_db w))).
Qed.

Lemma delete_product_run product_id (w : world num) :
  delete_product product_id w =
  if sqlite_integer product_id
  then (Returned tt,
        World (w_session w)
          (Database (filter (fun p => negb (p_id p =? product_id)) (products (w_db w)))
             (users (w_db w)) (product_seq (w_db w)) (names_unique (w_db w)))
          (w_log w ++ [DeleteProduct product_id])%list)
  else (Raised OverflowError, w).
Proof.
  unfold delete_product, bind_integer, bind at 1.
  now destruct (sqlite_integer product_id).
Qed.

Lemma select_image_run product_id (w : world num) :
  select_image product_id w =
  if sqlite_integer product_id
  then (Returned
          (option_map p_image (find (fun p => p_id p =? product_id) (products (w_db w)))),
        World (w_session w) (w_db w) (w_log w ++ [SelectImage product_id])%list)
  else (Raised OverflowError, w).
Proof.
  unfold select_image, bind_integer, bind at 1.
  now destruct (sqlite_integer product_id).
Qed.

Lemma update_product_run name price category image product_id (w : world num) :
  update_product name price category image product_id w =
  if sqlite_integer product_id then
    if rename_clashes name product_id (w_db w)
    then (Raised IntegrityError,
          World (w_session w) (w_db w)
            (w_log w ++ [UpdateProduct name price category image product_id])%list)
    else (Returned tt,
          World (w_session w)
            (Database
               (map (fun p =>
                       if p_id p =? product_id
                       then Product (p_id p) name (price_cell price) category image
                       else p)
                  (products (w_db w)))
               (users (w_db w)) (product_seq (w_db w)) (names_unique (w_db w)))
            (w_log w ++ [UpdateProduct name price category image product_id])%list)
  else (Raised OverflowError, w).
Proof.
  unfold update_product, bind_integer, bind at 1.
  destruct (sqlite_integer product_id); [|reflexivity].
  unfold ret at 1. unfold bind, execute, get_database. cbn [w_session w_db w_log].
  now destruct (rename_clashes name product_id (w_db w)).
Qed.

(** What [admin_add] leaves behind when the row is written. *)
Lemma admin_add_run r (w : world num) :
  admin_logged_in (w_session w) = true ->
  token_valid (w_session w) r ->
  let name := PyStr.strip (field_or_empty "name" (form r)) in
  let price := PyStr.strip (field_or_empty "price" (form r)) in
  let category := PyStr.strip (field_or_empty "category" (form r)) in
  let image := PyStr.strip (field_or_empty "image" (form r)) in
  admin_add r w =
  match validate_product_form name price category image with
  | Some error => rejected w "error" error
  | None =>
      if names_unique (w_db w) && name_taken name (products (w_db w))
      then (Raised IntegrityError,
            World (w_session w) (w_db w)
              (w_log w ++ [InsertProduct name price category image])%list)
      else
        (Returned (redirect admin_ep),
         World (with_flash (w_session w) "success" "Product added successfully!")
           (Database
              (products (w_db w)
               ++ [Product (next_rowid (w_db w)) name (price_cell price) category image])%list
              (users (w_db w)) (next_rowid (w_db w)) (names_unique (w_db w)))
           (w_log w ++ [InsertProduct name price category image])%list)
  end.
Proof.
  intros Hadmin Hok name price category image. unfold admin_add.
  rewrite admin_required_passes by assumption.
  unfold bind at 1. rewrite verify_csrf_accepts by assumption. cbn [negb].
  fold name price category image.
  destruct (validate_product_form name price category image); [reflexivity|].
  unfold bind at 1. rewrite insert_product_run.
  now destruct (names_unique (w_db w) && name_taken name (products (w_db w))).
Qed.

(** Past the token check, with an image given, [admin_update] is decided
    by the same [validate_product_form]. *)
Lemma admin_update_run_image product_id r (w : world num) :
  token_valid (w_session w) r ->
  let name := PyStr.strip (field_or_empty "name" (form r)) in
  let price := PyStr.strip (field_or_empty "price" (form r)) in
  let category := PyStr.strip (field_or_empty "category" (form r)) in
  let image := PyStr.strip (field_or_empty "image" (form r)) in
  image <> "" ->
  admin_update product_id r w =
  match validate_product_form name price category image with
  | Some error => rejected w "error" error
  | None =>
      if sqlite_integer product_id then
        if rename_clashes name product_id (w_db w)
        then (Raised IntegrityError,
              World (w_session w) (w_db w)
                (w_log w ++ [UpdateProduct name price category image product_id])%list)
        else
          (Returned (redirect admin_ep),
           World (with_flash (w_session w) "info" "Product updated successfully!")
             (Database
                (map (fun p =>
                        if p_id p =? product_id
                        then Product (p_id p) name (price_cell price) category image
                        else p)
                   (products (w_db w)))
                (users (w_db w)) (product_seq (w_db w)) (names_unique (w_db w)))
             (w_log w ++ [UpdateProduct name price category image product_id])%list)
      else (Raised OverflowError, w)
  end.
Proof.
  intros Hok name price category image Himage. unfold admin_update.
  unfold bind at 1. rewrite verify_csrf_accepts by assumption. cbn [negb].
  fold name price category image.
  apply PyStrFacts.truthy_true in Himage. rewrite Himage.
  destruct (validate_product_form name price category image); [reflexivity|].
  cbn [negb]. unfold bind at 1. unfold ret at 1. unfold bind at 1.
  rewrite update_product_run. destruct (sqlite_integer product_id); [|reflexivity].
  now destruct (rename_clashes name product_id (w_db w)).
Qed.

(** Past the token check, with no image given, nothing is validated: the
    stored image is looked up and the row is rewritten. *)
Lemma admin_update_run_no_image product_id r (w : world num) :
  token_valid (w_session w) r ->
  let name := PyStr.strip (field_or_empty "name" (form r)) in
  let price := PyStr.strip (field_or_empty "price" (form r)) in
  let category := PyStr.strip (field_or_empty "category" (form r)) in
  PyStr.strip (field_or_empty "image" (form r)) = "" ->
  admin_update product_id r w =
  if sqlite_integer product_id then
    match find (fun p => p_id p =? product_id) (products (w_db w)) with
    | Some row =>
        if rename_clashes name product_id (w_db w)
        then (Raised IntegrityError,
              World (w_session w) (w_db w)
                (w_log w ++ [SelectImage product_id;
                             UpdateProduct name price category (p_image row) product_id])%list)
        else
          (Returned (redirect admin_ep),
           World (with_flash (w_session w) "info" "Product updated successfully!")
             (Database
                (map (fun p =>
                        if p_id p =? product_id
                        then Product (p_id p) name (price_cell price) category (p_image row)
                        else p)
                   (products (w_db w)))
                (users (w_db w)) (product_seq (w_db w)) (names_unique (w_db w)))
             (w_log w ++ [SelectImage product_id;
                          UpdateProduct name price category (p_image row) product_id])%list)
    | None =>
        (Raised TypeError,
         World (w_session w) (w_db w) (w_log w ++ [SelectImage product_id])%list)
    end
  else (Raised OverflowError, w).
Proof.
  intros Hok name price category Himage. unfold admin_update.
  unfold bind at 1. rewrite verify_csrf_accepts by assumption. cbn [negb].
  fold name price category. rewrite Himage. cbn [PyStr.truthy negb].
  unfold bind at 1. unfold bind at 1. rewrite select_image_run.
  destruct (sqlite_integer product_id) eqn:R; [|reflexivity].
  destruct (find (fun p => p_id p =? product_id) (products (w_db w))) as [row|];
    cbn [option_map]; [|reflexivity].
  unfold ret at 1. unfold bind at 1. rewrite update_product_run, R.
  cbn [w_session w_db w_log].
  destruct (rename_clashes name product_id (w_db w)); [now rewrite <- app_assoc|].
  unfold flash, bind, get_session, put_session, ret. cbn [w_session w_db w_log].
  now rewrite <- app_assoc.
Qed.

Lemma find_by_id_map (f : product num -> product num) product_id rows :
  (forall p, p_id (f p) = p_id p) ->
  find (fun p => p_id p =? product_id) (map f rows) =
  option_map f (find (fun p => p_id p =? product_id) rows).
Proof.
  intros Hid. induction rows as [|row rows IH]; simpl; auto.
  rewrite Hid. now destruct (p_id row =? product_id).
Qed.

End AdminFacts.

Section Validation.
Context {num : Type} `{PyNumber num}.

Lemma accepted_image_iff image :
  accepted_image image <->
  PyStr.endswith_any (PyStr.lower image) image_extensions = true.
Proof. unfold accepted_image. now rewrite PyStrFacts.endswith_any_iff. Qed.

Lemma validate_missing name price category image :
  name = "" \/ price = "" \/ category = "" \/ image = "" ->
  validate_product_form name price category image = Some "All fields are required.".
Proof.
  unfold validate_product_form.
  intros [ -> | [ -> | [ -> | -> ] ] ]; cbn [PyStr.truthy negb orb];
    now rewrite ?orb_true_r.
Qed.

Lemma validate_present name price category image :
  name <> "" -> price <> "" -> category <> "" -> image <> "" ->
  validate_product_form name price category image =
  match float price with
  | None => Some "Price must be a number."
  | Some x =>
      if le_zero x then Some "Price must be greater than zero."
      else if negb (PyStr.endswith_any (PyStr.lower image) image_extensions)
      then Some "Invalid image format."
      else None
  end.
Proof.
  intros Hn Hp Hc Hi. unfold validate_product_form.
  apply PyStrFacts.truthy_true in Hn, Hp, Hc, Hi.
  now rewrite Hn, Hp, Hc, Hi.
Qed.

Lemma strip_absent_field key fields :
  field key fields = None -> PyStr.strip (field_or_empty key fields) = "".
Proof. unfold field_or_empty. now intros ->. Qed.

End Validation.

(** C1, at the input where it fails.  A session without the admin flag
    that holds a CSRF token posts to [admin_update]: the route is not
    wrapped in [admin_required], the caller is sent to the admin listing
    and row 1 of [products] is rewritten.  The sibling routes [admin_add]
    and [admin_delete] send the same session to the login page and leave
    the table alone.  Without any token the same route answers with the
    token message and a redirect to the admin listing, again not to the
    login page. *)
Theorem admin_update_runs_without_admin_session :
  let r := post [("csrf_token", "t0k3n"); ("name", "Ball"); ("price", "10");
                 ("category", "Outdoor"); ("image", "b.png")] in
  let w := World visitor_with_token seeded_db [] in
  admin_logged_in (w_session w) = false
  /\ fst (admin_update 1 r w) = Returned (redirect admin_ep)
  /\ products (w_db (snd (admin_update 1 r w)))
     = Product 1 "Ball" 10 "Outdoor" "b.png" :: tl seeded_products
  /\ products (w_db (snd (admin_update 1 r w))) <> products (w_db w)
  /\ admin_add r w = (Returned (redirect admin_login_ep), w)
  /\ admin_delete 1 w = (Returned (redirect admin_login_ep), w)
  /\ admin_update 1 (post []) (World anonymous seeded_db [])
     = (Returned (redirect admin_ep),
        World (Session false None None [("danger", "Invalid CSRF token")]) seeded_db []).
Proof.
  cbv zeta. split; [reflexivity|]. split; [reflexivity|]. split; [reflexivity|].
  split; [|repeat split; reflexivity].
  vm_compute. discriminate.
Qed.

(** C2, as stated, fails: a POST to [admin_add] with no token from a
    session without the admin flag is answered by the access guard with a
    redirect to the login page and no message. *)
Lemma csrf_message_not_sent_before_login :
  let r := post [("name", "Ball"); ("price", "10"); ("category", "Outdoor");
                 ("image", "b.png")] in
  let w := World anonymous seeded_db [] in
  token_missing_or_mismatched (w_session w) r
  /\ fst (admin_add r w) = Returned (redirect admin_login_ep)
  /\ fst (admin_add r w) <> Returned (redirect admin_ep)
  /\ flashes (w_session (snd (admin_add r w))) = [].
Proof.
  cbv zeta. split; [now left|]. split; [reflexivity|]. split; [|reflexivity].
  vm_compute. discriminate.
Qed.

(** C2, amended.  In an authenticated admin session, every POST to
    [admin_add] or [admin_update] whose CSRF token is missing or differs
    from the session's token is rejected before any field is validated and
    before any statement is executed: the tables and the statement log are
    unchanged, and the caller is redirected to the admin listing with the
    message "Invalid CSRF token". *)
Theorem csrf_failure_rejected_in_admin_session :
  forall (num : Type) (N : PyNumber num) (product_id : Z) (r : request) (w : world num),
    admin_logged_in (w_session w) = true ->
    token_missing_or_mismatched (w_session w) r ->
    let answer :=
      (Returned (redirect admin_ep),
       World (with_flash (w_session w) "danger" "Invalid CSRF token") (w_db w) (w_log w)) in
    admin_add r w = answer /\ admin_update product_id r w = answer.
Proof.
  intros num N product_id r w Hadmin Hbad answer. split.
  - now apply admin_add_bad_token.
  - now apply admin_update_bad_token.
Qed.

Lemma csrf_failure_rejected_in_admin_session_witness :
  let r := post [("csrf_token", "forged"); ("name", "Ball"); ("price", "10");
                 ("category", "Outdoor"); ("image", "b.png")] in
  let w := World admin_session seeded_db [] in
  admin_logged_in (w_session w) = true
  /\ token_missing_or_mismatched (w_session w) r
  /\ admin_add r w
     = (Returned (redirect admin_ep),
        World (Session true (Some "t0k3n") None [("danger", "Invalid CSRF token")])
          seeded_db [])
  /\ admin_update 1 r w
     = (Returned (redirect admin_ep),
        World (Session true (Some "t0k3n") None [("danger", "Invalid CSRF token")])
          seeded_db []).
Proof.
  cbv zeta.
  assert (Hbad : token_missing_or_mismatched admin_session
                   (post [("csrf_token", "forged"); ("name", "Ball"); ("price", "10");
                          ("category", "Outdoor"); ("image", "b.png")])).
  { right. simpl. discriminate. }
  split; [reflexivity|]. split; [exact Hbad|].
  exact (csrf_failure_rejected_in_admin_session Z whole_prices 1 _
           (World admin_session seeded_db []) eq_refl Hbad).
Defined.

(** C3, as stated, fails on the table as [database.py] creates it, where
    [name] is UNIQUE: a form that passes every check but names a product
    the table already holds is answered with [sqlite3.IntegrityError], and
    no row is inserted. *)
Lemma add_product_refused_for_taken_name :
  @validate_product_form Z whole_prices "Football" "520" "Indoor" "football2.png" = None
  /\ fst (admin_add
            (post [("csrf_token", "t0k3n"); ("name", "Football"); ("price", "520");
                   ("category", "Indoor"); ("image", "football2.png")])
            (World admin_session seeded_unique_db []))
     = Raised IntegrityError
  /\ products
       (w_db (snd (admin_add
                     (post [("csrf_token", "t0k3n"); ("name", "Football");
                            ("price", "520"); ("category", "Indoor");
                            ("image", "football2.png")])
                     (World admin_session seeded_unique_db []))))
     = seeded_products.
Proof. repeat split; reflexivity. Qed.

(** C3, amended.  Past the access guard and the token check, [admin_add]
    validates the trimmed fields in this order: a missing (absent, empty or
    blank) field gives "All fields are required."; otherwise a price [float]
    cannot read gives "Price must be a number."; a price [<= 0] gives
    "Price must be greater than zero."; an image that does not end, up to
    case, in .png, .jpg, .jpeg or .webp gives "Invalid image format.".
    Every failure leaves the tables and the statement log as they were.
    When all checks pass, one row is appended to [products], unless the
    table declares names UNIQUE and holds the name already: then the INSERT
    raises [sqlite3.IntegrityError] and the tables stay as they were. *)
Theorem add_product_validation :
  forall (num : Type) (N : PyNumber num) (r : request) (w : world num),
    admin_logged_in (w_session w) = true ->
    token_valid (w_session w) r ->
    let name := PyStr.strip (field_or_empty "name" (form r)) in
    let price := PyStr.strip (field_or_empty "price" (form r)) in
    let category := PyStr.strip (field_or_empty "category" (form r)) in
    let image := PyStr.strip (field_or_empty "image" (form r)) in
    let inserted :=
      (Returned (redirect admin_ep),
       World (with_flash (w_session w) "success" "Product added successfully!")
         (Database
            (products (w_db w)
             ++ [Product (next_rowid (w_db w)) name (price_cell price) category image])%list
            (users (w_db w)) (next_rowid (w_db w)) (names_unique (w_db w)))
         (w_log w ++ [InsertProduct name price category image])%list) in
    (name = "" \/ price = "" \/ category = "" \/ image = "" ->
     admin_add r w = rejected w "error" "All fields are required.")
    /\ (name <> "" -> price <> "" -> category <> "" -> image <> "" ->
        match float price with
        | None => admin_add r w = rejected w "error" "Price must be a number."
        | Some x =>
            if le_zero x
            then admin_add r w = rejected w "error" "Price must be greater than zero."
            else (~ accepted_image image ->
                  admin_add r w = rejected w "error" "Invalid image format.")
                 /\ (accepted_image image ->
                     if names_unique (w_db w) && name_taken name (products (w_db w))
                     then fst (admin_add r w) = Raised IntegrityError
                          /\ w_db (snd (admin_add r w)) = w_db w
                     else admin_add r w = inserted)
        end)
    /\ (forall key, field key (form r) = None ->
          PyStr.strip (field_or_empty key (form r)) = "")
    /\ (forall category message,
          w_db (snd (rejected w category message)) = w_db w
          /\ w_log (snd (rejected w category message)) = w_log w).
Proof.
  intros num N r w Hadmin Hok name price category image inserted.
  pose proof (admin_add_run r w Hadmin Hok) as Hrun. cbv zeta in Hrun.
  fold name price category image in Hrun.
  split; [|split; [|split]].
  - intros Hmissing. now rewrite Hrun, validate_missing.
  - intros Hn Hp Hc Hi. rewrite Hrun, validate_present by assumption.
    destruct (float price) as [x|]; [|reflexivity].
    destruct (le_zero x); [reflexivity|].
    split; intros Himage; rewrite accepted_image_iff in Himage.
    + apply not_true_is_false in Himage. now rewrite Himage.
    + rewrite Himage. cbn [negb].
      now destruct (names_unique (w_db w) && name_taken name (products (w_db w))).
  - intros key. apply strip_absent_field.
  - intros c m. split; reflexivity.
Qed.

Lemma add_product_validation_witness :
  let r := post [("csrf_token", "t0k3n"); ("name", "Ball"); ("price", "0");
                 ("category", "Outdoor"); ("image", "b.png")] in
  let w := World admin_session seeded_db [] in
  admin_logged_in (w_session w) = true
  /\ token_valid (w_session w) r
  /\ admin_add r w
     = (Returned (redirect admin_ep),
        World
          (Session true (Some "t0k3n") None
             [("error", "Price must be greater than zero.")])
          seeded_db []).
Proof.
  cbv zeta.
  assert (Hok : token_valid admin_session
                  (post [("csrf_token", "t0k3n"); ("name", "Ball"); ("price", "0");
                         ("category", "Outdoor"); ("image", "b.png")])).
  { exists "t0k3n". split; [discriminate|]. split; reflexivity. }
  split; [reflexivity|]. split; [exact Hok|].
  pose proof (add_product_validation Z whole_prices _
                (World admin_session seeded_db []) eq_refl Hok) as T.
  cbv zeta in T. destruct T as [_ [T _]].
  apply T; discriminate.
Defined.

(** C4, as stated, fails on the table as [database.py] creates it, where
    [name] is UNIQUE.  Row 2 exists; an update of row 2 with an empty image
    and the name of row 1 raises [sqlite3.IntegrityError], and row 2 keeps
    its name, price and category. *)
Lemma update_product_refused_for_taken_name :
  fst (admin_update 2
         (post [("csrf_token", "t0k3n"); ("name", "Football"); ("price", "10");
                ("category", "Outdoor"); ("image", "")])
         (World admin_session seeded_unique_db []))
  = Raised IntegrityError
  /\ find (fun p => p_id p =? 2)
       (products
          (w_db (snd (admin_update 2
                        (post [("csrf_token", "t0k3n"); ("name", "Football");
                               ("price", "10"); ("category", "Outdoor"); ("image", "")])
                        (World admin_session seeded_unique_db [])))))
     = Some (Product 2 "Cricket Bat" 1299 "Outdoor" "cricket_bat.jpeg").
Proof. split; reflexivity. Qed.

(** C4, amended.  [admin_update] with an image given is decided by the
    same [validate_product_form] as [admin_add]: the same message on
    failure and nothing changed.  With an empty image nothing is validated;
    for an id that exists the stored image is looked up and written back,
    so the row keeps its image while name, price and category take the
    (trimmed) submitted values, the price as the column keeps it, and every
    other row is as before.  The exception is a table that declares names
    UNIQUE where another row has the submitted name: there the UPDATE
    raises [sqlite3.IntegrityError] and the tables stay as they were.  (An
    id that exists is one SQLite holds, 64 bits, signed; a valid form with
    an id outside that range raises [OverflowError] and changes nothing.) *)
Theorem update_product_keeps_image :
  forall (num : Type) (N : PyNumber num) (product_id : Z) (r : request)
         (w : world num),
    token_valid (w_session w) r ->
    let name := PyStr.strip (field_or_empty "name" (form r)) in
    let price := PyStr.strip (field_or_empty "price" (form r)) in
    let category := PyStr.strip (field_or_empty "category" (form r)) in
    let image := PyStr.strip (field_or_empty "image" (form r)) in
    let by_id (k : Z) := find (fun p : product num => p_id p =? k) in
    let after := snd (admin_update product_id r w) in
    (image = "" ->
     forall row, by_id product_id (products (w_db w)) = Some row ->
       sqlite_integer product_id = true ->
       if rename_clashes name product_id (w_db w)
       then fst (admin_update product_id r w) = Raised IntegrityError
            /\ w_db after = w_db w
       else
         fst (admin_update product_id r w) = Returned (redirect admin_ep)
         /\ by_id product_id (products (w_db after))
            = Some (Product product_id name (price_cell price) category (p_image row))
         /\ (forall other, other <> product_id ->
               by_id other (products (w_db after)) = by_id other (products (w_db w)))
         /\ List.length (products (w_db after)) = List.length (products (w_db w))
         /\ w_log after
            = (w_log w ++ [SelectImage product_id;
                           UpdateProduct name price category (p_image row) product_id])%list)
    /\ (image <> "" ->
        (forall error,
           validate_product_form name price category image = Some error ->
           admin_update product_id r w = rejected w "error" error
           /\ (admin_logged_in (w_session w) = true ->
               admin_add r w = rejected w "error" error))
        /\ (validate_product_form name price category image = None ->
            if sqlite_integer product_id then
              if rename_clashes name product_id (w_db w)
              then fst (admin_update product_id r w) = Raised IntegrityError
                   /\ w_db after = w_db w
              else
                fst (admin_update product_id r w) = Returned (redirect admin_ep)
                /\ by_id product_id (products (w_db after))
                   = option_map
                       (fun _ => Product product_id name (price_cell price) category image)
                       (by_id product_id (products (w_db w)))
            else admin_update product_id r w = (Raised OverflowError, w)))
    /\ (names_unique (w_db w) = false -> rename_clashes name product_id (w_db w) = false).
Proof.
  intros num N product_id r w Hok name price category image by_id after.
  split; [|split].
  - intros Himage row Hrow Hid. subst after by_id. cbv beta in *.
    rewrite (admin_update_run_no_image product_id r w Hok Himage), Hid, Hrow.
    fold name price category.
    destruct (rename_clashes name product_id (w_db w)); [now split|].
    cbn [fst snd w_db w_log products].
    pose proof (find_some _ _ Hrow) as [_ Hrowid]. apply Z.eqb_eq in Hrowid.
    split; [reflexivity|]. split; [|split; [|split]].
    + rewrite find_by_id_map by (intros p; now destruct (p_id p =? product_id)).
      rewrite Hrow. cbn [option_map]. apply Z.eqb_eq in Hrowid as Hrowid'.
      now rewrite Hrowid', Hrowid.
    + intros other Hother.
      rewrite find_by_id_map by (intros p; now destruct (p_id p =? product_id)).
      destruct (find (fun p => p_id p =? other) (products (w_db w))) as [found|] eqn:E;
        [|reflexivity].
      cbn [option_map]. pose proof (find_some _ _ E) as [_ Hfound].
      apply Z.eqb_eq in Hfound.
      destruct (Z.eqb_spec (p_id found) product_id); [congruence | reflexivity].
    + apply length_map.
    + reflexivity.
  - intros Himage. split.
    + intros error Herror.
      rewrite (admin_update_run_image product_id r w Hok Himage).
      fold name price category image. rewrite Herror. split; [reflexivity|].
      intros Hadmin. rewrite (admin_add_run r w Hadmin Hok).
      fold name price category image. now rewrite Herror.
    + intros Hvalid. subst after by_id. cbv beta.
      rewrite (admin_update_run_image product_id r w Hok Himage).
      fold name price category image. rewrite Hvalid.
      destruct (sqlite_integer product_id); [|reflexivity].
      destruct (rename_clashes name product_id (w_db w)); [now split|].
      cbn [fst snd w_db products]. split; [reflexivity|].
      rewrite find_by_id_map by (intros p; now destruct (p_id p =? product_id)).
      destruct (find (fun p => p_id p =? product_id) (products (w_db w)))
        as [found|] eqn:E; [|reflexivity].
      cbn [option_map]. pose proof (find_some _ _ E) as [_ Hfound].
      rewrite Hfound. apply Z.eqb_eq in Hfound. now rewrite Hfound.
  - unfold rename_clashes. now intros ->.
Qed.

Lemma update_product_keeps_image_witness :
  let r := post [("csrf_token", "t0k3n"); ("name", "Ball"); ("price", "10");
                 ("category", "Outdoor"); ("image", "")] in
  let w := World admin_session seeded_db [] in
  token_valid (w_session w) r
  /\ find (fun p => p_id p =? 1) (products (w_db (snd (admin_update 1 r w))))
     = Some (Product 1 "Ball" 10 "Outdoor" "football.jpeg").
Proof.
  cbv zeta.
  assert (Hok : token_valid admin_session
                  (post [("csrf_token", "t0k3n"); ("name", "Ball"); ("price", "10");
                         ("category", "Outdoor"); ("image", "")])).
  { exists "t0k3n". split; [discriminate|]. split; reflexivity. }
  split; [exact Hok|].
  pose proof (update_product_keeps_image Z whole_prices 1 _
                (World admin_session seeded_db []) Hok) as T.
  cbv zeta in T. destruct T as [T _].
  destruct (T eq_refl (Product 1 "Football" 499 "Outdoor" "football.jpeg") eq_refl eq_refl)
    as [_ [T' _]].
  exact T'.
Defined.

(** * The catalog *)

Section CatalogFacts.
Context {num : Type} `{PyNumber num}.



Lemma product_page_run r (w : world num) :
  let query := PyStr.strip (field_or_empty "q" (args r)) in
  let category := PyStr.strip (field_or_empty "category" (args r)) in
  product_page r w =
  (Returned
     (render_products (filter (where_clause query category) (products (w_db w)))
        query category),
   World (w_session w) (w_db w)
     (w_log w ++
      [SelectProductsWhere
         (if PyStr.truthy query
          then Some (String Sqlite.percent (query ++ String Sqlite.percent ""))
          else None)
         (if PyStr.truthy category then Some category else None)])%list).
Proof. reflexivity. Qed.

End CatalogFacts.




(** * Login *)

Section LoginFacts.
Context {num : Type}.
Variable check_password_hash : string -> string -> bool.

Lemma admin_login_blank r (w : world num) :
  method r = POST ->
  PyStr.strip (field_or_empty "username" (form r)) = ""
  \/ PyStr.strip (field_or_empty "password" (form r)) = "" ->
  admin_login check_password_hash r w =
  (Returned (redirect admin_login_ep),
   World (with_flash (w_session w) "danger" "Username and password are required")
     (w_db w) (w_log w)).
Proof.
  intros Hpost Hblank. unfold admin_login. rewrite Hpost.
  destruct Hblank as [-> | ->]; cbn [PyStr.truthy negb orb];
    rewrite ?orb_true_r; reflexivity.
Qed.

Lemma admin_login_run r (w : world num) :
  method r = POST ->
  let username := PyStr.strip (field_or_empty "username" (form r)) in
  let password := PyStr.strip (field_or_empty "password" (form r)) in
  username <> "" -> password <> "" ->
  admin_login check_password_hash r w =
  let log := (w_log w ++ [SelectPasswordHash username])%list in
  let refused :=
    (Returned (redirect admin_login_ep),
     World (with_flash (w_session w) "danger" "Invalid username or password")
       (w_db w) log) in
  match find (fun u => (u_username u =? username)%string) (users (w_db w)) with
  | Some row =>
      if check_password_hash (u_password_hash row) password
      then (Returned (redirect admin_ep),
            World (Session true (csrf_token (w_session w))
                     (session_cart (w_session w)) (flashes (w_session w)))
              (w_db w) log)
      else refused
  | None => refused
  end.
Proof.
  intros Hpost username password Hu Hp. unfold admin_login. rewrite Hpost.
  fold username password.
  apply PyStrFacts.truthy_true in Hu, Hp. rewrite Hu, Hp. cbn [negb orb].
  unfold bind at 1. unfold select_password_hash.
  unfold bind, execute, get_database, ret at 1 2. cbn [w_session w_db w_log].
  destruct (find (fun u => (u_username u =? username)%string) (users (w_db w)))
    as [row|]; cbn [option_map]; [|reflexivity].
  unfold verify_password.
  destruct (check_password_hash (u_password_hash row) password); reflexivity.
Qed.

End LoginFacts.

(** C9, as stated, fails: with the registered user "realuser", a login
    with that username and a blank (wrong) password is answered "Username
    and password are required", while a login with the unknown username
    "nouser" is answered "Invalid username or password". *)
Lemma blank_password_gets_another_message :
  let w := World anonymous seeded_db [] in
  let wrong_password := post [("username", "realuser"); ("password", "")] in
  let no_such_user := post [("username", "nouser"); ("password", "x")] in
  find (fun u => (u_username u =? "realuser")%string) (users seeded_db)
    = Some (User 1 "realuser" "hash-of-secret")
  /\ verify_password sample_check "" "hash-of-secret" = false
  /\ find (fun u => (u_username u =? "nouser")%string) (users seeded_db) = None
  /\ admin_login sample_check wrong_password w
     = (Returned (redirect admin_login_ep),
        World (Session false None None [("danger", "Username and password are required")])
          seeded_db [])
  /\ admin_login sample_check no_such_user w
     = (Returned (redirect admin_login_ep),
        World (Session false None None [("danger", "Invalid username or password")])
          seeded_db [SelectPasswordHash "nouser"]).
Proof. cbv zeta. repeat split; reflexivity. Qed.

(** C9, amended.  For every pair of failing login attempts whose username
    and password are not blank after trimming, one with a username that
    exists and a password that does not verify, one with a username that
    does not exist, the outcomes are the same: the redirect to the login
    page, the message "Invalid username or password", no admin flag, the
    tables untouched.  A blank username or password is refused with
    "Username and password are required" before the users table is read,
    whatever the table holds. *)
Theorem login_failures_indistinguishable :
  forall (num : Type) (check_password_hash : string -> string -> bool)
         (s : session) (db : database num) (log : list sql)
         (wrong_password no_such_user : request) (row : user),
    let username r := PyStr.strip (field_or_empty "username" (form r)) in
    let password r := PyStr.strip (field_or_empty "password" (form r)) in
    method wrong_password = POST -> method no_such_user = POST ->
    username wrong_password <> "" -> password wrong_password <> "" ->
    username no_such_user <> "" -> password no_such_user <> "" ->
    find (fun u => (u_username u =? username wrong_password)%string) (users db) = Some row ->
    verify_password check_password_hash (password wrong_password) (u_password_hash row) = false ->
    find (fun u => (u_username u =? username no_such_user)%string) (users db) = None ->
    let first := admin_login check_password_hash wrong_password (World s db log) in
    let second := admin_login check_password_hash no_such_user (World s db log) in
    fst first = Returned (redirect admin_login_ep)
    /\ fst second = fst first
    /\ w_session (snd first) = with_flash s "danger" "Invalid username or password"
    /\ w_session (snd second) = w_session (snd first)
    /\ w_db (snd first) = db /\ w_db (snd second) = db
    /\ (forall r (db' : database num),
          method r = POST -> username r = "" \/ password r = "" ->
          fst (admin_login check_password_hash r (World s db' log))
            = Returned (redirect admin_login_ep)
          /\ w_session (snd (admin_login check_password_hash r (World s db' log)))
             = with_flash s "danger" "Username and password are required"
          /\ w_log (snd (admin_login check_password_hash r (World s db' log))) = log).
Proof.
  intros num check s db log wrong_password no_such_user row username password
    Hpost1 Hpost2 Hu1 Hp1 Hu2 Hp2 Hrow Hwrong Hnone first second.
  subst first second.
  rewrite (admin_login_run check wrong_password _ Hpost1 Hu1 Hp1).
  rewrite (admin_login_run check no_such_user _ Hpost2 Hu2 Hp2).
  cbv zeta. cbn [w_session w_db w_log]. fold (username wrong_password) (username no_such_user).
  fold (password wrong_password).
  rewrite Hrow, Hnone. unfold verify_password in Hwrong. rewrite Hwrong.
  repeat (split; [reflexivity|]).
  intros r db' Hpost Hblank.
  rewrite (admin_login_blank check r _ Hpost Hblank). repeat split; reflexivity.
Qed.

Lemma login_failures_indistinguishable_witness :
  let wrong_password := post [("username", "realuser"); ("password", "guess")] in
  let no_such_user := post [("username", "nouser"); ("password", "x")] in
  let w := World anonymous seeded_db [] in
  fst (admin_login sample_check no_such_user w)
    = fst (admin_login sample_check wrong_password w)
  /\ w_session (snd (admin_login sample_check no_such_user w))
     = w_session (snd (admin_login sample_check wrong_password w)).
Proof.
  cbv zeta.
  pose proof (login_failures_indistinguishable Z sample_check anonymous seeded_db []
                (post [("username", "realuser"); ("password", "guess")])
                (post [("username", "nouser"); ("password", "x")])
                (User 1 "realuser" "hash-of-secret")) as T.
  cbv zeta in T.
  destruct T as [_ [T1 [_ [T2 _]]]];
    try reflexivity; try discriminate.
  split; [exact T1 | exact T2].
Defined.

(** * Further properties of the cart *)

Section CartLaws.
Context {num : Type} `{PyNumber num}.

Lemma quantity_of_cart_dict name s :
  quantity_of name s = PyDict.get_default name 0 (cart_dict s).
Proof.
  unfold quantity_of, cart_dict.
  destruct (session_cart s) as [[names|quantities]|]; auto.
  now rewrite migrate_get_default.
Qed.

Lemma cart_dict_NoDup s : cart_keys_distinct s -> NoDup (PyDict.keys (cart_dict s)).
Proof.
  unfold cart_keys_distinct, cart_dict.
  destruct (session_cart s) as [[names|quantities]|]; intros Hs; auto.
  - apply migrate_NoDup.
  - constructor.
Qed.

(** One [add_to_cart]: the cart becomes the dictionary with the name's
    quantity one higher; nothing else moves. *)
Lemma add_to_cart_after product_name (w : world num) :
  after (add_to_cart product_name) w =
  World
    (Session (admin_logged_in (w_session w)) (csrf_token (w_session w))
       (Some (CartDict
                (PyDict.set product_name
                   (quantity_of product_name (w_session w) + 1)
                   (cart_dict (w_session w)))))
       (flashes (w_session w)))
    (w_db w) (w_log w).
Proof.
  destruct w as [[flag token c msgs] db log]. unfold after.
  rewrite add_to_cart_run, quantity_of_cart_dict. cbv zeta. unfold cart_dict.
  cbn [snd w_session w_db w_log admin_logged_in csrf_token flashes session_cart].
  destruct c as [[names|quantities]|]; reflexivity.
Qed.

Lemma quantity_after_add product_name other (w : world num) :
  quantity_of other (w_session (after (add_to_cart product_name) w)) =
  quantity_of other (w_session w) + (if (other =? product_name)%string then 1 else 0).
Proof.
  rewrite add_to_cart_after. cbn [w_session]. unfold quantity_of at 1.
  cbn [session_cart]. unfold PyDict.get_default.
  destruct (String.eqb_spec other product_name) as [->|Hne].
  - now rewrite PyDictFacts.get_set_same.
  - rewrite PyDictFacts.get_set_other by congruence.
    rewrite quantity_of_cart_dict. unfold PyDict.get_default. lia.
Qed.

Lemma keys_distinct_after_add product_name (w : world num) :
  cart_keys_distinct (w_session w) ->
  cart_keys_distinct (w_session (after (add_to_cart product_name) w)).
Proof.
  intros Hw. rewrite add_to_cart_after. unfold cart_keys_distinct at 1.
  cbn [w_session session_cart].
  now apply PyDictFacts.NoDup_keys_set, cart_dict_NoDup.
Qed.

(** Reading the session back from the cookie keeps every quantity. *)
Lemma quantity_of_reload name s : quantity_of name (reload_session s) = quantity_of name s.
Proof.
  unfold quantity_of, reload_session. cbn [session_cart].
  destruct (session_cart s) as [[names|quantities]|]; try reflexivity.
  unfold PyDict.get_default. now rewrite PyDictFacts.get_sort_keys.
Qed.

Lemma keys_distinct_reload s :
  cart_keys_distinct s -> cart_keys_distinct (reload_session s).
Proof.
  unfold cart_keys_distinct, reload_session. cbn [session_cart].
  destruct (session_cart s) as [[names|quantities]|]; auto.
  apply PyDictFacts.NoDup_keys_sort.
Qed.

Lemma requested_add_frame k product_name : forall w : world num,
  w_db (requested k (add_to_cart product_name) w) = w_db w
  /\ w_log (requested k (add_to_cart product_name) w) = w_log w
  /\ admin_logged_in (w_session (requested k (add_to_cart product_name) w))
     = admin_logged_in (w_session w)
  /\ csrf_token (w_session (requested k (add_to_cart product_name) w))
     = csrf_token (w_session w)
  /\ flashes (w_session (requested k (add_to_cart product_name) w))
     = flashes (w_session w).
Proof.
  induction k as [|k IH]; intros w; cbn [requested]; [repeat split|].
  destruct (IH (reload (after (add_to_cart product_name) w)))
    as [Hdb [Hlog [Hflag [Htok Hmsg]]]].
  rewrite Hdb, Hlog, Hflag, Htok, Hmsg, add_to_cart_after. repeat split.
Qed.

Lemma quantity_after_adds k product_name other : forall w : world num,
  quantity_of other (w_session (requested k (add_to_cart product_name) w)) =
  quantity_of other (w_session w)
  + (if (other =? product_name)%string then Z.of_nat k else 0).
Proof.
  induction k as [|k IH]; intros w; cbn [requested].
  - destruct (other =? product_name)%string; simpl; lia.
  - rewrite IH. unfold reload. cbn [w_session].
    rewrite quantity_of_reload, quantity_after_add.
    destruct (other =? product_name)%string; lia.
Qed.

Lemma keys_distinct_after_adds k product_name : forall w : world num,
  cart_keys_distinct (w_session w) ->
  cart_keys_distinct (w_session (requested k (add_to_cart product_name) w)).
Proof.
  induction k as [|k IH]; intros w Hw; cbn [requested]; auto.
  apply IH. unfold reload. cbn [w_session].
  now apply keys_distinct_reload, keys_distinct_after_add.
Qed.

Lemma requested_add_is_dict k product_name : forall w : world num,
  exists quantities,
    session_cart (w_session (requested (S k) (add_to_cart product_name) w))
    = Some (CartDict quantities).
Proof.
  induction k as [|k IH]; intros w.
  - cbn [requested]. rewrite add_to_cart_after. cbn. eauto.
  - change (requested (S (S k)) (add_to_cart product_name) w)
      with (requested (S k) (add_to_cart product_name)
              (reload (after (add_to_cart product_name) w))).
    apply IH.
Qed.

End CartLaws.

(** X1. Adding a product name [k] times raises its quantity by [k], in
    every cart state (absent, legacy list or dictionary); the quantity of
    every other name, the tables, the statement log, the admin flag, the
    token and the messages stay as they were. *)
Theorem adds_accumulate :
  forall (num : Type) (N : PyNumber num) (k : nat) (product_name : string)
         (w : world num),
    let w' := requested k (add_to_cart product_name) w in
    quantity_of product_name (w_session w')
      = quantity_of product_name (w_session w) + Z.of_nat k
    /\ (forall other, other <> product_name ->
          quantity_of other (w_session w') = quantity_of other (w_session w))
    /\ w_db w' = w_db w /\ w_log w' = w_log w
    /\ admin_logged_in (w_session w') = admin_logged_in (w_session w)
    /\ csrf_token (w_session w') = csrf_token (w_session w)
    /\ flashes (w_session w') = flashes (w_session w).
Proof.
  intros num N k product_name w w'. subst w'. split; [|split].
  - rewrite quantity_after_adds. now rewrite String.eqb_refl.
  - intros other Hne. rewrite quantity_after_adds.
    apply String.eqb_neq in Hne. rewrite Hne. lia.
  - apply requested_add_frame.
Qed.

Section RemoveLaws.
Context {num : Type}.

Lemma remove_from_cart_missing product_name flag token quantities msgs
    (db : database num) log :
  PyDict.get product_name quantities = None ->
  remove_from_cart product_name
    (World (Session flag token (Some (CartDict quantities)) msgs) db log) =
  (Returned (redirect cart_ep),
   World (Session flag token (Some (CartDict quantities)) msgs) db log).
Proof.
  intros Hnone. unfold remove_from_cart, bind, get_session.
  cbn [w_session session_cart]. unfold PyDict.mem. now rewrite Hnone.
Qed.

Lemma remove_from_cart_list_without product_name flag token names msgs
    (db : database num) log :
  existsb (String.eqb product_name) names = false ->
  remove_from_cart product_name
    (World (Session flag token (Some (CartList names)) msgs) db log) =
  (Returned (redirect cart_ep),
   World (Session flag token (Some (CartList names)) msgs) db log).
Proof.
  intros Hnone. unfold remove_from_cart, bind, get_session.
  cbn [w_session session_cart]. now rewrite Hnone.
Qed.

Lemma remove_from_cart_list_with product_name flag token names msgs
    (db : database num) log :
  existsb (String.eqb product_name) names = true ->
  remove_from_cart product_name
    (World (Session flag token (Some (CartList names)) msgs) db log) =
  (Raised TypeError,
   World (Session flag token (Some (CartList names)) msgs) db log).
Proof.
  intros Hsome. unfold remove_from_cart, bind, get_session.
  cbn [w_session session_cart]. now rewrite Hsome.
Qed.

Lemma existsb_eqb_In product_name names :
  existsb (String.eqb product_name) names = true <-> In product_name names.
Proof.
  rewrite existsb_exists. split.
  - intros [x [Hin Hx]]. apply String.eqb_eq in Hx. now subst.
  - intros Hin. exists product_name. split; auto. apply String.eqb_refl.
Qed.

End RemoveLaws.

(** X2. Whatever the cart held, once a name has been added (one or more
    times) [remove_from_cart] returns and leaves no quantity for the name,
    whole line and not one unit; every other name keeps the quantity it had
    before the additions, and a second removal returns and changes
    nothing. *)
Theorem remove_after_adds :
  forall (num : Type) (N : PyNumber num) (k : nat) (product_name : string)
         (w : world num),
    cart_keys_distinct (w_session w) ->
    let added := requested (S k) (add_to_cart product_name) w in
    let removed := after (remove_from_cart product_name) added in
    fst (remove_from_cart product_name added) = Returned (redirect cart_ep)
    /\ quantity_of product_name (w_session removed) = 0
    /\ (forall other, other <> product_name ->
          quantity_of other (w_session removed) = quantity_of other (w_session w))
    /\ remove_from_cart product_name removed = (Returned (redirect cart_ep), removed).
Proof.
  intros num N k product_name w Hw added removed.
  pose proof (keys_distinct_after_adds (S k) product_name w Hw) as Hnd.
  pose proof (requested_add_is_dict k product_name w) as [quantities Hdict].
  assert (Hothers : forall other, other <> product_name ->
            quantity_of other (w_session added) = quantity_of other (w_session w)).
  { intros other Hne. unfold added. rewrite quantity_after_adds.
    apply String.eqb_neq in Hne. rewrite Hne. lia. }
  fold added in Hnd, Hdict.
  subst removed. unfold after.
  destruct added as [[flag token c msgs] db log].
  cbn [w_session session_cart] in Hdict. subst c.
  unfold cart_keys_distinct in Hnd. cbn [w_session session_cart] in Hnd.
  destruct (remove_from_cart_dict product_name flag token quantities msgs db log Hnd)
    as [quantities' [Hrun [Hgone Hkept]]].
  rewrite Hrun. cbn [fst snd w_session].
  split; [reflexivity|]. split; [|split].
  - unfold quantity_of. cbn [session_cart]. unfold PyDict.get_default. now rewrite Hgone.
  - intros other Hne. rewrite <- (Hothers other Hne).
    unfold quantity_of. cbn [w_session session_cart]. unfold PyDict.get_default.
    now rewrite (Hkept other Hne).
  - now apply remove_from_cart_missing.
Qed.

Lemma remove_after_adds_witness :
  let w := World (Session false None (Some (CartList ["Football"; "Yoga Mat"])) [])
             seeded_db [] in
  cart_keys_distinct (w_session w)
  /\ session_cart
       (w_session (after (remove_from_cart "Football")
                     (requested 2 (add_to_cart "Football") w)))
     = Some (CartDict [("Yoga Mat", 1)]).
Proof.
  cbv zeta. split; [exact I|].
  pose proof (remove_after_adds Z whole_prices 1 "Football"
                (World (Session false None (Some (CartList ["Football"; "Yoga Mat"])) [])
                   seeded_db []) I) as T.
  cbv zeta in T. destruct T as [_ [_ [_ T]]].
  exact (f_equal (fun o => session_cart (w_session (snd o))) T).
Defined.

(** X3. [remove_from_cart] raises exactly when the session holds the
    legacy list and the list contains the name; in every other state it
    returns the redirect to the cart page.  It never touches the tables, and
    a legacy list that does not contain the name is stored back as the list
    it was, not migrated. *)
Theorem remove_from_cart_fails_exactly :
  forall (num : Type) (product_name : string) (w : world num),
    (fst (remove_from_cart product_name w) = Raised TypeError <->
     exists names,
       session_cart (w_session w) = Some (CartList names) /\ In product_name names)
    /\ (fst (remove_from_cart product_name w) <> Raised TypeError ->
        fst (remove_from_cart product_name w) = Returned (redirect cart_ep))
    /\ w_db (after (remove_from_cart product_name) w) = w_db w
    /\ (forall names,
          session_cart (w_session w) = Some (CartList names) ->
          ~ In product_name names ->
          after (remove_from_cart product_name) w = w).
Proof.
  intros num product_name w.
  destruct w as [[flag token [[names|quantities]|] msgs] db log].
  - destruct (existsb (String.eqb product_name) names) eqn:E.
    + pose proof (proj1 (existsb_eqb_In _ _) E) as Hin.
      unfold after. rewrite (remove_from_cart_list_with _ _ _ _ _ _ _ E).
      cbn [fst snd w_db w_session session_cart].
      split; [|split; [|split]].
      * split; [|reflexivity]. intros _. now exists names.
      * congruence.
      * reflexivity.
      * intros names' Hnames Hnot. injection Hnames as <-. contradiction.
    + unfold after. rewrite (remove_from_cart_list_without _ _ _ _ _ _ _ E).
      cbn [fst snd w_db w_session session_cart].
      split; [|split; [|split]].
      * split; [discriminate|].
        intros [names' [Hnames Hin]]. injection Hnames as <-.
        apply existsb_eqb_In in Hin. congruence.
      * reflexivity.
      * reflexivity.
      * reflexivity.
  - unfold after, remove_from_cart, bind, get_session. cbn [w_session session_cart].
    destruct (PyDict.mem product_name quantities); cbn;
      (split; [|split; [|split]];
       [ split; [discriminate | intros [names [Hn _]]; discriminate]
       | reflexivity
       | reflexivity
       | intros names Hn; discriminate ]).
  - unfold after. rewrite remove_from_cart_absent. cbn.
    split; [|split; [|split]];
      [ split; [discriminate | intros [names [Hn _]]; discriminate]
      | reflexivity
      | reflexivity
      | intros names Hn; discriminate ].
Qed.

Section MigrationLaws.

Let step (new_cart : PyDict.dict Z) (item : string) : PyDict.dict Z :=
  PyDict.set item (PyDict.get_default item 0 new_cart + 1) new_cart.

Lemma mem_set (d : PyDict.dict Z) x v n :
  PyDict.mem n (PyDict.set x v d) = (x =? n)%string || PyDict.mem n d.
Proof.
  unfold PyDict.mem. destruct (String.eqb_spec x n) as [->|Hne].
  - now rewrite PyDictFacts.get_set_same.
  - now rewrite PyDictFacts.get_set_other.
Qed.

Lemma filter_twice {A} (f g : A -> bool) l :
  filter f (filter g l) = filter (fun a => g a && f a) l.
Proof.
  induction l as [|a l IH]; simpl; auto.
  destruct (g a); simpl; [destruct (f a)|]; now rewrite IH.
Qed.

Lemma migration_loop_keys names : forall d : PyDict.dict Z,
  PyDict.keys (fold_left step names d) =
  (PyDict.keys d
   ++ filter (fun n => negb (PyDict.mem n d)) (first_occurrences names))%list.
Proof.
  induction names as [|x names IH]; intros d.
  - simpl. now rewrite app_nil_r.
  - cbn [fold_left first_occurrences]. rewrite IH. unfold step.
    rewrite PyDictFacts.keys_set.
    assert (E : filter
                  (fun n => negb (PyDict.mem n
                     (PyDict.set x (PyDict.get_default x 0 d + 1) d)))
                  (first_occurrences names)
                = filter (fun n => negb (PyDict.mem n d))
                    (filter (fun other => negb (other =? x)%string)
                       (first_occurrences names))).
    { rewrite filter_twice. apply filter_ext. intros n.
      rewrite mem_set, negb_orb. now rewrite (String.eqb_sym x n). }
    rewrite E. cbn [filter].
    destruct (PyDict.mem x d); cbn [negb].
    + reflexivity.
    + now rewrite <- app_assoc.
Qed.

Lemma total_quantity_step (d : PyDict.dict Z) x :
  total_quantity (step d x) = total_quantity d + 1.
Proof.
  unfold step, total_quantity, PyDict.get_default.
  induction d as [|[k v] d IH]; simpl.
  - lia.
  - destruct (k =? x)%string; simpl; [lia|]. rewrite IH. lia.
Qed.

Lemma migration_loop_total names : forall d : PyDict.dict Z,
  total_quantity (fold_left step names d) = total_quantity d + Z.of_nat (List.length names).
Proof.
  induction names as [|x names IH]; intros d.
  - simpl. lia.
  - cbn [fold_left List.length]. rewrite IH, total_quantity_step. lia.
Qed.

Lemma get_of_In (d : PyDict.dict Z) name qty :
  NoDup (PyDict.keys d) -> In (name, qty) d -> PyDict.get name d = Some qty.
Proof.
  induction d as [|[k v] d IH]; simpl; [tauto|].
  intros Hnd [E|Hin].
  - injection E as -> ->. now rewrite String.eqb_refl.
  - inversion Hnd as [|? ? Hnot Hnd']; subst.
    destruct (String.eqb_spec k name) as [->|Hne].
    + exfalso. apply Hnot. unfold PyDict.keys. apply in_map_iff. now exists (name, qty).
    + auto.
Qed.

(** X4. The dictionary a legacy list migrates to lists the names in the
    order of their first occurrence, each once; every quantity in it is at
    least 1; and the quantities add up to the length of the list, so no
    unit is lost or invented by the migration. *)
Theorem migration_keeps_order_and_total :
  forall names : list string,
    PyDict.keys (migrate_legacy_cart names) = first_occurrences names
    /\ (forall name qty, In (name, qty) (migrate_legacy_cart names) -> 1 <= qty)
    /\ total_quantity (migrate_legacy_cart names) = Z.of_nat (List.length names).
Proof.
  intros names. split; [|split].
  - unfold migrate_legacy_cart. fold step. rewrite migration_loop_keys.
    cbn [PyDict.keys map app].
    induction (first_occurrences names) as [|a l IH]; cbn;
      [reflexivity | f_equal; exact IH].
  - intros name qty Hin.
    apply get_of_In in Hin; [|apply migrate_NoDup].
    rewrite (migrate_counts names name) in Hin.
    destruct (Z.eqb_spec (occurrences name names) 0); [discriminate|].
    injection Hin as <-. unfold occurrences in *. lia.
  - unfold migrate_legacy_cart. fold step. now rewrite migration_loop_total.
Qed.

End MigrationLaws.

Section ViewLaws.
Context {num : Type} `{PyNumber num}.
Local Open Scope request_scope.

(** The inner loop reads nothing of the state: its outcome is the same in
    every state. *)
Lemma cart_inner_loop_pure name qty (rows : list (product num)) :
  forall acc, exists o,
    forall w : world num, for_each rows (cart_row name qty) acc w = (o, w).
Proof.
  induction rows as [|row rows IH]; intros acc; cbn [for_each].
  - now exists (Returned acc).
  - unfold bind at 1, cart_row at 1.
    destruct (p_name row =? name)%string.
    + unfold bind, times_price, add_to_total.
      destruct (p_price row) as [price|text];
        [|now exists (Raised (text_price_error qty text))].
      destruct (mul_int qty price) as [amount|]; [|now exists (Raised OverflowError)].
      unfold ret at 1. destruct (add (snd acc) amount) as [total|];
        [|now exists (Raised OverflowError)].
      unfold ret at 1 2. apply IH.
    + unfold ret at 1. apply IH.
Qed.

(** One turn of the outer loop. *)
Lemma cart_loops_cons name qty items acc s (db : database num) log :
  cart_loops ((name, qty) :: items) acc (World s db log) =
  match for_each (products db) (cart_row name qty) acc
          (World s db (log ++ [SelectProducts])%list) with
  | (Returned acc', w') => cart_loops items acc' w'
  | (Raised e, w') => (Raised e, w')
  end.
Proof. reflexivity. Qed.

(** The outcome of the loops of [cart] depends on the entries and on the
    rows of [products] only. *)
Lemma cart_loops_outcome items : forall acc s s' (db : database num) log log',
  fst (cart_loops items acc (World s db log))
  = fst (cart_loops items acc (World s' db log')).
Proof.
  induction items as [|[name qty] items IH]; intros acc s s' db log log';
    [reflexivity|].
  rewrite !cart_loops_cons.
  destruct (cart_inner_loop_pure name qty (products db) acc) as [o Ho].
  rewrite !Ho. destruct o as [acc'|e]; [apply IH | reflexivity].
Qed.

(** An entry whose name no product carries does not show in the outcome. *)
Lemma cart_loops_skip name items (db : database num) :
  matching name (products db) = [] ->
  forall acc s log,
    fst (cart_loops (filter (fun entry => negb (fst entry =? name)%string) items) acc
           (World s db log))
    = fst (cart_loops items acc (World s db log)).
Proof.
  intros Hnone.
  induction items as [|[k qty] items IH]; intros acc s log; [reflexivity|].
  cbn [filter fst]. destruct (String.eqb_spec k name) as [->|Hne]; cbn [negb].
  - rewrite IH, cart_loops_cons.
    rewrite (cart_inner_loop name qty (products db) acc [] (snd acc)).
    + rewrite app_nil_r. destruct acc as [shown running]. cbn [fst snd].
      apply cart_loops_outcome.
    + now rewrite Hnone.
    + reflexivity.
  - rewrite !cart_loops_cons.
    destruct (cart_inner_loop_pure k qty (products db) acc) as [o Ho].
    rewrite !Ho. destruct o as [acc'|e]; [apply IH | reflexivity].
Qed.

(** The answer of [cart], from the dictionary it works on. *)
Lemma cart_outcome (w : world num) :
  fst (cart w) =
  match fst (cart_loops (cart_dict (w_session w)) ([], zero) w) with
  | Returned acc => Returned (render_cart (fst acc) (snd acc))
  | Raised e => Raised e
  end.
Proof.
  destruct w as [[flag token c msgs] db log]. unfold cart.
  unfold bind at 1. unfold get_session. cbn [w_session session_cart].
  unfold bind at 1, cart_dict. cbn [session_cart].
  destruct c as [[names|quantities]|].
  - match goal with
    | |- context [(set_session_cart ?c ;; ret ?d) ?w] =>
        replace ((set_session_cart c ;; ret d) w)
          with (@Returned (PyDict.dict Z) d,
                World (Session flag token (Some c) msgs) db log)
          by reflexivity
    end.
    unfold bind at 1.
    rewrite (cart_loops_outcome (migrate_legacy_cart names) ([], zero)
               (Session flag token (Some (CartList names)) msgs)
               (Session flag token (Some (CartDict (migrate_legacy_cart names))) msgs)
               db log log).
    now destruct (cart_loops (migrate_legacy_cart names) ([], zero)
                    (World (Session flag token (Some (CartDict (migrate_legacy_cart names)))
                              msgs) db log)) as [[acc|e] w'].
  - unfold ret at 1. unfold bind at 1.
    now destruct (cart_loops quantities ([], zero)
                    (World (Session flag token (Some (CartDict quantities)) msgs) db log))
      as [[acc|e] w'].
  - reflexivity.
Qed.





(** A dictionary in key order comes back from the cookie as it went. *)
Lemma cart_dict_reload s :
  cart_in_key_order s -> cart_dict (reload_session s) = cart_dict s.
Proof.
  unfold cart_in_key_order, cart_dict, reload_session. cbn [session_cart].
  destruct (session_cart s) as [[names|quantities]|]; try reflexivity.
  apply PyDictFacts.sort_keys_of_sorted.
Qed.

Lemma requested_add_single k name : forall q flag token msgs (db : database num) log,
  requested k (add_to_cart name)
    (World (Session flag token (Some (CartDict [(name, q)])) msgs) db log) =
  World (Session flag token (Some (CartDict [(name, q + Z.of_nat k)])) msgs) db log.
Proof.
  induction k as [|k IH]; intros q flag token msgs db log; cbn [requested].
  - cbn [Z.of_nat]. now rewrite Z.add_0_r.
  - rewrite add_to_cart_after. cbn [w_session w_db w_log admin_logged_in csrf_token flashes].
    unfold quantity_of, cart_dict. cbn [session_cart PyDict.set].
    unfold PyDict.get_default. cbn [PyDict.get]. rewrite String.eqb_refl.
    unfold reload, reload_session.
    cbn [w_session w_db w_log admin_logged_in csrf_token flashes session_cart
         PyDict.sort_keys fold_right PyDict.insert_by_key].
    rewrite IH. replace (q + Z.of_nat (S k)) with (q + 1 + Z.of_nat k) by lia.
    reflexivity.
Qed.

End ViewLaws.


(** X6. A name is added to the cart without any check against the
    catalog, and a name no current product carries is invisible: with the
    names of the cart in order, as they are in a session read from the
    cookie, the cart page that follows the addition gives the same answer
    as the cart page before it, the same lines and the same total. *)
Theorem unknown_name_is_added_but_not_shown :
  forall (num : Type) (N : PyNumber num) (product_name : string) (w : world num),
    matching product_name (products (w_db w)) = [] ->
    cart_in_key_order (w_session w) ->
    let added := reload (after (add_to_cart product_name) w) in
    quantity_of product_name (w_session added)
      = quantity_of product_name (w_session w) + 1
    /\ fst (cart added) = fst (cart w).
Proof.
  intros num N product_name w Hnone Horder added. subst added. split.
  - unfold reload. cbn [w_session].
    rewrite quantity_of_reload, quantity_after_add. now rewrite String.eqb_refl.
  - rewrite !cart_outcome. rewrite add_to_cart_after.
    unfold reload, reload_session, cart_dict at 1.
    cbn [w_session w_db w_log admin_logged_in csrf_token flashes session_cart].
    destruct w as [s db log]. cbn [w_session w_db w_log] in *.
    set (s' := Session (admin_logged_in s) (csrf_token s) _ (flashes s)).
    rewrite <- (cart_loops_skip product_name _ db Hnone _ s' log).
    rewrite <- (cart_loops_skip product_name (cart_dict s) db Hnone _ s log).
    rewrite PyDictFacts.filter_sort_keys, PyDictFacts.filter_set_other.
    rewrite <- PyDictFacts.filter_sort_keys.
    unfold cart_in_key_order in Horder.
    rewrite (PyDictFacts.sort_keys_of_sorted _ Horder).
    now rewrite (cart_loops_outcome _ _ s' s db log log).
Qed.

Lemma unknown_name_is_added_but_not_shown_witness :
  let w := World (Session false None (Some (CartDict [("Football", 2)])) [])
             seeded_db [] in
  matching "Surfboard" (products (w_db w)) = []
  /\ fst (cart (reload (after (add_to_cart "Surfboard") w)))
     = Returned
         (render_cart
            [LineItem (Product 1 "Football" 499 "Outdoor" "football.jpeg") 2 998] 998).
Proof.
  cbv zeta. split; [reflexivity|].
  exact (proj2 (unknown_name_is_added_but_not_shown Z whole_prices "Surfboard"
                  (World (Session false None (Some (CartDict [("Football", 2)])) [])
                     seeded_db []) eq_refl
                  ltac:(repeat constructor))).
Defined.

(** X7. Starting without a cart, adding the same name [k + 1] times and
    then viewing shows, for every current product of that name, one line
    with quantity [k + 1] and subtotal [(k + 1) * price], in row order, and
    their sum as the total, where every such product holds a number as its
    price and Python computes the products and the sum. *)
Theorem adds_then_view :
  forall (num : Type) (N : PyNumber num) (k : nat) (product_name : string)
         (flag : bool) (token : option string) (msgs : list (string * string))
         (db : database num) (log : list sql)
         (lines : list (line_item num)) (total : num),
    let w := World (Session flag token None msgs) db log in
    let qty := Z.of_nat k + 1 in
    let same_name := matching product_name (products db) in
    lines_of (map (fun row => (row, qty)) same_name) = Some lines ->
    sum (map li_subtotal lines) = Some total ->
    fst (cart (requested (S k) (add_to_cart product_name) w))
    = Returned (render_cart lines total)
    /\ map li_product lines = same_name
    /\ (forall item,
          In item lines ->
          li_qty item = qty
          /\ subtotal qty (li_product item) = Some (li_subtotal item)).
Proof.
  intros num N k product_name flag token msgs db log lines total w qty same_name Hl Hs.
  subst w. split; [|split].
  - cbn [requested]. rewrite add_to_cart_after.
    cbn [w_session w_db w_log admin_logged_in csrf_token flashes].
    unfold quantity_of, cart_dict. cbn [session_cart PyDict.set].
    unfold reload, reload_session.
    cbn [w_session w_db w_log admin_logged_in csrf_token flashes session_cart
         PyDict.sort_keys fold_right PyDict.insert_by_key].
    rewrite requested_add_single.
    replace (0 + 1 + Z.of_nat k) with qty by (subst qty; lia).
    erewrite cart_view_dict; [reflexivity| |exact Hs].
    unfold cart_lines, cart_matches. cbn [flat_map fst snd]. now rewrite app_nil_r.
  - destruct (lines_of_fields _ _ Hl) as [P _].
    rewrite map_map in P. cbn [fst] in P. now rewrite map_id in P.
  - intros item Hin. apply (lines_of_In _ _ Hl) in Hin
      as [row [qty' [amount [Hpair [Hsub ->]]]]].
    apply in_map_iff in Hpair as [row' [E _]]. injection E as -> ->.
    cbn [li_qty li_product li_subtotal]. now split.
Qed.

Lemma adds_then_view_witness :
  fst (cart (requested 3 (add_to_cart "Football")
               (World (Session false None None []) seeded_db [])))
  = Returned
      (render_cart
         [LineItem (Product 1 "Football" 499 "Outdoor" "football.jpeg") 3 1497] 1497).
Proof.
  exact (proj1 (adds_then_view Z whole_prices 2 "Football" false None [] seeded_db []
                  [LineItem (Product 1 "Football" 499 "Outdoor" "football.jpeg") 3 1497]
                  1497 eq_refl eq_refl)).
Defined.

(** * Further properties of the catalog search *)

Module SearchFacts.
Import PyStr Sqlite SqliteFacts.










(** [lstrip] removes one whitespace character after the other. *)
Lemma lstrip_eq s :
  lstrip s = match after_space s with Some rest => lstrip rest | None => s end.
Proof.
  destruct s as [|a s1]; [reflexivity|]. cbn [lstrip after_space].
  destruct (is_space a); [reflexivity|].
  destruct s1 as [|b s2]; [reflexivity|].
  destruct (is_space2 a b); [reflexivity|].
  destruct s2 as [|c s3]; [reflexivity|].
  now destruct (is_space3 a b c).
Qed.

Lemma after_space_shorter s rest :
  after_space s = Some rest -> (String.length rest < String.length s)%nat.
Proof.
  destruct s as [|a s1]; [discriminate|]. cbn [after_space String.length].
  destruct (is_space a); [intros E; injection E as <-; lia|].
  destruct s1 as [|b s2]; [discriminate|]. cbn [String.length].
  destruct (is_space2 a b); [intros E; injection E as <-; lia|].
  destruct s2 as [|c s3]; [discriminate|]. cbn [String.length].
  destruct (is_space3 a b c); [intros E; injection E as <-; lia | discriminate].
Qed.

Lemma after_space_append s rest tail :
  after_space s = Some rest -> after_space (s ++ tail) = Some (rest ++ tail).
Proof.
  destruct s as [|a s1]; [discriminate|]. cbn [after_space append].
  destruct (is_space a); [now intros E; injection E as <-|].
  destruct s1 as [|b s2]; [discriminate|]. cbn [append].
  destruct (is_space2 a b); [now intros E; injection E as <-|].
  destruct s2 as [|c s3]; [discriminate|]. cbn [append].
  destruct (is_space3 a b c); [now intros E; injection E as <- | discriminate].
Qed.

(** Induction over the whitespace characters a text begins with. *)
Lemma leading_space_ind (P : string -> Prop) :
  (forall s, after_space s = None -> P s) ->
  (forall s rest, after_space s = Some rest -> P rest -> P s) ->
  forall s, P s.
Proof.
  intros Hnone Hsome s.
  assert (G : forall n s, (String.length s < n)%nat -> P s).
  { induction n as [|n IH]; intros t Hlen; [lia|].
    destruct (after_space t) as [rest|] eqn:E; [|now apply Hnone].
    apply (Hsome t rest E). apply IH.
    apply after_space_shorter in E. lia. }
  apply (G (S (String.length s))). lia.
Qed.

(** What [lstrip] returns begins with no whitespace character. *)
Lemma after_space_lstrip s : after_space (lstrip s) = None.
Proof.
  induction s as [s E|s rest E IH] using leading_space_ind;
    rewrite lstrip_eq, E; assumption.
Qed.

Lemma lstrip_fixed s : after_space s = None -> lstrip s = s.
Proof. intros E. now rewrite lstrip_eq, E. Qed.

Lemma lstrip_idempotent s : lstrip (lstrip s) = lstrip s.
Proof. apply lstrip_fixed, after_space_lstrip. Qed.

(** Whitespace in front of a text is removed with the whitespace the text
    begins with. *)
Lemma lstrip_append s tail : lstrip s = "" -> lstrip (s ++ tail) = lstrip tail.
Proof.
  induction s as [s E|s rest E IH] using leading_space_ind; intros Hblank.
  - rewrite (lstrip_fixed s E) in Hblank. now subst s.
  - rewrite lstrip_eq, (after_space_append _ _ tail E).
    apply IH. now rewrite lstrip_eq, E in Hblank.
Qed.

Lemma rstrip_cons c s :
  rstrip (String c s) = if blank (String c s) then "" else String c (rstrip s).
Proof. reflexivity. Qed.

(** [rstrip] cuts off a tail of whitespace. *)
Lemma rstrip_tail s : exists tail, s = rstrip s ++ tail /\ lstrip tail = "".
Proof.
  induction s as [|c s [tail [E Htail]]]; [now exists ""|].
  rewrite rstrip_cons. unfold blank.
  destruct (lstrip (String c s)) as [|d rest] eqn:L.
  - now exists (String c s).
  - exists tail. split; [|exact Htail]. cbn [append]. now rewrite <- E.
Qed.

Lemma rstrip_idempotent s : rstrip (rstrip s) = rstrip s.
Proof.
  induction s as [|c s IH]; [reflexivity|].
  rewrite rstrip_cons. destruct (blank (String c s)) eqn:B; [reflexivity|].
  rewrite rstrip_cons, IH.
  destruct (blank (String c (rstrip s))) eqn:B'; [|reflexivity].
  exfalso. destruct (rstrip_tail s) as [tail [E Htail]].
  unfold blank in B, B'.
  destruct (lstrip (String c (rstrip s))) eqn:L; [|discriminate].
  pose proof (lstrip_append (String c (rstrip s)) tail L) as Happ.
  cbn [append] in Happ. rewrite <- E, Htail in Happ. now rewrite Happ in B.
Qed.

(** What [rstrip] makes of a text that begins with no whitespace begins
    with none. *)
Lemma lstrip_rstrip s : after_space s = None -> lstrip (rstrip s) = rstrip s.
Proof.
  intros E. apply lstrip_fixed.
  destruct (after_space (rstrip s)) as [rest|] eqn:R; [|reflexivity].
  exfalso. destruct (rstrip_tail s) as [tail [Hs _]].
  apply (after_space_append _ _ tail) in R. rewrite <- Hs in R. congruence.
Qed.

(** Trimming what is already trimmed changes nothing. *)
Lemma strip_idempotent s : strip (strip s) = strip s.
Proof.
  unfold strip. rewrite (lstrip_rstrip _ (after_space_lstrip s)).
  apply rstrip_idempotent.
Qed.

(** Trimming removes the whitespace of Unicode as well: here U+00A0, the
    no-break space, and U+3000, the ideographic space. *)
Lemma strip_no_break_space :
  strip (String (ascii_of_nat 194) (String (ascii_of_nat 160)
           ("ball" ++ String (ascii_of_nat 227) (String (ascii_of_nat 128)
                                (String (ascii_of_nat 128) " ")))))
  = "ball".
Proof. reflexivity. Qed.

End SearchFacts.

Section SearchLaws.
Context {num : Type} `{PyNumber num}.




End SearchLaws.





(** X10. The catalog page echoes the trimmed query and category, and
    asking again with what it echoed is answered with the very same page:
    trimming is idempotent. *)
Theorem search_echo_is_stable :
  forall (num : Type) (N : PyNumber num) (r : request) (w : world num),
    let query := PyStr.strip (field_or_empty "q" (args r)) in
    let category := PyStr.strip (field_or_empty "category" (args r)) in
    let again := Request GET [("q", query); ("category", category)] [] in
    fst (product_page again w) = fst (product_page r w)
    /\ forall s, PyStr.strip (PyStr.strip s) = PyStr.strip s.
Proof.
  intros num N r w query category again. split; [|apply SearchFacts.strip_idempotent].
  rewrite !product_page_run. cbv zeta. subst again.
  cbn [fst args field_or_empty field String.eqb Ascii.eqb Bool.eqb].
  subst query category. now rewrite !SearchFacts.strip_idempotent.
Qed.

(** * Further properties of the admin routes *)

Section AdminShapes.
Context {num : Type} `{PyNumber num}.
Local Open Scope request_scope.

(** [verify_csrf] only reads, and accepts exactly the valid tokens. *)
Lemma verify_csrf_decides r (w : world num) :
  exists ok,
    verify_csrf r w = (Returned ok, w)
    /\ (ok = true <-> token_valid (w_session w) r).
Proof.
  unfold verify_csrf, bind, get_session, ret, token_valid.
  destruct (csrf_token (w_session w)) as [session_token|].
  - destruct (field "csrf_token" (form r)) as [form_token|].
    + eexists. split; [reflexivity|]. rewrite !andb_true_iff, String.eqb_eq. split.
      * intros [[Hs Hf] ->]. exists form_token.
        apply PyStrFacts.truthy_true in Hs. auto.
      * intros [token [Hne [Es Ef]]]. injection Es as ->. injection Ef as ->.
        apply PyStrFacts.truthy_true in Hne. auto.
    + exists false. split; [reflexivity|]. split; [discriminate|].
      intros [token [_ [_ Ef]]]. discriminate.
  - exists false. split; [reflexivity|]. split; [discriminate|].
    intros [token [_ [Es _]]]. discriminate.
Qed.

(** The four ways [admin_add] can end. *)
Lemma admin_add_shape r (w : world num) :
  admin_add r w = (Returned (redirect admin_login_ep), w)
  \/ (exists category message, admin_add r w = rejected w category message)
  \/ (exists log,
        admin_add r w = (Raised IntegrityError, World (w_session w) (w_db w) log))
  \/ (exists name price category image,
        admin_add r w =
        (Returned (redirect admin_ep),
         World (with_flash (w_session w) "success" "Product added successfully!")
           (Database
              (products (w_db w)
               ++ [Product (next_rowid (w_db w)) name price category image])%list
              (users (w_db w)) (next_rowid (w_db w)) (names_unique (w_db w)))
           (w_log w ++ [InsertProduct name (PyStr.strip (field_or_empty "price" (form r)))
                          category image])%list)).
Proof.
  destruct (admin_logged_in (w_session w)) eqn:Hadmin.
  - destruct (verify_csrf_decides r w) as [[|] [Hrun Hok]].
    + pose proof (admin_add_run r w Hadmin (proj1 Hok eq_refl)) as Hadd.
      cbv zeta in Hadd. rewrite Hadd.
      destruct (validate_product_form _ _ _ _) as [error|].
      * right. left. eauto.
      * destruct (names_unique (w_db w) && name_taken _ (products (w_db w))).
        -- right. right. left. eauto.
        -- right. right. right. eauto 6.
    + right. left. exists "danger", "Invalid CSRF token".
      unfold admin_add. rewrite admin_required_passes by assumption.
      unfold bind at 1. now rewrite Hrun.
  - left. now apply admin_add_requires_admin.
Qed.

Lemma admin_delete_run product_id (w : world num) :
  admin_logged_in (w_session w) = true ->
  admin_delete product_id w =
  if sqlite_integer product_id
  then (Returned (redirect admin_ep),
        World (with_flash (w_session w) "warning" "Product deleted")
          (Database
             (filter (fun p => negb (p_id p =? product_id)) (products (w_db w)))
             (users (w_db w)) (product_seq (w_db w)) (names_unique (w_db w)))
          (w_log w ++ [DeleteProduct product_id])%list)
  else (Raised OverflowError, w).
Proof.
  intros Hadmin. unfold admin_delete. rewrite admin_required_passes by assumption.
  unfold bind at 1. rewrite delete_product_run.
  now destruct (sqlite_integer product_id).
Qed.

(** The three ways [admin_delete] can end. *)
Lemma admin_delete_shape product_id (w : world num) :
  (admin_logged_in (w_session w) = false
   /\ admin_delete product_id w = (Returned (redirect admin_login_ep), w))
  \/ (admin_logged_in (w_session w) = true /\ sqlite_integer product_id = false
      /\ admin_delete product_id w = (Raised OverflowError, w))
  \/ (admin_logged_in (w_session w) = true /\ sqlite_integer product_id = true
      /\ admin_delete product_id w =
         (Returned (redirect admin_ep),
          World (with_flash (w_session w) "warning" "Product deleted")
            (Database
               (filter (fun p => negb (p_id p =? product_id)) (products (w_db w)))
               (users (w_db w)) (product_seq (w_db w)) (names_unique (w_db w)))
            (w_log w ++ [DeleteProduct product_id])%list)).
Proof.
  destruct (admin_logged_in (w_session w)) eqn:Hadmin.
  - right. rewrite (admin_delete_run product_id w Hadmin).
    destruct (sqlite_integer product_id); [right | left]; now repeat split.
  - left. split; [reflexivity|]. now apply admin_delete_requires_admin.
Qed.

(** The ways [admin_update] can end: a rejection, an exception that leaves
    session and tables alone, or the row rewritten. *)
Lemma admin_update_shape product_id r (w : world num) :
  (exists category message, admin_update product_id r w = rejected w category message)
  \/ (exists e log,
        admin_update product_id r w = (Raised e, World (w_session w) (w_db w) log))
  \/ (exists name price category image log,
        admin_update product_id r w =
        (Returned (redirect admin_ep),
         World (with_flash (w_session w) "info" "Product updated successfully!")
           (Database
              (map (fun p =>
                      if p_id p =? product_id
                      then Product (p_id p) name price category image
                      else p)
                 (products (w_db w)))
              (users (w_db w)) (product_seq (w_db w)) (names_unique (w_db w)))
           log)).
Proof.
  assert (Hsame : forall e, (Raised e, w)
                    = (@Raised (response num) e, World (w_session w) (w_db w) (w_log w)))
    by (intros e; now destruct w).
  destruct (verify_csrf_decides r w) as [[|] [Hrun Hok]].
  - pose proof (proj1 Hok eq_refl) as Hvalid.
    destruct (string_dec (PyStr.strip (field_or_empty "image" (form r))) "") as [E|E].
    + pose proof (admin_update_run_no_image product_id r w Hvalid E) as Hupd.
      cbv zeta in Hupd. rewrite Hupd.
      destruct (sqlite_integer product_id); [|right; left; rewrite Hsame; eauto].
      destruct (find _ _) as [row|]; [|right; left; eauto].
      destruct (rename_clashes _ product_id (w_db w));
        [right; left; eauto | right; right; eauto 8].
    + pose proof (admin_update_run_image product_id r w Hvalid E) as Hupd.
      cbv zeta in Hupd. rewrite Hupd.
      destruct (validate_product_form _ _ _ _) as [error|]; [left; eauto|].
      destruct (sqlite_integer product_id); [|right; left; rewrite Hsame; eauto].
      destruct (rename_clashes _ product_id (w_db w));
        [right; left; eauto | right; right; eauto 8].
  - left. exists "danger", "Invalid CSRF token".
    unfold admin_update. unfold bind at 1. now rewrite Hrun.
Qed.

Lemma id_below_max (rows : list (product num)) p :
  In p rows -> p_id p <= fold_right Z.max 0 (map p_id rows).
Proof.
  induction rows as [|row rows IH]; simpl; [tauto|].
  intros [->|Hin]; [lia|]. specialize (IH Hin). lia.
Qed.

Lemma well_keyed_insert (d : database num) name price category image :
  well_keyed d ->
  well_keyed
    (Database (products d ++ [Product (next_rowid d) name price category image])%list
       (users d) (next_rowid d) (names_unique d)).
Proof.
  intros [Hnd Hle]. unfold well_keyed. cbn [products product_seq]. split.
  - rewrite map_app. cbn [map p_id].
    apply NoDup_rev in Hnd. rewrite <- (rev_involutive (_ ++ _)%list).
    apply NoDup_rev. rewrite rev_app_distr. cbn [rev app]. constructor; auto.
    rewrite <- in_rev, in_map_iff. intros [p [Hid Hin]].
    apply id_below_max in Hin. unfold next_rowid in Hid. lia.
  - apply Forall_app. split.
    + apply Forall_forall. intros p Hin. apply id_below_max in Hin.
      unfold next_rowid. lia.
    + constructor; [cbn; lia | constructor].
Qed.

Lemma well_keyed_update (d : database num) (f : product num -> product num) :
  (forall p, p_id (f p) = p_id p) ->
  well_keyed d ->
  well_keyed (Database (map f (products d)) (users d) (product_seq d) (names_unique d)).
Proof.
  intros Hid [Hnd Hle]. unfold well_keyed. cbn [products product_seq]. split.
  - rewrite map_map. now rewrite (map_ext _ p_id Hid).
  - apply Forall_forall. intros q Hq. apply in_map_iff in Hq as [p [<- Hp]].
    rewrite Hid. now apply (proj1 (Forall_forall _ _) Hle).
Qed.

Lemma well_keyed_delete (d : database num) (keep : product num -> bool) :
  well_keyed d ->
  well_keyed
    (Database (filter keep (products d)) (users d) (product_seq d) (names_unique d)).
Proof.
  intros [Hnd Hle]. unfold well_keyed. cbn [products product_seq]. split.
  - clear Hle. induction (products d) as [|p rows IH]; simpl; [constructor|].
    inversion Hnd as [|? ? Hnot Hnd']; subst.
    destruct (keep p); simpl; auto. constructor; auto.
    intros Hin. apply Hnot. apply in_map_iff in Hin as [q [Hq Hin]].
    apply filter_In in Hin as [Hin _]. apply in_map_iff. eauto.
  - apply Forall_forall. intros p Hp. apply filter_In in Hp as [Hp _].
    now apply (proj1 (Forall_forall _ _) Hle).
Qed.

Lemma find_none_filter (rows : list (product num)) product_id :
  find (fun p => p_id p =? product_id) rows = None ->
  filter (fun p => negb (p_id p =? product_id)) rows = rows.
Proof.
  induction rows as [|p rows IH]; simpl; auto.
  destruct (p_id p =? product_id); [discriminate|]. simpl. intros E. now rewrite IH.
Qed.

Lemma find_none_map (rows : list (product num)) product_id (f : product num -> product num) :
  find (fun p => p_id p =? product_id) rows = None ->
  map (fun p => if p_id p =? product_id then f p else p) rows = rows.
Proof.
  induction rows as [|p rows IH]; simpl; auto.
  destruct (p_id p =? product_id); [discriminate|]. intros E. now rewrite IH.
Qed.

Lemma find_filter_other (rows : list (product num)) product_id other :
  other <> product_id ->
  find (fun p => p_id p =? other) (filter (fun p => negb (p_id p =? product_id)) rows)
  = find (fun p => p_id p =? other) rows.
Proof.
  intros Hne. induction rows as [|p rows IH]; simpl; auto.
  destruct (Z.eqb_spec (p_id p) product_id) as [E|E]; simpl.
  - destruct (Z.eqb_spec (p_id p) other); [congruence | exact IH].
  - now rewrite IH.
Qed.

Lemma find_filter_same (rows : list (product num)) product_id :
  find (fun p => p_id p =? product_id) (filter (fun p => negb (p_id p =? product_id)) rows)
  = None.
Proof.
  induction rows as [|p rows IH]; simpl; auto.
  destruct (p_id p =? product_id) eqn:E; simpl; auto. now rewrite E.
Qed.

End AdminShapes.

(** X11. [validate_product_form] lets a form through exactly when all
    four fields are non-empty, [float] reads the price, the price is not
    [<= 0], and the image ends, up to case, in an accepted extension. *)
Theorem validate_product_form_accepts_exactly :
  forall (num : Type) (N : PyNumber num) (name price category image : string),
    validate_product_form name price category image = None <->
    name <> "" /\ price <> "" /\ category <> "" /\ image <> ""
    /\ (exists x, float price = Some x /\ le_zero x = false)
    /\ accepted_image image.
Proof.
  intros num N name price category image. split.
  - intros Hvalid.
    destruct (string_dec name "") as [En|En];
      [rewrite validate_missing in Hvalid by auto; discriminate|].
    destruct (string_dec price "") as [Ep|Ep];
      [rewrite validate_missing in Hvalid by auto; discriminate|].
    destruct (string_dec category "") as [Ec|Ec];
      [rewrite validate_missing in Hvalid by auto; discriminate|].
    destruct (string_dec image "") as [Ei|Ei];
      [rewrite validate_missing in Hvalid by auto; discriminate|].
    rewrite validate_present in Hvalid by assumption.
    destruct (float price) as [x|]; [|discriminate].
    destruct (le_zero x) eqn:Hx; [discriminate|].
    destruct (PyStr.endswith_any (PyStr.lower image) image_extensions) eqn:Himage;
      [|discriminate].
    repeat (split; [assumption|]). split; [eauto|]. now apply accepted_image_iff.
  - intros [Hn [Hp [Hc [Hi [[x [Hfloat Hx]] Himage]]]]].
    rewrite validate_present by assumption. rewrite Hfloat, Hx.
    apply accepted_image_iff in Himage. now rewrite Himage.
Qed.

(** X12. [verify_csrf] changes nothing and never raises; it answers
    [True] exactly when the session holds a non-empty token and the form
    carries the same one.  A session without a token, a form without one,
    and an empty token on either side are all refused. *)
Theorem verify_csrf_accepts_exactly :
  forall (num : Type) (r : request) (w : world num),
    (verify_csrf r w = (Returned true, w) <-> token_valid (w_session w) r)
    /\ (verify_csrf r w = (Returned false, w) <-> ~ token_valid (w_session w) r)
    /\ (csrf_token (w_session w) = None \/ csrf_token (w_session w) = Some ""
        \/ field "csrf_token" (form r) = None \/ field "csrf_token" (form r) = Some "" ->
        verify_csrf r w = (Returned false, w)).
Proof.
  intros num r w. destruct (verify_csrf_decides r w) as [ok [Hrun Hok]].
  rewrite Hrun.
  assert (Hfalse : (Returned ok, w) = (Returned false, w) <-> ~ token_valid (w_session w) r).
  { destruct ok.
    - split; [discriminate|]. intros Hnot. exfalso. apply Hnot. now apply Hok.
    - split; [|reflexivity]. intros _ Hvalid. apply Hok in Hvalid. discriminate. }
  split; [|split; [exact Hfalse|]].
  - rewrite <- Hok. split; [now intros [= ->] | now intros ->].
  - intros Hbad. apply Hfalse. intros [token [Hne [Hs Hf]]].
    destruct Hbad as [E|[E|[E|E]]]; congruence.
Qed.

(** X13. A session without a token is issued the fresh value
    [secrets.token_hex(16)] returned; from then on [generate_csrf_token]
    returns that same token and changes nothing, and [verify_csrf] accepts
    a form exactly when it carries that token.  Issuing touches neither the
    tables nor the cart nor the admin flag. *)
Theorem csrf_token_round_trip :
  forall (num : Type) (token_hex : string) (r : request) (w : world num),
    String.length token_hex = 32%nat ->
    csrf_token (w_session w) = None ->
    let issued := after (generate_csrf_token token_hex) w in
    fst (generate_csrf_token token_hex w) = Returned token_hex
    /\ (forall other_hex,
          generate_csrf_token other_hex issued = (Returned token_hex, issued))
    /\ (verify_csrf r issued = (Returned true, issued)
        <-> field "csrf_token" (form r) = Some token_hex)
    /\ w_db issued = w_db w /\ w_log issued = w_log w
    /\ session_cart (w_session issued) = session_cart (w_session w)
    /\ admin_logged_in (w_session issued) = admin_logged_in (w_session w).
Proof.
  intros num token_hex r w Hlen Hnone issued.
  assert (Hrun : generate_csrf_token token_hex w =
                 (Returned token_hex,
                  World (Session (admin_logged_in (w_session w)) (Some token_hex)
                           (session_cart (w_session w)) (flashes (w_session w)))
                    (w_db w) (w_log w))).
  { unfold generate_csrf_token, bind, get_session. now rewrite Hnone. }
  subst issued. unfold after. rewrite Hrun. cbn [fst snd].
  split; [reflexivity|]. split; [reflexivity|]. split; [|repeat split].
  destruct (verify_csrf_decides r
              (World (Session (admin_logged_in (w_session w)) (Some token_hex)
                        (session_cart (w_session w)) (flashes (w_session w)))
                 (w_db w) (w_log w))) as [ok [Hcheck Hok]].
  rewrite Hcheck. unfold token_valid in Hok. cbn [w_session csrf_token] in Hok. split.
  - intros [= ->]. destruct (proj1 Hok eq_refl) as [token [_ [[= <-] Hf]]]. exact Hf.
  - intros Hf. replace ok with true; [reflexivity|]. symmetry. apply Hok.
    exists token_hex. repeat split; auto. intros ->. discriminate.
Qed.

Lemma csrf_token_round_trip_witness :
  let w := World anonymous seeded_db [] in
  let token_hex := "000102030405060708090a0b0c0d0e0f" in
  String.length token_hex = 32%nat
  /\ csrf_token (w_session w) = None
  /\ fst (generate_csrf_token token_hex w) = Returned token_hex.
Proof.
  cbv zeta. split; [reflexivity|]. split; [reflexivity|].
  exact (proj1 (csrf_token_round_trip Z "000102030405060708090a0b0c0d0e0f" (post [])
                  (World anonymous seeded_db []) eq_refl eq_refl)).
Defined.

(** X14. For a logged-in admin and an id SQLite can hold (64 bits,
    signed), [admin_delete] removes the row with the given id and no other:
    afterwards no row has that id and every other id finds the row it found
    before.  An id that no row has leaves the table exactly as it was (the
    "Product deleted" message is queued all the same), and deleting the
    same id again changes nothing more.  For an id outside that range
    binding the parameter raises [OverflowError]: no statement runs, no
    message is queued, nothing changes. *)
Theorem admin_delete_removes_exactly :
  forall (num : Type) (product_id : Z) (w : world num),
    admin_logged_in (w_session w) = true ->
    let by_id (k : Z) := find (fun p : product num => p_id p =? k) in
    let deleted := after (admin_delete product_id) w in
    if sqlite_integer product_id then
      fst (admin_delete product_id w) = Returned (redirect admin_ep)
      /\ flashes (w_session deleted)
         = (flashes (w_session w) ++ [("warning", "Product deleted")])%list
      /\ by_id product_id (products (w_db deleted)) = None
      /\ (forall other, other <> product_id ->
            by_id other (products (w_db deleted)) = by_id other (products (w_db w)))
      /\ (by_id product_id (products (w_db w)) = None ->
          products (w_db deleted) = products (w_db w))
      /\ products (w_db (after (admin_delete product_id) deleted))
         = products (w_db deleted)
    else admin_delete product_id w = (Raised OverflowError, w).
Proof.
  intros num product_id w Hadmin by_id deleted.
  destruct (admin_delete_shape product_id w)
    as [[Hno _]|[[_ [Hrange Hrun]]|[_ [Hrange Hrun]]]]; [congruence| |];
    rewrite Hrange; [exact Hrun|].
  assert (Hagain : admin_logged_in (w_session deleted) = true).
  { subst deleted. unfold after. rewrite Hrun. exact Hadmin. }
  destruct (admin_delete_shape product_id deleted)
    as [[Hno _]|[[_ [Hrange2 _]]|[_ [_ Hrun2]]]]; [congruence|congruence|].
  unfold after at 1. rewrite Hrun2. clear Hrun2 Hagain.
  subst deleted by_id. unfold after. rewrite Hrun.
  cbn [fst snd w_session w_db products flashes with_flash].
  split; [reflexivity|]. split; [reflexivity|]. split; [apply find_filter_same|].
  split; [intros other Hne; now apply find_filter_other|].
  split; [apply find_none_filter|].
  apply find_none_filter, find_filter_same.
Qed.

Lemma admin_delete_removes_exactly_witness :
  let w := World admin_session seeded_db [] in
  admin_logged_in (w_session w) = true
  /\ find (fun p => p_id p =? 1) (products (w_db (after (admin_delete 1) w))) = None
  /\ admin_delete (2 ^ 63) w = (Raised OverflowError, w).
Proof.
  cbv zeta. split; [reflexivity|].
  pose proof (admin_delete_removes_exactly Z 1 (World admin_session seeded_db []) eq_refl) as T.
  pose proof (admin_delete_removes_exactly Z (2 ^ 63) (World admin_session seeded_db [])
                eq_refl) as T'.
  cbv zeta in T, T'. split; [exact (proj1 (proj2 (proj2 T))) | exact T'].
Defined.

(** X15. Rowids stay distinct and the AUTOINCREMENT counter never falls
    behind them or moves back, whatever [admin_add], [admin_update] and
    [admin_delete] are sent; a row that [admin_add] appends gets a rowid
    above every rowid the counter has seen, so the id of a deleted row is
    never handed out again. *)
Theorem rowids_stay_distinct :
  forall (num : Type) (N : PyNumber num) (product_id : Z) (r : request) (w : world num),
    well_keyed (w_db w) ->
    (well_keyed (w_db (after (admin_add r) w))
     /\ product_seq (w_db w) <= product_seq (w_db (after (admin_add r) w))
     /\ (forall p, In p (products (w_db (after (admin_add r) w))) ->
           In p (products (w_db w)) \/ product_seq (w_db w) < p_id p))
    /\ (well_keyed (w_db (after (admin_update product_id r) w))
        /\ product_seq (w_db (after (admin_update product_id r) w)) = product_seq (w_db w)
        /\ map p_id (products (w_db (after (admin_update product_id r) w)))
           = map p_id (products (w_db w)))
    /\ (well_keyed (w_db (after (admin_delete product_id) w))
        /\ product_seq (w_db (after (admin_delete product_id) w)) = product_seq (w_db w)).
Proof.
  intros num N product_id r w Hkeys. unfold after. split; [|split].
  - destruct (admin_add_shape r w)
      as [E|[[c [m E]]|[[log E]|[n [p [c [i E]]]]]]]; rewrite E;
      cbn [snd rejected w_db products product_seq].
    + split; [assumption|]. split; [lia | auto].
    + split; [assumption|]. split; [lia | auto].
    + split; [assumption|]. split; [lia | auto].
    + split; [now apply well_keyed_insert|]. split; [unfold next_rowid; lia|].
      intros q Hq. apply in_app_or in Hq as [Hq|[<-|[]]]; [now left|].
      right. cbn [p_id]. unfold next_rowid. lia.
  - destruct (admin_update_shape product_id r w)
      as [[c [m E]]|[[e [log E]]|[n [p [c [i [log E]]]]]]]; rewrite E;
      cbn [snd rejected w_db products product_seq].
    + split; [assumption | split; reflexivity].
    + split; [assumption | split; reflexivity].
    + split; [|split; [reflexivity|]].
      * apply well_keyed_update; auto. intros q. now destruct (p_id q =? product_id).
      * rewrite map_map. apply map_ext. intros q. now destruct (p_id q =? product_id).
  - destruct (admin_delete_shape product_id w) as [[_ E]|[[_ [_ E]]|[_ [_ E]]]];
      rewrite E; cbn [snd w_db product_seq]; split; auto.
    now apply well_keyed_delete.
Qed.

Lemma rowids_stay_distinct_witness :
  well_keyed seeded_db
  /\ well_keyed
       (w_db (after (admin_add (post [("csrf_token", "t0k3n"); ("name", "Ball");
                                      ("price", "10"); ("category", "Outdoor");
                                      ("image", "b.png")]))
                (World admin_session seeded_db []))).
Proof.
  assert (Hkeys : well_keyed seeded_db).
  { split.
    - repeat constructor; simpl; intuition discriminate.
    - repeat constructor; simpl; discriminate. }
  split; [exact Hkeys|].
  exact (proj1 (proj1 (rowids_stay_distinct Z whole_prices 1 _
                          (World admin_session seeded_db []) Hkeys))).
Defined.

(** X16. [admin_update] for an id that no row has.  Where SQLite can hold
    the id (64 bits, signed): with an empty image the lookup [fetchone()]
    yields nothing and subscripting it raises [TypeError], after the SELECT
    and before any UPDATE; with a valid form that names an image the UPDATE
    matches no row, the table is unchanged, and the caller is still told
    "Product updated successfully!".  Where it cannot, binding the id
    raises [OverflowError] before any statement runs, in both cases. *)
Theorem admin_update_unknown_id :
  forall (num : Type) (N : PyNumber num) (product_id : Z) (r : request) (w : world num),
    token_valid (w_session w) r ->
    find (fun p => p_id p =? product_id) (products (w_db w)) = None ->
    let name := PyStr.strip (field_or_empty "name" (form r)) in
    let price := PyStr.strip (field_or_empty "price" (form r)) in
    let category := PyStr.strip (field_or_empty "category" (form r)) in
    let image := PyStr.strip (field_or_empty "image" (form r)) in
    (image = "" ->
     admin_update product_id r w =
     if sqlite_integer product_id
     then (Raised TypeError,
           World (w_session w) (w_db w) (w_log w ++ [SelectImage product_id])%list)
     else (Raised OverflowError, w))
    /\ (image <> "" ->
        validate_product_form name price category image = None ->
        admin_update product_id r w =
        if sqlite_integer product_id
        then (Returned (redirect admin_ep),
              World (with_flash (w_session w) "info" "Product updated successfully!")
                (w_db w)
                (w_log w ++ [UpdateProduct name price category image product_id])%list)
        else (Raised OverflowError, w)).
Proof.
  intros num N product_id r w Hok Hnone name price category image.
  assert (Hclash : forall n, rename_clashes n product_id (w_db w) = false).
  { intros n. unfold rename_clashes.
    assert (E : existsb (fun p => p_id p =? product_id) (products (w_db w)) = false).
    { apply not_true_is_false. intros Hex. apply existsb_exists in Hex as [p [Hin Hp]].
      now rewrite (find_none _ _ Hnone p Hin) in Hp. }
    rewrite E. now rewrite andb_false_r. }
  split.
  - intros Himage.
    rewrite (admin_update_run_no_image product_id r w Hok Himage). now rewrite Hnone.
  - intros Himage Hvalid.
    rewrite (admin_update_run_image product_id r w Hok Himage).
    fold name price category image. rewrite Hvalid, Hclash.
    destruct (sqlite_integer product_id); [|reflexivity].
    rewrite (find_none_map (products (w_db w)) product_id
               (fun p => Product (p_id p) name (price_cell price) category image) Hnone).
    now destruct (w_db w).
Qed.

Lemma admin_update_unknown_id_witness :
  let r := post [("csrf_token", "t0k3n"); ("name", "Ball"); ("price", "10");
                 ("category", "Outdoor"); ("image", "")] in
  let w := World admin_session seeded_db [] in
  token_valid (w_session w) r
  /\ find (fun p => p_id p =? 42) (products (w_db w)) = None
  /\ admin_update 42 r w = (Raised TypeError, World admin_session seeded_db [SelectImage 42])
  /\ admin_update (2 ^ 63) r w = (Raised OverflowError, w).
Proof.
  cbv zeta.
  assert (Hok : token_valid admin_session
                  (post [("csrf_token", "t0k3n"); ("name", "Ball"); ("price", "10");
                         ("category", "Outdoor"); ("image", "")])).
  { exists "t0k3n". split; [discriminate|]. split; reflexivity. }
  split; [exact Hok|]. split; [reflexivity|].
  pose proof (admin_update_unknown_id Z whole_prices 42 _
                (World admin_session seeded_db []) Hok eq_refl) as T.
  pose proof (admin_update_unknown_id Z whole_prices (2 ^ 63) _
                (World admin_session seeded_db []) Hok eq_refl) as T'.
  cbv zeta in T, T'. split; [exact (proj1 T eq_refl) | exact (proj1 T' eq_refl)].
Defined.

(** X17. [admin_edit] never renders the edit form and never reads the
    table: without the admin flag the decorator redirects to the login
    page, and with it the body's call [admin_required()] raises
    [TypeError] before anything else happens. *)
Theorem admin_edit_never_renders :
  forall (num : Type) (product_id : Z) (w : world num),
    admin_edit product_id w =
      (if admin_logged_in (w_session w)
       then Raised TypeError
       else Returned (answered (redirect admin_login_ep)),
       w)
    /\ forall row, fst (admin_edit product_id w) <> Returned (render_admin_edit row).
Proof.
  intros num product_id w.
  assert (E : admin_edit product_id w =
              (if admin_logged_in (w_session w)
               then Raised TypeError
               else Returned (answered (redirect admin_login_ep)),
               w)).
  { unfold admin_edit, admin_required_reply, bind, get_session, raise, ret.
    now destruct (admin_logged_in (w_session w)). }
  split; [exact E|]. intros row. rewrite E. cbn [fst].
  destruct (admin_logged_in (w_session w)); discriminate.
Qed.

(** X18. The three product routes of the admin panel leave the cart, the
    CSRF token, the admin flag and the users table as they found them,
    whatever the request and whether or not it is accepted; all they ever
    do to the session is queue at most one message. *)
Theorem admin_routes_keep_session :
  forall (num : Type) (N : PyNumber num) (product_id : Z) (r : request) (w : world num),
    let kept (w' : world num) :=
      session_cart (w_session w') = session_cart (w_session w)
      /\ csrf_token (w_session w') = csrf_token (w_session w)
      /\ admin_logged_in (w_session w') = admin_logged_in (w_session w)
      /\ users (w_db w') = users (w_db w)
      /\ (flashes (w_session w') = flashes (w_session w)
          \/ exists message,
               flashes (w_session w') = (flashes (w_session w) ++ [message])%list) in
    kept (after (admin_add r) w)
    /\ kept (after (admin_update product_id r) w)
    /\ kept (after (admin_delete product_id) w).
Proof.
  intros num N product_id r w kept. subst kept. cbv beta. unfold after.
  split; [|split].
  - destruct (admin_add_shape r w)
      as [E|[[c [m E]]|[[log E]|[n [p [c [i E]]]]]]]; rewrite E;
      cbn [snd rejected w_session w_db users with_flash session_cart csrf_token
           admin_logged_in flashes]; repeat split; eauto.
  - destruct (admin_update_shape product_id r w)
      as [[c [m E]]|[[e [log E]]|[n [p [c [i [log E]]]]]]]; rewrite E;
      cbn [snd rejected w_session w_db users with_flash session_cart csrf_token
           admin_logged_in flashes]; repeat split; eauto.
  - destruct (admin_delete_shape product_id w) as [[_ E]|[[_ [_ E]]|[_ [_ E]]]];
      rewrite E;
      cbn [snd w_session w_db users with_flash session_cart csrf_token
           admin_logged_in flashes]; repeat split; eauto.
Qed.

(** * Further properties of the account routes *)

Section AccountShapes.
Context {num : Type}.
Variable generate_password_hash : string -> string -> string.

Lemma find_user_existsb (rows : list user) username :
  existsb (fun u => (u_username u =? username)%string) rows = false <->
  find (fun u => (u_username u =? username)%string) rows = None.
Proof.
  induction rows as [|row rows IH]; simpl; [tauto|].
  destruct (u_username row =? username)%string; simpl; [split; discriminate | exact IH].
Qed.

Lemma find_user_app (rows : list user) username row :
  find (fun u => (u_username u =? username)%string) rows = None ->
  u_username row = username ->
  find (fun u => (u_username u =? username)%string) (rows ++ [row])%list = Some row.
Proof.
  intros Hnone Hname. induction rows as [|r rows IH]; simpl in *.
  - now rewrite Hname, String.eqb_refl.
  - destruct (u_username r =? username)%string; [discriminate | auto].
Qed.

Lemma find_user_In (rows : list user) username :
  find (fun u => (u_username u =? username)%string) rows = None <->
  ~ In username (map u_username rows).
Proof.
  induction rows as [|r rows IH]; simpl; [tauto|].
  destruct (String.eqb_spec (u_username r) username) as [E|E].
  - split; [discriminate | tauto].
  - rewrite IH. tauto.
Qed.

(** The four ways [register] can end. *)
Lemma register_shape salt r (w : world num) :
  let username := PyStr.strip (field_or_empty "username" (form r)) in
  let password := PyStr.strip (field_or_empty "password" (form r)) in
  (method r = GET
   /\ register generate_password_hash salt r w = (Returned render_register, w))
  \/ (method r = POST /\ (username = "" \/ password = "")
      /\ register generate_password_hash salt r w =
         (Returned redirect_register,
          World (with_flash (w_session w) "danger" "Username and password are required.")
            (w_db w) (w_log w)))
  \/ (method r = POST /\ username <> "" /\ password <> ""
      /\ find (fun u => (u_username u =? username)%string) (users (w_db w)) <> None
      /\ register generate_password_hash salt r w =
         (Returned redirect_register,
          World (with_flash (w_session w) "danger" "Username already exists.")
            (w_db w) (w_log w)))
  \/ (method r = POST /\ username <> "" /\ password <> ""
      /\ find (fun u => (u_username u =? username)%string) (users (w_db w)) = None
      /\ register generate_password_hash salt r w =
         (Returned (answered (redirect admin_login_ep)),
          World
            (with_flash (w_session w) "success"
               "Account created successfully. Please log in.")
            (Database (products (w_db w))
               (users (w_db w)
                ++ [User (fold_right Z.max 0 (map u_id (users (w_db w))) + 1) username
                      (generate_password_hash salt password)])%list
               (product_seq (w_db w)) (names_unique (w_db w)))
            (w_log w))).
Proof.
  intros username password.
  destruct (method r) eqn:Hmethod.
  { left. split; [reflexivity|]. unfold register. now rewrite Hmethod. }
  destruct (string_dec username "") as [Eu|Eu].
  { right. left. split; [reflexivity|]. split; [now left|].
    unfold register. rewrite Hmethod. fold username. now rewrite Eu. }
  destruct (string_dec password "") as [Ep|Ep].
  { right. left. split; [reflexivity|]. split; [now right|].
    unfold register. rewrite Hmethod. fold password. rewrite Ep.
    cbn [PyStr.truthy negb]. now rewrite orb_true_r. }
  pose proof (proj2 (PyStrFacts.truthy_true _) Eu) as Tu.
  pose proof (proj2 (PyStrFacts.truthy_true _) Ep) as Tp.
  destruct (find (fun u0 => (u_username u0 =? username)%string) (users (w_db w)))
    as [row|] eqn:Efind.
  - right. right. left. repeat (split; [congruence|]).
    unfold register. rewrite Hmethod. fold username password. rewrite Tu, Tp.
    cbn [negb orb]. unfold bind at 1. unfold get_database. cbv beta iota.
    cbn [w_db]. now rewrite Efind.
  - right. right. right. repeat (split; [congruence|]).
    unfold register. rewrite Hmethod. fold username password. rewrite Tu, Tp.
    cbn [negb orb]. unfold bind at 1. unfold get_database. cbv beta iota.
    cbn [w_db]. rewrite Efind.
    unfold insert_user. rewrite (proj2 (find_user_existsb _ _) Efind). reflexivity.
Qed.

Variable check_password_hash : string -> string -> bool.

(** [admin_login] in full: who gets the flag. *)
Lemma admin_login_shape r (w : world num) :
  let username := PyStr.strip (field_or_empty "username" (form r)) in
  let password := PyStr.strip (field_or_empty "password" (form r)) in
  let verified :=
    method r = POST /\ username <> "" /\ password <> ""
    /\ exists row,
         find (fun u => (u_username u =? username)%string) (users (w_db w)) = Some row
         /\ check_password_hash (u_password_hash row) password = true in
  (verified
   /\ admin_login check_password_hash r w =
      (Returned (redirect admin_ep),
       World (Session true (csrf_token (w_session w)) (session_cart (w_session w))
                (flashes (w_session w)))
         (w_db w) (w_log w ++ [SelectPasswordHash username])%list))
  \/ (~ verified
      /\ admin_logged_in (w_session (after (admin_login check_password_hash r) w))
         = admin_logged_in (w_session w)
      /\ csrf_token (w_session (after (admin_login check_password_hash r) w))
         = csrf_token (w_session w)
      /\ session_cart (w_session (after (admin_login check_password_hash r) w))
         = session_cart (w_session w)
      /\ w_db (after (admin_login check_password_hash r) w) = w_db w
      /\ fst (admin_login check_password_hash r w) <> Returned (redirect admin_ep)).
Proof.
  intros username password verified. subst verified.
  destruct (method r) eqn:Hmethod.
  - right. unfold after, admin_login. rewrite Hmethod. cbn.
    repeat split; try reflexivity; [|discriminate]. intros [Hpost _]. discriminate.
  - destruct (string_dec username "") as [Eu|Eu].
    { right. unfold after.
      rewrite (admin_login_blank check_password_hash r w Hmethod (or_introl Eu)). cbn.
      repeat split; try reflexivity; [|discriminate]. intros [_ [Hu _]]. contradiction. }
    destruct (string_dec password "") as [Ep|Ep].
    { right. unfold after.
      rewrite (admin_login_blank check_password_hash r w Hmethod (or_intror Ep)). cbn.
      repeat split; try reflexivity; [|discriminate]. intros [_ [_ [Hp _]]]. contradiction. }
    pose proof (admin_login_run check_password_hash r w Hmethod Eu Ep) as Hrun.
    cbv zeta in Hrun. fold username password in Hrun. unfold after. rewrite Hrun.
    destruct (find (fun u => (u_username u =? username)%string) (users (w_db w)))
      as [row|] eqn:Efind.
    + destruct (check_password_hash (u_password_hash row) password) eqn:Echeck.
      * left. split; [|reflexivity].
        split; [reflexivity|]. split; [assumption|]. split; [assumption|].
        exists row. split; [reflexivity | assumption].
      * right. cbn. repeat split; try reflexivity; [|discriminate].
        intros [_ [_ [_ [row' [[= <-] Hcheck]]]]]. congruence.
    + right. cbn. repeat split; try reflexivity; [|discriminate].
      intros [_ [_ [_ [row' [Hrow _]]]]]. discriminate.
Qed.

End AccountShapes.

Section RegisterInvariant.
Context {num : Type}.
Variable generate_password_hash : string -> string -> string.

Lemma register_keeps_usernames_distinct_aux salt r (w : world num) :
  usernames_distinct (w_db w) ->
  usernames_distinct (w_db (after (register generate_password_hash salt r) w)).
Proof.
  intros Hdistinct. unfold after.
  destruct (register_shape generate_password_hash salt r w)
    as [[_ E]|[[_ [_ E]]|[[_ [_ [_ [_ E]]]]|[_ [_ [_ [Hnone E]]]]]]]; rewrite E;
    cbn [snd w_db]; auto.
  unfold usernames_distinct in *. cbn [users]. rewrite map_app. cbn [map u_username].
  apply NoDup_rev in Hdistinct. rewrite <- (rev_involutive (_ ++ _)%list).
  apply NoDup_rev. rewrite rev_app_distr. cbn [rev app]. constructor; auto.
  rewrite <- in_rev. now apply find_user_In.
Qed.

End RegisterInvariant.

(** X19. [admin_login] grants the admin flag exactly to a POST whose
    trimmed username and password are non-empty, whose username has a row
    in [users], and whose password verifies against that row's hash; only
    then does it redirect to the admin listing.  Every other request
    leaves the flag as it was.  No login, granted or not, touches the cart,
    the token or the tables. *)
Theorem login_grants_flag_exactly :
  forall (num : Type) (check_password_hash : string -> string -> bool)
         (r : request) (w : world num),
    let username := PyStr.strip (field_or_empty "username" (form r)) in
    let password := PyStr.strip (field_or_empty "password" (form r)) in
    let verified :=
      method r = POST /\ username <> "" /\ password <> ""
      /\ exists row,
           find (fun u => (u_username u =? username)%string) (users (w_db w)) = Some row
           /\ check_password_hash (u_password_hash row) password = true in
    let w' := after (admin_login check_password_hash r) w in
    (admin_logged_in (w_session w') = true <->
     admin_logged_in (w_session w) = true \/ verified)
    /\ (fst (admin_login check_password_hash r w) = Returned (redirect admin_ep)
        <-> verified)
    /\ session_cart (w_session w') = session_cart (w_session w)
    /\ csrf_token (w_session w') = csrf_token (w_session w)
    /\ w_db w' = w_db w.
Proof.
  intros num check r w username password verified w'. subst w'.
  pose proof (admin_login_shape check r w) as Shape. cbv zeta in Shape.
  fold username password in Shape. fold verified in Shape.
  destruct Shape as [[Hv Hrun]|[Hnot [Hflag [Htok [Hcart [Hdb Hresp]]]]]].
  - unfold after. rewrite Hrun.
    cbn [fst snd w_session w_db admin_logged_in csrf_token session_cart].
    split; [split; [intros _; now right | reflexivity]|].
    split; [split; [intros _; exact Hv | reflexivity]|].
    split; [reflexivity|]. split; reflexivity.
  - rewrite Hflag, Htok, Hcart, Hdb.
    split; [split; [now left | intros [Hyes|Hyes]; [assumption | contradiction]]|].
    split; [split; [intros Hyes | intros Hyes]; contradiction|].
    split; [reflexivity|]. split; reflexivity.
Qed.

(** X20. [register] keeps usernames distinct and never runs into the
    UNIQUE constraint: the INSERT is only reached when no row has the
    username.  It adds at most one row to [users], and touches neither
    [products] nor the cart, the token or the admin flag; in particular it
    does not log the new account in. *)
Theorem register_keeps_usernames_distinct :
  forall (num : Type) (generate_password_hash : string -> string -> string)
         (salt : string) (r : request) (w : world num),
    usernames_distinct (w_db w) ->
    let w' := after (register generate_password_hash salt r) w in
    usernames_distinct (w_db w')
    /\ fst (register generate_password_hash salt r w) <> Returned integrity_error
    /\ fst (register generate_password_hash salt r w) <> Raised TypeError
    /\ (exists more, users (w_db w') = (users (w_db w) ++ more)%list
                     /\ (List.length more <= 1)%nat)
    /\ products (w_db w') = products (w_db w)
    /\ product_seq (w_db w') = product_seq (w_db w)
    /\ session_cart (w_session w') = session_cart (w_session w)
    /\ csrf_token (w_session w') = csrf_token (w_session w)
    /\ admin_logged_in (w_session w') = admin_logged_in (w_session w).
Proof.
  intros num gen salt r w Hdistinct w'. subst w'. unfold after.
  destruct (register_shape gen salt r w)
    as [[_ E]|[[_ [_ E]]|[[_ [_ [_ [_ E]]]]|[_ [_ [_ [Hnone E]]]]]]]; rewrite E;
    cbn [fst snd w_db w_session users products product_seq with_flash
         session_cart csrf_token admin_logged_in].
  1-3: (split; [assumption|]; split; [discriminate|]; split; [discriminate|];
        split; [exists []; split; [now rewrite app_nil_r | simpl; lia]|];
        repeat split).
  split.
  - pose proof (register_keeps_usernames_distinct_aux gen salt r w Hdistinct) as Hd.
    unfold after in Hd. now rewrite E in Hd.
  - split; [discriminate|]. split; [discriminate|].
    split; [eexists; split; [reflexivity | simpl; lia]|]. repeat split.
Qed.

Lemma register_keeps_usernames_distinct_witness :
  usernames_distinct seeded_db
  /\ usernames_distinct
       (w_db (after (register toy_hash "salt"
                       (post [("username", "second"); ("password", "pw")]))
                (World anonymous seeded_db []))).
Proof.
  assert (Hdistinct : usernames_distinct seeded_db).
  { repeat constructor. simpl. tauto. }
  split; [exact Hdistinct|].
  exact (proj1 (register_keeps_usernames_distinct Z toy_hash "salt" _
                  (World anonymous seeded_db []) Hdistinct)).
Defined.

(** X21. Once a username has been submitted to [register] with a
    non-blank password, whether that created the account or found it
    taken, every further registration of that username is refused with
    "Username already exists." and changes no table; the username has
    exactly one row. *)
Theorem second_registration_is_refused :
  forall (num : Type) (generate_password_hash : string -> string -> string)
         (salt1 salt2 : string) (r1 r2 : request) (w : world num),
    let username r := PyStr.strip (field_or_empty "username" (form r)) in
    let password r := PyStr.strip (field_or_empty "password" (form r)) in
    usernames_distinct (w_db w) ->
    method r1 = POST -> method r2 = POST ->
    username r1 <> "" -> password r1 <> "" -> password r2 <> "" ->
    username r2 = username r1 ->
    let once := after (register generate_password_hash salt1 r1) w in
    register generate_password_hash salt2 r2 once =
      (Returned redirect_register,
       World (with_flash (w_session once) "danger" "Username already exists.")
         (w_db once) (w_log once))
    /\ count_occ string_dec (map u_username (users (w_db once))) (username r1) = 1%nat.
Proof.
  intros num gen salt1 salt2 r1 r2 w username password
    Hdistinct Hpost1 Hpost2 Hu1 Hp1 Hp2 Hsame once.
  assert (Hfound : find (fun u => (u_username u =? username r1)%string)
                     (users (w_db once)) <> None).
  { subst once. unfold after.
    destruct (register_shape gen salt1 r1 w)
      as [[Hget _]|[[_ [[Hb|Hb] _]]|[[_ [_ [_ [Hsome E]]]]|[_ [_ [_ [Hnone E]]]]]]];
      try congruence; try contradiction; rewrite E; cbn [snd w_db users].
    - exact Hsome.
    - erewrite find_user_app; [discriminate | exact Hnone | reflexivity]. }
  split.
  - destruct (register_shape gen salt2 r2 once)
      as [[Hget _]|[[_ [[Hb|Hb] _]]|[[_ [_ [_ [_ E]]]]|[_ [_ [_ [Hnone _]]]]]]];
      try congruence; try contradiction.
    + fold (username r2) in Hb. congruence.
    + fold (username r2) in Hnone. rewrite Hsame in Hnone. contradiction.
  - pose proof (register_keeps_usernames_distinct_aux gen salt1 r1 w Hdistinct) as Hd.
    fold once in Hd.
    assert (Hin : In (username r1) (map u_username (users (w_db once)))).
    { destruct (in_dec string_dec (username r1) (map u_username (users (w_db once))))
        as [Hin|Hnot]; auto.
      exfalso. apply Hfound. now apply find_user_In. }
    apply (proj1 (NoDup_count_occ' string_dec _) Hd) in Hin. exact Hin.
Qed.

Lemma second_registration_is_refused_witness :
  let r := post [("username", "realuser"); ("password", "other")] in
  let w := World anonymous seeded_db [] in
  usernames_distinct (w_db w)
  /\ fst (register toy_hash "s2" r (after (register toy_hash "s1" r) w))
     = Returned redirect_register.
Proof.
  cbv zeta.
  assert (Hdistinct : usernames_distinct seeded_db).
  { repeat constructor. simpl. tauto. }
  split; [exact Hdistinct|].
  exact (f_equal fst
           (proj1 (second_registration_is_refused Z toy_hash "s1" "s2"
                     (post [("username", "realuser"); ("password", "other")])
                     (post [("username", "realuser"); ("password", "other")])
                     (World anonymous seeded_db []) Hdistinct eq_refl eq_refl
                     ltac:(vm_compute; discriminate) ltac:(vm_compute; discriminate)
                     ltac:(vm_compute; discriminate) eq_refl))).
Defined.

(** X22. Registration and login fit together: after a POST to
    [register] with a fresh, non-blank username and a non-blank password, a
    login with the same form is granted, provided the password library
    verifies the hash it has just generated; the stored credential is that
    hash and never the password text itself. *)
Theorem register_then_login :
  forall (num : Type) (generate_password_hash : string -> string -> string)
         (check_password_hash : string -> string -> bool)
         (salt : string) (r : request) (w : world num),
    let username := PyStr.strip (field_or_empty "username" (form r)) in
    let password := PyStr.strip (field_or_empty "password" (form r)) in
    method r = POST -> username <> "" -> password <> "" ->
    find (fun u => (u_username u =? username)%string) (users (w_db w)) = None ->
    check_password_hash (generate_password_hash salt password) password = true ->
    let registered := after (register generate_password_hash salt r) w in
    fst (register generate_password_hash salt r w)
      = Returned (answered (redirect admin_login_ep))
    /\ option_map u_password_hash
         (find (fun u => (u_username u =? username)%string) (users (w_db registered)))
       = Some (generate_password_hash salt password)
    /\ admin_logged_in (w_session registered) = admin_logged_in (w_session w)
    /\ fst (admin_login check_password_hash r registered) = Returned (redirect admin_ep)
    /\ admin_logged_in
         (w_session (after (admin_login check_password_hash r) registered)) = true.
Proof.
  intros num gen check salt r w username password Hpost Hu Hp Hfresh Hcheck registered.
  pose proof (register_shape gen salt r w) as Shape. cbv zeta in Shape.
  fold username password in Shape.
  destruct Shape as [[Hget _]|[[_ [[Hb|Hb] _]]|[[_ [_ [_ [Hsome _]]]]|[_ [_ [_ [_ E]]]]]]];
    try congruence.
  assert (Hrow : find (fun u => (u_username u =? username)%string)
                   (users (w_db registered))
                 = Some (User (fold_right Z.max 0 (map u_id (users (w_db w))) + 1)
                           username (gen salt password))).
  { subst registered. unfold after. rewrite E. cbn [snd w_db users].
    now apply find_user_app. }
  split; [now rewrite E|]. split; [now rewrite Hrow|].
  split; [subst registered; unfold after; now rewrite E|].
  pose proof (admin_login_run check r registered Hpost Hu Hp) as Hlogin.
  cbv zeta in Hlogin. fold username password in Hlogin.
  rewrite Hrow in Hlogin. cbn [u_password_hash] in Hlogin. rewrite Hcheck in Hlogin.
  unfold after at 1. rewrite Hlogin. split; reflexivity.
Qed.

Lemma register_then_login_witness :
  let r := post [("username", "newadmin"); ("password", "pw")] in
  let w := World anonymous seeded_db [] in
  find (fun u => (u_username u =? "newadmin")%string) (users (w_db w)) = None
  /\ toy_check (toy_hash "salt" "pw") "pw" = true
  /\ admin_logged_in
       (w_session (after (admin_login toy_check r) (after (register toy_hash "salt" r) w)))
     = true.
Proof.
  cbv zeta. split; [reflexivity|]. split; [reflexivity|].
  exact (proj2 (proj2 (proj2 (proj2
           (register_then_login Z toy_hash toy_check "salt"
              (post [("username", "newadmin"); ("password", "pw")])
              (World anonymous seeded_db []) eq_refl
              ltac:(vm_compute; discriminate) ltac:(vm_compute; discriminate)
              eq_refl eq_refl))))).
Defined.

(** X23. [admin_logout] clears the whole session: afterwards the admin
    listing, [admin_add] and [admin_delete] redirect to the login page,
    [admin_update] is refused for want of a token whatever the form
    carries, and the visitor's cart is empty.  The tables are untouched. *)
Theorem logout_clears_session :
  forall (num : Type) (N : PyNumber num) (product_id : Z) (r : request) (w : world num),
    let out := after admin_logout w in
    fst (admin_logout w) = Returned (redirect home_ep)
    /\ w_db out = w_db w
    /\ fst (admin out) = Returned (redirect admin_login_ep)
    /\ admin_add r out = (Returned (redirect admin_login_ep), out)
    /\ admin_delete product_id out = (Returned (redirect admin_login_ep), out)
    /\ admin_update product_id r out = rejected out "danger" "Invalid CSRF token"
    /\ fst (cart out) = Returned (render_cart [] zero)
    /\ (forall name, quantity_of name (w_session out) = 0).
Proof.
  intros num N product_id r w out.
  assert (E : out = World (Session false None None []) (w_db w) (w_log w)) by reflexivity.
  rewrite E. split; [reflexivity|]. split; [reflexivity|]. split; [reflexivity|].
  split; [now apply admin_add_requires_admin|].
  split; [now apply admin_delete_requires_admin|].
  split; [|split; reflexivity].
  apply admin_update_bad_token. unfold token_missing_or_mismatched. cbn [w_session csrf_token].
  destruct (field "csrf_token" (form r)); [right; discriminate | now left].
Qed.

(** X24. The session state machine: a granted login opens the admin
    listing, which shows every product, and keeps the visitor's cart and
    token; a logout after it closes the listing again. *)
Theorem login_opens_admin_until_logout :
  forall (num : Type) (N : PyNumber num)
         (check_password_hash : string -> string -> bool)
         (r : request) (w : world num) (row : user),
    let username := PyStr.strip (field_or_empty "username" (form r)) in
    let password := PyStr.strip (field_or_empty "password" (form r)) in
    method r = POST -> username <> "" -> password <> "" ->
    find (fun u => (u_username u =? username)%string) (users (w_db w)) = Some row ->
    check_password_hash (u_password_hash row) password = true ->
    let inside := after (admin_login check_password_hash r) w in
    fst (admin inside) = Returned (render_admin (products (w_db w)))
    /\ session_cart (w_session inside) = session_cart (w_session w)
    /\ csrf_token (w_session inside) = csrf_token (w_session w)
    /\ fst (admin (after admin_logout inside)) = Returned (redirect admin_login_ep).
Proof.
  intros num N check r w row username password Hpost Hu Hp Hrow Hcheck inside.
  pose proof (admin_login_run check r w Hpost Hu Hp) as Hlogin.
  cbv zeta in Hlogin. fold username password in Hlogin.
  rewrite Hrow, Hcheck in Hlogin.
  subst inside. unfold after. rewrite Hlogin. cbn [snd].
  repeat split.
Qed.

Lemma login_opens_admin_until_logout_witness :
  let r := post [("username", "realuser"); ("password", "secret")] in
  let w := World anonymous seeded_db [] in
  sample_check "hash-of-secret" "secret" = true
  /\ fst (admin (after (admin_login sample_check r) w))
     = Returned (render_admin seeded_products).
Proof.
  cbv zeta. split; [reflexivity|].
  exact (proj1
           (login_opens_admin_until_logout Z whole_prices sample_check
              (post [("username", "realuser"); ("password", "secret")])
              (World anonymous seeded_db []) (User 1 "realuser" "hash-of-secret")
              eq_refl ltac:(vm_compute; discriminate) ltac:(vm_compute; discriminate)
              eq_refl eq_refl)).
Defined.

(** * The scripts that prepare the database file *)

Module ScriptFacts.
Import seed_products_py.

Lemma has_name_In (rows : list (product Z)) name :
  existsb (fun p => (p_name p =? name)%string) rows = true <->
  In name (map p_name rows).
Proof.
  rewrite existsb_exists, in_map_iff. split.
  - intros [p [Hin Hp]]. apply String.eqb_eq in Hp. eauto.
  - intros [p [Hp Hin]]. exists p. split; auto. now apply String.eqb_eq.
Qed.

Lemma try_insert_unique t row : unique_name (try_insert t row) = unique_name t.
Proof.
  unfold try_insert, insert. destruct row as [[[name price] category] image].
  now destruct (unique_name t && existsb _ (table_rows t)).
Qed.

Lemma try_insert_extends t row :
  exists more, table_rows (try_insert t row) = (table_rows t ++ more)%list.
Proof.
  unfold try_insert, insert. destruct row as [[[name price] category] image].
  destruct (unique_name t && existsb _ (table_rows t)); cbn [table_rows].
  - exists []. now rewrite app_nil_r.
  - eauto.
Qed.

Lemma try_insert_present t row :
  unique_name t = true -> In (name_of row) (map p_name (table_rows t)) ->
  try_insert t row = t.
Proof.
  intros Hu Hin. unfold try_insert, insert.
  destruct row as [[[name price] category] image]. cbn [name_of fst] in Hin.
  apply has_name_In in Hin. now rewrite Hu, Hin.
Qed.

Lemma try_insert_names t row :
  unique_name t = true ->
  In (name_of row) (map p_name (table_rows (try_insert t row))).
Proof.
  intros Hu. unfold try_insert, insert.
  destruct row as [[[name price] category] image]. cbn [name_of fst]. rewrite Hu.
  cbn [andb]. destruct (existsb _ (table_rows t)) eqn:E.
  - now apply has_name_In.
  - cbn [table_rows]. rewrite map_app. apply in_or_app. right. now left.
Qed.

Lemma loop_unique l : forall t,
  unique_name (fold_left try_insert l t) = unique_name t.
Proof.
  induction l as [|row l IH]; intros t; simpl; auto.
  now rewrite IH, try_insert_unique.
Qed.

Lemma loop_extends l : forall t,
  exists more, table_rows (fold_left try_insert l t) = (table_rows t ++ more)%list.
Proof.
  induction l as [|row l IH]; intros t; simpl.
  - exists []. now rewrite app_nil_r.
  - destruct (IH (try_insert t row)) as [more Hmore].
    destruct (try_insert_extends t row) as [first Hfirst].
    exists (first ++ more)%list. now rewrite Hmore, Hfirst, app_assoc.
Qed.

Lemma loop_names l : forall t,
  unique_name t = true ->
  forall row, In row l ->
    In (name_of row) (map p_name (table_rows (fold_left try_insert l t))).
Proof.
  induction l as [|first l IH]; intros t Hu row Hin; simpl in *; [tauto|].
  destruct Hin as [->|Hin].
  - destruct (loop_extends l (try_insert t row)) as [more ->].
    rewrite map_app. apply in_or_app. left. now apply try_insert_names.
  - apply IH; auto. now rewrite try_insert_unique.
Qed.

Lemma loop_all_present l : forall t,
  unique_name t = true ->
  (forall row, In row l -> In (name_of row) (map p_name (table_rows t))) ->
  fold_left try_insert l t = t.
Proof.
  induction l as [|first l IH]; intros t Hu Hall; simpl; auto.
  rewrite try_insert_present; auto.
  - apply IH; auto. intros row Hin. apply Hall. now right.
  - apply Hall. now left.
Qed.

Lemma loop_grows l : forall t,
  unique_name t = false ->
  List.length (table_rows (fold_left try_insert l t))
  = (List.length (table_rows t) + List.length l)%nat.
Proof.
  induction l as [|row l IH]; intros t Hu; simpl; [lia|].
  rewrite IH by now rewrite try_insert_unique.
  unfold try_insert, insert. destruct row as [[[name price] category] image].
  rewrite Hu. cbn [andb table_rows]. rewrite length_app. simpl. lia.
Qed.

End ScriptFacts.

(** X25. Each [init_db] is idempotent and never alters a table that
    already exists.  Since both create [products] only if it is missing,
    the script that runs first decides its schema: after [database.py]
    first, product names stay UNIQUE under the application; after the
    application first, [database.py] adds no such constraint.  After the
    application's [init_db] both tables exist. *)
Theorem init_db_first_come_first_served :
  forall f : db_file,
    init_db (init_db f) = init_db f
    /\ database_py.init_db (database_py.init_db f) = database_py.init_db f
    /\ (forall t, file_products f = Some t ->
          file_products (init_db f) = Some t
          /\ file_products (database_py.init_db f) = Some t)
    /\ (forall rows, file_users f = Some rows ->
          file_users (init_db f) = Some rows)
    /\ (file_products f = None ->
        option_map unique_name (file_products (init_db (database_py.init_db f)))
          = Some true
        /\ option_map unique_name (file_products (database_py.init_db (init_db f)))
           = Some false)
    /\ serve (init_db f) <> None.
Proof.
  intros [[t|] [rows|]]; cbn; repeat split; try congruence; try discriminate;
    intros; repeat split; congruence.
Qed.

(** X26. On a [products] table with UNIQUE names, as [database.py]
    creates it, the seeding loop is idempotent: every seed name is in the
    table after one run, a second run fails on each INSERT, swallows the
    IntegrityError and leaves table and counter exactly as they were.  The
    rows that were there before are still there, in place. *)
Theorem seeding_is_idempotent_with_unique_names :
  forall t : products_table,
    unique_name t = true ->
    seed_products_py.seed_table (seed_products_py.seed_table t)
      = seed_products_py.seed_table t
    /\ (forall name,
          In name (map seed_products_py.name_of seed_products_py.products) ->
          In name (map p_name (table_rows (seed_products_py.seed_table t))))
    /\ exists more,
         table_rows (seed_products_py.seed_table t) = (table_rows t ++ more)%list.
Proof.
  intros t Hu. unfold seed_products_py.seed_table.
  assert (Hnames : forall row, In row seed_products_py.products ->
            In (seed_products_py.name_of row)
               (map p_name (table_rows (fold_left seed_products_py.try_insert
                                          seed_products_py.products t)))).
  { now apply ScriptFacts.loop_names. }
  split; [|split].
  - apply ScriptFacts.loop_all_present.
    + now rewrite ScriptFacts.loop_unique.
    + exact Hnames.
  - intros name Hin. apply in_map_iff in Hin as [row [<- Hrow]]. now apply Hnames.
  - apply ScriptFacts.loop_extends.
Qed.

Lemma seeding_is_idempotent_with_unique_names_witness :
  let t := ProductsTable true INTEGER [Product 7 "Football" 450 "Outdoor" "old.png"] 7 in
  unique_name t = true
  /\ seed_products_py.seed_table (seed_products_py.seed_table t)
     = seed_products_py.seed_table t.
Proof.
  cbv zeta. split; [reflexivity|].
  exact (proj1 (seeding_is_idempotent_with_unique_names
                  (ProductsTable true INTEGER
                     [Product 7 "Football" 450 "Outdoor" "old.png"] 7) eq_refl)).
Defined.

(** X27. On the table the application itself creates, where names are
    not UNIQUE, every run of the seeding script appends all five rows
    again: the table grows by five per run, by ten after two runs.  On a
    fresh file, [init_db] followed by one run gives the five seed rows with
    rowids 1 to 5; without any [init_db] the script fails on the missing
    table. *)
Theorem seeding_duplicates_without_unique_names :
  forall t : products_table,
    unique_name t = false ->
    List.length (table_rows (seed_products_py.seed_table t))
      = (List.length (table_rows t) + 5)%nat
    /\ List.length (table_rows (seed_products_py.seed_table (seed_products_py.seed_table t)))
       = (List.length (table_rows t) + 10)%nat
    /\ seed_products_py.seed (init_db (DbFile None None))
       = Some (DbFile (Some (ProductsTable false REAL seeded_products 5)) (Some []))
    /\ (forall rows, seed_products_py.seed (DbFile None rows) = None).
Proof.
  intros t Hu.
  split; [|split; [|split; [reflexivity | reflexivity]]];
    unfold seed_products_py.seed_table.
  - now rewrite ScriptFacts.loop_grows.
  - rewrite ScriptFacts.loop_grows by now rewrite ScriptFacts.loop_unique.
    rewrite ScriptFacts.loop_grows by assumption. simpl. lia.
Qed.

Lemma seeding_duplicates_without_unique_names_witness :
  let t := ProductsTable false REAL seeded_products 5 in
  unique_name t = false
  /\ List.length (table_rows (seed_products_py.seed_table t)) = 10%nat.
Proof.
  cbv zeta. split; [reflexivity|].
  exact (proj1 (seeding_duplicates_without_unique_names
                  (ProductsTable false REAL seeded_products 5) eq_refl)).
Defined.
